(** * blog-generator: the crawl / synthesis / store pipeline

    A shallow embedding of the two Go back ends of the repository:

    - the _template_ back end (the file whose [generateBlogPost] assembles the
      document from fixed text), in [Module Template];
    - the _external-provider_ back end ([backend/main.go], which hands the
      corpus to [GenerateBlogWithLlamaIndex]), in [Module Provider].

    Go strings are byte strings and are modelled by [string] (a list of
    bytes); [len] is [String.length].  Everything the program obtains from
    outside (the colly collector, the clock, the environment, the HTTP client,
    the UUID generator, the generation script) is a field of a [World]
    record; the file system is explicit state.  The image proxy is given
    the image host it fetches from as a function of its own.

    The development has three parts: the definitions (the library, the
    two back ends, and the worlds and documents used in statements), the
    statements of the specification (marked C1 to C10), and further
    properties of the code (marked X1 and up). *)

From Stdlib Require Import ZArith Ascii String List Lia Bool.
From stdpp Require Import gmap strings list sorting.

Local Open Scope string_scope.
Local Open Scope list_scope.
Local Open Scope stdpp_scope.

#[local] Arguments String.append _ _ : simpl nomatch.

(* ===================================================================== *)
(** * Go's standard library, as far as the program uses it *)
(* ===================================================================== *)

Definition len (s : string) : nat := String.length s.

Definition byteZ (c : ascii) : Z := Z.of_N (N_of_ascii c).

Definition str1 (c : ascii) : string := String c EmptyString.

(** ** unicode/utf8 and unicode.IsSpace *)

Module utf8.

Definition RuneError : Z := 0xFFFD%Z.
Definition RuneSelf : Z := 0x80%Z.

(** One step of [for _, r := range s]: the rune, the bytes it was decoded
    from, and whether the bytes were a well-formed encoding (when they are
    not, Go yields [RuneError] and consumes one byte). *)
Record chunk := Chunk { rune : Z; raw : string; wellformed : bool }.

Definition cont (b : Z) : bool := ((0x80 <=? b) && (b <=? 0xBF))%Z.

(** The [first] table of unicode/utf8: encoded size and the range accepted
    for the second byte. *)
Definition first (b0 : Z) : option (nat * Z * Z) :=
  (if b0 <? 0xC2 then None
   else if b0 <=? 0xDF then Some (2%nat, 0x80, 0xBF)
   else if b0 =? 0xE0 then Some (3%nat, 0xA0, 0xBF)
   else if b0 =? 0xED then Some (3%nat, 0x80, 0x9F)
   else if b0 <=? 0xEF then Some (3%nat, 0x80, 0xBF)
   else if b0 =? 0xF0 then Some (4%nat, 0x90, 0xBF)
   else if b0 <=? 0xF3 then Some (4%nat, 0x80, 0xBF)
   else if b0 =? 0xF4 then Some (4%nat, 0x80, 0x8F)
   else None)%Z.

Definition low6 (b : Z) : Z := Z.land b 0x3F.

Definition rune2 (b0 b1 : Z) : Z :=
  Z.lor (Z.shiftl (Z.land b0 0x1F) 6) (low6 b1).
Definition rune3 (b0 b1 b2 : Z) : Z :=
  Z.lor (Z.lor (Z.shiftl (Z.land b0 0x0F) 12) (Z.shiftl (low6 b1) 6)) (low6 b2).
Definition rune4 (b0 b1 b2 b3 : Z) : Z :=
  Z.lor (Z.lor (Z.lor (Z.shiftl (Z.land b0 0x07) 18) (Z.shiftl (low6 b1) 12))
               (Z.shiftl (low6 b2) 6)) (low6 b3).

Definition invalid (c : ascii) : chunk := Chunk RuneError (str1 c) false.

(** The sequence of runes of a string, as [DecodeRuneInString] applied
    repeatedly produces it. *)
Fixpoint runes (s : string) : list chunk :=
  match s with
  | EmptyString => []
  | String c0 s1 =>
    let b0 := byteZ c0 in
    (* what an ill-formed sequence decodes to; delayed until it is needed *)
    let bad (_ : unit) := invalid c0 :: runes s1 in
    if (b0 <? RuneSelf)%Z then Chunk b0 (str1 c0) true :: runes s1
    else
      match first b0, s1 with
      | Some (n, lo, hi), String c1 s2 =>
        let b1 := byteZ c1 in
        if ((lo <=? b1) && (b1 <=? hi))%Z then
          match n, s2 with
          | 2%nat, _ =>
            Chunk (rune2 b0 b1) (String c0 (str1 c1)) true :: runes s2
          | _, String c2 s3 =>
            let b2 := byteZ c2 in
            if cont b2 then
              match n, s3 with
              | 3%nat, _ =>
                Chunk (rune3 b0 b1 b2) (String c0 (String c1 (str1 c2))) true
                  :: runes s3
              | _, String c3 s4 =>
                let b3 := byteZ c3 in
                if cont b3 then
                  Chunk (rune4 b0 b1 b2 b3)
                        (String c0 (String c1 (String c2 (str1 c3)))) true
                    :: runes s4
                else bad ()
              | _, EmptyString => bad ()
              end
            else bad ()
          | _, EmptyString => bad ()
          end
        else bad ()
      | _, _ => bad ()
      end
  end.

Definition join (cs : list chunk) : string :=
  fold_right (fun c acc => raw c +:+ acc) EmptyString cs.

Definition ValidString (s : string) : bool := forallb wellformed (runes s).

End utf8.

Module unicode.

Definition IsSpace (r : Z) : bool :=
  (if r <=? 0xFF
   then (r =? 0x09) || (r =? 0x0A) || (r =? 0x0B) || (r =? 0x0C) || (r =? 0x0D)
        || (r =? 0x20) || (r =? 0x85) || (r =? 0xA0)
   else (r =? 0x1680) || ((0x2000 <=? r) && (r <=? 0x200A)) || (r =? 0x2028)
        || (r =? 0x2029) || (r =? 0x202F) || (r =? 0x205F) || (r =? 0x3000))%Z.

End unicode.

(** ** package strings *)

Module strings.

Definition isSpaceChunk (c : utf8.chunk) : bool := unicode.IsSpace (utf8.rune c).

Fixpoint dropSpaces (cs : list utf8.chunk) : list utf8.chunk :=
  match cs with
  | [] => []
  | c :: cs' => if isSpaceChunk c then dropSpaces cs' else cs
  end.

(** [strings.TrimSpace]: all leading and trailing white space (as defined
    by Unicode) removed. *)
Definition TrimSpace (s : string) : string :=
  utf8.join (rev (dropSpaces (rev (dropSpaces (utf8.runes s))))).

Fixpoint fieldsFrom (cur : string) (cs : list utf8.chunk) : list string :=
  match cs with
  | [] => match cur with EmptyString => [] | _ => [cur] end
  | c :: cs' =>
    if isSpaceChunk c then
      match cur with
      | EmptyString => fieldsFrom EmptyString cs'
      | _ => cur :: fieldsFrom EmptyString cs'
      end
    else fieldsFrom (cur +:+ utf8.raw c) cs'
  end.

(** [strings.Fields]: the maximal runs of non-space runes. *)
Definition Fields (s : string) : list string := fieldsFrom EmptyString (utf8.runes s).

Definition HasPrefix (s p : string) : bool := String.prefix p s.

Definition HasSuffix (s suffix : string) : bool :=
  (len suffix <=? len s)%nat
  && String.eqb (String.substring (len s - len suffix) (len suffix) s) suffix.

Definition TrimSuffix (s suffix : string) : string :=
  if HasSuffix s suffix then String.substring 0 (len s - len suffix) s else s.

(** [strings.Split s sep] for a non-empty separator: the pieces between
    the non-overlapping occurrences of [sep], found left to right.  [skip]
    counts the bytes of a matched separator still to be passed over. *)
Fixpoint splitFrom (sep : string) (skip : nat) (cur : string) (s : string)
  : list string :=
  match s with
  | EmptyString => [cur]
  | String c s' =>
    match skip with
    | S k => splitFrom sep k cur s'
    | O =>
      if HasPrefix s sep
      then cur :: splitFrom sep (len sep - 1) EmptyString s'
      else splitFrom sep 0 (cur +:+ str1 c) s'
    end
  end.

Definition Split (s sep : string) : list string := splitFrom sep 0 EmptyString s.

(** [strings.ReplaceAll s old new] for a non-empty [old]. *)
Fixpoint replaceFrom (old new : string) (skip : nat) (s : string) : string :=
  match s with
  | EmptyString => EmptyString
  | String c s' =>
    match skip with
    | S k => replaceFrom old new k s'
    | O =>
      if HasPrefix s old
      then new +:+ replaceFrom old new (len old - 1) s'
      else String c (replaceFrom old new 0 s')
    end
  end.

Definition ReplaceAll (s old new : string) : string := replaceFrom old new 0 s.

(** [strings.Contains s substr] for a [substr] of one byte. *)
Definition ContainsByte (s : string) (c : ascii) : bool :=
  existsb (Ascii.eqb c) (list_ascii_of_string s).

(** [strings.Cut s sep] for a separator of one byte: the text before its
    first occurrence, the text after it, and whether it occurs. *)
Fixpoint Cut (s : string) (sep : ascii) : string * string * bool :=
  match s with
  | EmptyString => (EmptyString, EmptyString, false)
  | String c s' =>
    if Ascii.eqb c sep then (EmptyString, s', true)
    else let '(before, after, found) := Cut s' sep in (String c before, after, found)
  end.

End strings.

(** ** net/url *)

Module url.

Definition upperhex (n : N) : ascii :=
  match String.get (N.to_nat n) "0123456789ABCDEF" with
  | Some c => c
  | None => "0"%char
  end.

Definition between (lo hi c : ascii) : bool :=
  ((byteZ lo <=? byteZ c) && (byteZ c <=? byteZ hi))%Z.

(** [shouldEscape c encodeQueryComponent]: everything but the unreserved
    characters is escaped. *)
Definition shouldEscape (c : ascii) : bool :=
  negb (between "a" "z" c || between "A" "Z" c || between "0" "9" c
        || Ascii.eqb c "-" || Ascii.eqb c "_" || Ascii.eqb c "." || Ascii.eqb c "~").

Definition escapeByte (c : ascii) : string :=
  if Ascii.eqb c " " then "+"
  else if shouldEscape c
       then String "%" (String (upperhex (N.shiftr (N_of_ascii c) 4))
                               (str1 (upperhex (N.land (N_of_ascii c) 15))))
       else str1 c.

Fixpoint QueryEscape (s : string) : string :=
  match s with
  | EmptyString => EmptyString
  | String c s' => escapeByte c +:+ QueryEscape s'
  end.

(** *** Reading a query back: [QueryUnescape], [ParseQuery], [Values.Get] *)

Definition ishex (c : ascii) : bool :=
  between "0" "9" c || between "a" "f" c || between "A" "F" c.

Definition unhex (c : ascii) : N :=
  if between "0" "9" c then N_of_ascii c - N_of_ascii "0"
  else if between "a" "f" c then N_of_ascii c - N_of_ascii "a" + 10
  else if between "A" "F" c then N_of_ascii c - N_of_ascii "A" + 10
  else 0.

(** The first pass of [unescape]: every [%] must be followed by two
    hexadecimal digits. *)
Fixpoint escapesOK (s : string) : bool :=
  match s with
  | EmptyString => true
  | String c s' =>
    if Ascii.eqb c "%" then
      match s' with
      | String h (String l s'') => ishex h && ishex l && escapesOK s''
      | _ => false
      end
    else escapesOK s'
  end.

(** The second pass: [%XY] becomes the byte [unhex X << 4 | unhex Y] and
    (in a query component) [+] becomes a space. *)
Fixpoint unescapeBytes (s : string) : string :=
  match s with
  | EmptyString => EmptyString
  | String c s' =>
    if Ascii.eqb c "%" then
      match s' with
      | String h (String l s'') =>
        String (ascii_of_N (N.lor (N.shiftl (unhex h) 4) (unhex l))) (unescapeBytes s'')
      | _ => EmptyString
      end
    else if Ascii.eqb c "+" then String " " (unescapeBytes s')
    else String c (unescapeBytes s')
  end.

(** [url.QueryUnescape]; [None] is its [EscapeError]. *)
Definition QueryUnescape (s : string) : option string :=
  if escapesOK s then
    if negb (strings.ContainsByte s "%") && negb (strings.ContainsByte s "+")
    then Some s
    else Some (unescapeBytes s)
  else None.

(** One [key=value] setting of a query, in the loop of [parseQuery]: a
    setting with a semicolon, an empty one, and one whose key or value does
    not unescape are skipped; the value is appended to the values of its
    key. *)
Definition addSetting (m : gmap string (list string)) (key : string)
  : gmap string (list string) :=
  if strings.ContainsByte key ";" then m
  else if String.eqb key "" then m
  else
    let '(key, value, _) := strings.Cut key "=" in
    match QueryUnescape key with
    | None => m
    | Some key =>
      match QueryUnescape value with
      | None => m
      | Some value => <[key := default [] (m !! key) ++ [value]]> m
      end
    end.

(** The loop [for query != ""] of [parseQuery], which cuts the query at
    each [&]: [key] is the setting read so far. *)
Fixpoint parseFrom (m : gmap string (list string)) (key : string) (query : string)
  : gmap string (list string) :=
  match query with
  | EmptyString => addSetting m key
  | String c query' =>
    if Ascii.eqb c "&" then parseFrom (addSetting m key) EmptyString query'
    else parseFrom m (key +:+ str1 c) query'
  end.

(** [u.Query()] on the raw query of the request URL: [ParseQuery] with its
    error dropped. *)
Definition ParseQuery (query : string) : gmap string (list string) :=
  parseFrom ∅ EmptyString query.

(** [Values.Get]: the first value of the key, or the empty string. *)
Definition Get (v : gmap string (list string)) (key : string) : string :=
  match v !! key with
  | Some (value :: _) => value
  | _ => ""
  end.

End url.

(** ** path/filepath (Unix separators)

    Every path of the program is relative to the working directory.  A
    cleaned relative path is kept as the list of its elements: the file
    system below is keyed by such lists, the empty list being the working
    directory. *)

Module filepath.

Abbreviation path := (list string) (only parsing).

Fixpoint extFrom (rev_rest : list ascii) (acc : string) : string :=
  match rev_rest with
  | [] => EmptyString
  | c :: r =>
    if Ascii.eqb c "/" then EmptyString
    else if Ascii.eqb c "." then String "." acc
    else extFrom r (String c acc)
  end.

(** [filepath.Ext]: the suffix beginning at the final dot of the final
    element; empty if there is no dot. *)
Definition Ext (p : string) : string :=
  extFrom (rev (list_ascii_of_string p)) EmptyString.

(** One element of the path under [Clean]: empty and [.] elements vanish,
    [..] removes the element before it (and stays when there is none, the
    path being relative).  The stack is the cleaned path so far, last
    element first. *)
Definition cleanStep (stack : list string) (e : string) : list string :=
  if String.eqb e "" || String.eqb e "." then stack
  else if String.eqb e ".." then
    match stack with
    | [] => [e]
    | top :: below => if String.eqb top ".." then e :: stack else below
    end
  else e :: stack.

Definition Clean (p : string) : path :=
  rev (fold_left cleanStep (strings.Split p "/") []).

(** [filepath.Join] of two elements: empty elements are ignored, the rest
    is joined by the separator and cleaned. *)
Definition Join (a b : string) : path :=
  if String.eqb a "" then Clean b
  else if String.eqb b "" then Clean a
  else Clean (a +:+ "/" +:+ b).

End filepath.

(** ** encoding/json

    The byte level of JSON (quoting, indentation, white space) is not
    modelled: a JSON text is represented by the value it denotes.  What is
    modelled is everything that depends on the program's struct
    declarations: member names, [omitempty], the coercion of strings to
    valid UTF-8 on output, and on input the matching of member names to
    fields, the zero value of absent members and the type errors. *)

#[warnings="-register-all"]
Inductive json : Type :=
| JNull
| JBool (b : bool)
| JNumber (n : Z)            (* an integer literal *)
| JFraction (literal : string) (* any other number literal *)
| JString (s : string)
| JArray (elems : list json)
| JObject (members : list (string * json)).

Module jsonlib.

Definition replacement : string :=
  String (ascii_of_nat 239) (String (ascii_of_nat 191) (str1 (ascii_of_nat 189))).

(** Strings are written "coerced to valid UTF-8, replacing invalid bytes
    with the Unicode replacement rune". *)
Definition coerceUTF8 (s : string) : string :=
  utf8.join (map (fun c => if utf8.wellformed c then c
                           else utf8.Chunk utf8.RuneError replacement true)
                 (utf8.runes s)).

Definition encString (s : string) : json := JString (coerceUTF8 s).

(** A slice is a list; a nil slice and an empty one are not told apart
    (Go writes [null] for the first and [[]] for the second, and reads
    both back as a slice of length 0). *)
Definition encSlice {A} (enc : A -> json) (l : list A) : json := JArray (map enc l).

(** Members tagged [omitempty]. *)
Definition optString (name s : string) : list (string * json) :=
  match s with EmptyString => [] | _ => [(name, encString s)] end.
Definition optInt (name : string) (n : Z) : list (string * json) :=
  if (n =? 0)%Z then [] else [(name, JNumber n)].
Definition optBool (name : string) (b : bool) : list (string * json) :=
  if b then [(name, JBool b)] else [].
Definition optSlice {A} (enc : A -> json) (name : string) (l : list A)
  : list (string * json) :=
  match l with [] => [] | _ => [(name, encSlice enc l)] end.

(** Member names match field names exactly or under Unicode simple case
    folding: ASCII letters fold to lower case, and the only non-ASCII runes
    folding to an ASCII letter are the Kelvin sign and the long s. *)
Definition foldChunk (c : utf8.chunk) : string :=
  let r := utf8.rune c in
  if (utf8.wellformed c && (0x41 <=? r) && (r <=? 0x5A))%Z
  then str1 (ascii_of_N (Z.to_N (r + 32)))
  else if (utf8.wellformed c && (r =? 0x212A))%Z then "k"
  else if (utf8.wellformed c && (r =? 0x17F))%Z then "s"
  else utf8.raw c.

Definition foldName (s : string) : string :=
  fold_right (fun c acc => foldChunk c +:+ acc) EmptyString (utf8.runes s).

Definition matches (key field : string) : bool :=
  String.eqb (foldName key) (foldName field).

Definition minInt64 : Z := (- 2 ^ 63)%Z.
Definition maxInt64 : Z := (2 ^ 63 - 1)%Z.
Definition isInt (n : Z) : bool := ((minInt64 <=? n) && (n <=? maxInt64))%Z.

(** Decoding into a field that currently holds [cur]: [null] leaves the
    field alone, a value of the wrong JSON type is an error. *)
Definition intoString (v : json) (cur : string) : option string :=
  match v with JString s => Some s | JNull => Some cur | _ => None end.

Definition intoInt (v : json) (cur : Z) : option Z :=
  match v with
  | JNumber n => if isInt n then Some n else None
  | JNull => Some cur
  | _ => None
  end.

Definition intoBool (v : json) (cur : bool) : option bool :=
  match v with JBool b => Some b | JNull => Some cur | _ => None end.

Definition intoSlice {A} (elem : json -> A -> option A) (zero : A)
           (v : json) (cur : list A) : option (list A) :=
  match v with
  | JArray l => mapM (fun x => elem x zero) l
  | JNull => Some []
  | _ => None
  end.

(** One member of an object, stored by [field] into the field its name
    matches (a member that matches no field is skipped); an earlier error
    stays. *)
Definition member {S} (field : string -> json -> S -> option S)
           (acc : option S) (m : string * json) : option S :=
  s ← acc; field m.1 m.2 s.

(** Decoding an object into a struct: the members are taken in order. *)
Definition intoStruct {S} (field : string -> json -> S -> option S)
           (v : json) (cur : S) : option S :=
  match v with
  | JObject members => fold_left (member field) members (Some cur)
  | JNull => Some cur
  | _ => None
  end.

End jsonlib.

(** ** errors, panics *)

Inductive error : Type :=
| ErrNotExist      (* no such file or directory *)
| ErrNotDir        (* not a directory *)
| ErrIsDir         (* is a directory *)
| ErrJSON          (* syntax or type error reported by encoding/json *)
| ErrExec.         (* the child process could not be run or failed *)

(** A Go result [(T, error)] whose value is used only when the error is nil. *)
Inductive result (A : Type) : Type :=
| Ok (a : A)
| Err (e : error).
Arguments Ok {A} a.
Arguments Err {A} e.

(** A computation that may panic at run time (index or slice bound out of
    range). *)
Inductive outcome (A : Type) : Type :=
| Done (a : A)
| Panic (reason : string).
Arguments Done {A} a.
Arguments Panic {A} reason.

#[global] Instance outcome_bind : MBind outcome := fun A B k m =>
  match m with
  | Done a => k a
  | Panic r => Panic r
  end.

(** [l[i]]. *)
Definition index {A} (l : list A) (i : nat) : outcome A :=
  match l !! i with
  | Some a => Done a
  | None => Panic "index out of range"
  end.

(** [l[:n]] for a slice whose capacity is its length. *)
Definition sliceTo {A} (l : list A) (n : nat) : outcome (list A) :=
  if (n <=? length l)%nat then Done (take n l) else Panic "slice bounds out of range".

(** ** package os: the file system

    A file holds bytes; what the program does with bytes is hand them to
    encoding/json, so a file's bytes are represented by what the decoder
    reading them finds: a JSON text (by its value) or something else. *)

Inductive content : Type :=
| JSONText (v : json)
| NotJSON (raw : string).

Inductive node : Type :=
| File (c : content)
| Dir.

Module os.

Record DirEntry := { Name : string; IsDir : bool }.

Definition isDirNode (n : node) : bool :=
  match n with Dir => true | File _ => false end.

(** The working directory (the empty path) always exists. *)
Definition stat (fs : gmap (list string) node) (p : filepath.path) : option node :=
  match p with
  | [] => Some Dir
  | _ => fs !! p
  end.

Fixpoint mkdirs (fs : gmap (list string) node) (done : filepath.path)
         (todo : list string) : gmap (list string) node * option error :=
  match todo with
  | [] => (fs, None)
  | e :: rest =>
    let p := done ++ [e] in
    match stat fs p with
    | Some Dir => mkdirs fs p rest
    | Some (File _) => (fs, Some ErrNotDir)
    | None => mkdirs (<[p := Dir]> fs) p rest
    end
  end.

(** [os.MkdirAll]: creates the directory and the missing parents; fails
    when an element of the path exists and is not a directory. *)
Definition MkdirAll (fs : gmap (list string) node) (p : string)
  : gmap (list string) node * option error :=
  mkdirs fs [] (filepath.Clean p).

(** Creating (or truncating) the file at [p] and writing [c] to it:
    [os.Create] followed by the write, or [ioutil.WriteFile].  The parent
    must be an existing directory and [p] must not be one. *)
Definition WriteFile (fs : gmap (list string) node) (p : filepath.path) (c : content)
  : gmap (list string) node * option error :=
  match stat fs p with
  | Some Dir => (fs, Some ErrIsDir)
  | _ =>
    match stat fs (removelast p) with
    | Some Dir => (<[p := File c]> fs, None)
    | Some (File _) => (fs, Some ErrNotDir)
    | None => (fs, Some ErrNotExist)
    end
  end.

(** Opening the file at [p] and reading all of it. *)
Definition ReadFile (fs : gmap (list string) node) (p : filepath.path) : result content :=
  match stat fs p with
  | Some (File c) => Ok c
  | Some Dir => Err ErrIsDir
  | None => Err ErrNotExist
  end.

Definition entryOf (dir : filepath.path) (kn : list string * node) : option DirEntry :=
  match reverse kn.1 with
  | name :: rparent =>
    if decide (reverse rparent = dir)
    then Some {| Name := name; IsDir := isDirNode kn.2 |}
    else None
  | [] => None
  end.

Definition byName (a b : DirEntry) : Prop := String.leb (Name a) (Name b) = true.

#[global] Instance byName_dec a b : Decision (byName a b).
Proof. unfold byName. apply _. Defined.

(** [os.ReadDir] / [ioutil.ReadDir]: the entries of a directory, sorted
    by file name. *)
Definition ReadDir (fs : gmap (list string) node) (p : string) : result (list DirEntry) :=
  let dir := filepath.Clean p in
  match stat fs dir with
  | Some Dir => Ok (merge_sort byName (omap (entryOf dir) (map_to_list fs)))
  | Some (File _) => Err ErrNotDir
  | None => Err ErrNotExist
  end.

Definition IsNotExist (e : error) : bool :=
  match e with ErrNotExist => true | _ => false end.

End os.

(** ** What the program is given from outside *)

(** A colly [HTMLElement] as the callback uses it: the URL of the request
    that fetched the page, [e.ChildText(selector)], and the text of each
    element that [e.ForEach(selector, ...)] visits, in document order. *)
Record HTMLElement := {
  Request_URL : string;
  ChildText : string -> string;
  ForEach_Text : string -> list string
}.

(** One [c.Visit(url)] of a synchronous collector: the elements of the
    fetched page matching the registered selector, which the [OnHTML]
    callback is run on, and whether [Visit] returned an error (it does when
    the page cannot be fetched).  The program registers no callback that
    follows links, so a visit fetches the one page of its URL; the depth
    bound and the list of allowed domains given to the collector do not show
    in what the callback sees. *)
Record VisitResult := {
  matched : list HTMLElement;
  visitFailed : bool
}.

Inductive HttpResult : Type :=
| NoResponse
| Response (StatusCode : Z) (Body : content).

Inductive ExecResult : Type :=
| RunFailed
| Exited (stdout : content).

Record World := {
  (** the collector: the page behind each URL *)
  colly_Visit : string -> VisitResult;
  (** [time.Now().Format("2006-01-02")] and
      [time.Now().AddDate(0, 0, -2).Format("2006-01-02")], the clock being
      read on the same day throughout a request *)
  today : string;
  twoDaysAgo : string;
  (** [os.Getenv] *)
  Getenv : string -> string;
  (** [http.NewRequest] fails on this URL *)
  NewRequest_fails : string -> bool;
  (** [client.Do]: GET of a URL with an [Authorization] header *)
  client_Do : string -> string -> HttpResult;
  (** [uuid.New().String()] *)
  uuid_New : string;
  (** [python3 llamaindex_service.py] run on a standard input *)
  python3_llamaindex_service : json -> ExecResult
}.

Definition StatusOK : Z := 200.
Definition StatusBadRequest : Z := 400.
Definition StatusNotFound : Z := 404.
Definition StatusInternalServerError : Z := 500.

(** ** Records shared by the two back ends

    Every Go struct is a record [t] in a module of the struct's name, so
    that fields keep their names: [ScrapedContent.Title c]. *)

(** One record of the corpus. *)
Module ScrapedContent.
Record t := { URL : string; Title : string; Text : string; PublishedAt : string }.

(** As written by [json.Marshal] (no member is [omitempty] in the back end
    that marshals it). *)
Definition encode (c : t) : json :=
  JObject [("url", jsonlib.encString (URL c));
           ("title", jsonlib.encString (Title c));
           ("text", jsonlib.encString (Text c));
           ("publishedAt", jsonlib.encString (PublishedAt c))].
End ScrapedContent.


Module RequestBody.
Record t := { Topic : string }.

Definition field (k : string) (v : json) (r : t) : option t :=
  if jsonlib.matches k "topic"
  then s ← jsonlib.intoString v (Topic r); Some {| Topic := s |}
  else Some r.

(** [json.NewDecoder(r.Body).Decode(&reqBody)] *)
Definition decode (body : content) : result t :=
  match body with
  | JSONText v =>
    match jsonlib.intoStruct field v {| Topic := "" |} with
    | Some r => Ok r
    | None => Err ErrJSON
    end
  | NotJSON _ => Err ErrJSON
  end.
End RequestBody.

(** ** net/http, as the image proxy uses it *)

Module http.

(** [Header.Get] and [Header.Set] of a key written in canonical form
    (["Content-Type"]); the keys of a response header are canonical. *)
Definition Get (h : gmap string (list string)) (key : string) : string :=
  match h !! key with
  | Some (value :: _) => value
  | _ => ""
  end.

Definition Set_ (h : gmap string (list string)) (key value : string)
  : gmap string (list string) :=
  <[key := [value]]> h.

(** [WriteHeader] panics on a status code that has not three digits. *)
Definition validCode (code : Z) : bool := ((100 <=? code) && (code <=? 999))%Z.

End http.

(** What [client.Do] gives the image proxy: an error, or the status, the
    header and the body of the response. *)
Inductive ImageResult : Type :=
| NoImage
| Image (StatusCode : Z) (Header : gmap string (list string)) (Body : string).

Inductive ProxyCause : Type :=
| BadRequestURL            (* the error of http.NewRequest *)
| FetchFailed              (* the error of client.Do *)
| UpstreamStatus (code : Z). (* the status code formatted into the message *)

(** What the image proxy writes: the relayed response, or [http.Error]
    with a status, the text of the message and what is appended to it. *)
Inductive ProxyReply : Type :=
| Relayed (StatusCode : Z) (Header : gmap string (list string)) (Body : string)
| Refused (code : Z) (msg : string) (cause : option ProxyCause).

(** [for k, v := range resp.Header { w.Header()[k] = v }], on the entries
    in the order in which the loop meets them. *)
Definition copyHeaders (entries : list (string * list string))
           (header : gmap string (list string)) : gmap string (list string) :=
  fold_left (fun h kv => <[kv.1 := kv.2]> h) entries header.

(** ** The [OnHTML] callback

    The callback registered on the collector is the same in the two back
    ends, but for the bound [maxCount] on the number of records. *)

(** The Go literal of a blank line: two line feeds. *)
Definition blankLine : string :=
  String (ascii_of_nat 10) (str1 (ascii_of_nat 10)).

(** The paragraph loop of the [OnHTML] callback: each kept paragraph is
    appended to the text, followed by a blank line. *)
Definition paragraphStep (text : string) (elText : string) : string :=
  let paragraphText := strings.TrimSpace elText in
  if (20 <? len paragraphText)%nat
  then text +:+ paragraphText +:+ blankLine
  else text.

(** The body of the callback up to the acceptance test: the record built
    from one matched element. *)
Definition extract (e : HTMLElement) : ScrapedContent.t :=
  let title := ChildText e "h1, h2, .title, .headline" in
  let text := fold_left paragraphStep (ForEach_Text e "p") "" in
  let publishDate := ChildText e "time, .date, .published, .timestamp" in
  {| ScrapedContent.URL := Request_URL e;
     ScrapedContent.Title := title;
     ScrapedContent.Text := text;
     ScrapedContent.PublishedAt := if String.eqb publishDate "" then "" else publishDate |}.

(** The callback itself, on the two variables it captures: [count] and
    [contents]. *)
Definition onHTML (maxCount : nat) (st : nat * list ScrapedContent.t) (e : HTMLElement)
  : nat * list ScrapedContent.t :=
  let '(count, contents) := st in
  if (maxCount <=? count)%nat then st
  else
    let content := extract e in
    if negb (String.eqb (ScrapedContent.Title content) "")
       && (100 <? len (ScrapedContent.Text content))%nat
    then (S count, contents ++ [content])
    else st.

(** [c.Visit(url)]: the callback runs on every matched element of the page;
    the error of the visit is returned. *)
Definition Visit (w : World) (maxCount : nat) (url : string)
           (st : nat * list ScrapedContent.t) : nat * list ScrapedContent.t * bool :=
  let r := colly_Visit w url in
  (fold_left (onHTML maxCount) (matched r) st, visitFailed r).

Definition searchURL (topic : string) : string :=
  "https://news.google.com/search?q=" +:+ strings.ReplaceAll topic " " "+".

Definition wikiURL (topic : string) : string :=
  "https://en.wikipedia.org/wiki/" +:+ strings.ReplaceAll topic " " "_".

(* ===================================================================== *)
(** * The template back end *)
(* ===================================================================== *)

Module Template.

Module BlogContent.
Record t := {
  Type_ : string;
  Text : string;
  Level : Z;
  URL : string;
  Alt : string;
  Caption : string;
  Citation : string;
  Items : list string;
  Ordered : bool
}.

Definition zero : t :=
  {| Type_ := ""; Text := ""; Level := 0%Z; URL := ""; Alt := ""; Caption := "";
     Citation := ""; Items := []; Ordered := false |}.

Definition set_Type_ (x : string) (b : t) : t :=
  {| Type_ := x; Text := Text b; Level := Level b; URL := URL b; Alt := Alt b;
     Caption := Caption b; Citation := Citation b; Items := Items b;
     Ordered := Ordered b |}.
Definition set_Text (x : string) (b : t) : t :=
  {| Type_ := Type_ b; Text := x; Level := Level b; URL := URL b; Alt := Alt b;
     Caption := Caption b; Citation := Citation b; Items := Items b;
     Ordered := Ordered b |}.
Definition set_Level (x : Z) (b : t) : t :=
  {| Type_ := Type_ b; Text := Text b; Level := x; URL := URL b; Alt := Alt b;
     Caption := Caption b; Citation := Citation b; Items := Items b;
     Ordered := Ordered b |}.
Definition set_URL (x : string) (b : t) : t :=
  {| Type_ := Type_ b; Text := Text b; Level := Level b; URL := x; Alt := Alt b;
     Caption := Caption b; Citation := Citation b; Items := Items b;
     Ordered := Ordered b |}.
Definition set_Alt (x : string) (b : t) : t :=
  {| Type_ := Type_ b; Text := Text b; Level := Level b; URL := URL b; Alt := x;
     Caption := Caption b; Citation := Citation b; Items := Items b;
     Ordered := Ordered b |}.
Definition set_Caption (x : string) (b : t) : t :=
  {| Type_ := Type_ b; Text := Text b; Level := Level b; URL := URL b;
     Alt := Alt b; Caption := x; Citation := Citation b; Items := Items b;
     Ordered := Ordered b |}.
Definition set_Citation (x : string) (b : t) : t :=
  {| Type_ := Type_ b; Text := Text b; Level := Level b; URL := URL b;
     Alt := Alt b; Caption := Caption b; Citation := x; Items := Items b;
     Ordered := Ordered b |}.
Definition set_Items (x : list string) (b : t) : t :=
  {| Type_ := Type_ b; Text := Text b; Level := Level b; URL := URL b;
     Alt := Alt b; Caption := Caption b; Citation := Citation b; Items := x;
     Ordered := Ordered b |}.
Definition set_Ordered (x : bool) (b : t) : t :=
  {| Type_ := Type_ b; Text := Text b; Level := Level b; URL := URL b;
     Alt := Alt b; Caption := Caption b; Citation := Citation b; Items := Items b;
     Ordered := x |}.

(** The values that are representable: text that is valid UTF-8 and
    integers that fit an [int]. *)
Definition wellTyped (b : t) : bool :=
  utf8.ValidString (Type_ b)
  && utf8.ValidString (Text b)
  && jsonlib.isInt (Level b)
  && utf8.ValidString (URL b)
  && utf8.ValidString (Alt b)
  && utf8.ValidString (Caption b)
  && utf8.ValidString (Citation b)
  && forallb utf8.ValidString (Items b).

(** The members [json.Marshal] writes, in field order. *)
Definition encode (b : t) : json :=
  JObject ([("type", jsonlib.encString (Type_ b))]
           ++ jsonlib.optString "text" (Text b)
           ++ jsonlib.optInt "level" (Level b)
           ++ jsonlib.optString "url" (URL b)
           ++ jsonlib.optString "alt" (Alt b)
           ++ jsonlib.optString "caption" (Caption b)
           ++ jsonlib.optString "citation" (Citation b)
           ++ jsonlib.optSlice jsonlib.encString "items" (Items b)
           ++ jsonlib.optBool "ordered" (Ordered b)).

(** The field a member is decoded into. *)
Definition field (k : string) (v : json) (b : t) : option t :=
  if jsonlib.matches k "type" then x ← jsonlib.intoString v (Type_ b); Some (set_Type_ x b)
  else if jsonlib.matches k "text" then x ← jsonlib.intoString v (Text b); Some (set_Text x b)
  else if jsonlib.matches k "level" then x ← jsonlib.intoInt v (Level b); Some (set_Level x b)
  else if jsonlib.matches k "url" then x ← jsonlib.intoString v (URL b); Some (set_URL x b)
  else if jsonlib.matches k "alt" then x ← jsonlib.intoString v (Alt b); Some (set_Alt x b)
  else if jsonlib.matches k "caption" then x ← jsonlib.intoString v (Caption b); Some (set_Caption x b)
  else if jsonlib.matches k "citation" then x ← jsonlib.intoString v (Citation b); Some (set_Citation x b)
  else if jsonlib.matches k "items" then x ← jsonlib.intoSlice jsonlib.intoString "" v (Items b); Some (set_Items x b)
  else if jsonlib.matches k "ordered" then x ← jsonlib.intoBool v (Ordered b); Some (set_Ordered x b)
  else Some b.

Definition decodeInto (v : json) (cur : t) : option t :=
  jsonlib.intoStruct field v cur.
End BlogContent.

Module BlogPost.
Record t := {
  ID : string;
  Title : string;
  Author : string;
  Date : string;
  Summary : string;
  Content : list BlogContent.t;
  FeaturedImage : string;
  Tags : list string;
  ReadingTime : Z;
  Topic : string
}.

Definition zero : t :=
  {| ID := ""; Title := ""; Author := ""; Date := ""; Summary := ""; Content := [];
     FeaturedImage := ""; Tags := []; ReadingTime := 0%Z; Topic := "" |}.

Definition set_ID (x : string) (b : t) : t :=
  {| ID := x; Title := Title b; Author := Author b; Date := Date b;
     Summary := Summary b; Content := Content b; FeaturedImage := FeaturedImage b;
     Tags := Tags b; ReadingTime := ReadingTime b; Topic := Topic b |}.
Definition set_Title (x : string) (b : t) : t :=
  {| ID := ID b; Title := x; Author := Author b; Date := Date b;
     Summary := Summary b; Content := Content b; FeaturedImage := FeaturedImage b;
     Tags := Tags b; ReadingTime := ReadingTime b; Topic := Topic b |}.
Definition set_Author (x : string) (b : t) : t :=
  {| ID := ID b; Title := Title b; Author := x; Date := Date b;
     Summary := Summary b; Content := Content b; FeaturedImage := FeaturedImage b;
     Tags := Tags b; ReadingTime := ReadingTime b; Topic := Topic b |}.
Definition set_Date (x : string) (b : t) : t :=
  {| ID := ID b; Title := Title b; Author := Author b; Date := x;
     Summary := Summary b; Content := Content b; FeaturedImage := FeaturedImage b;
     Tags := Tags b; ReadingTime := ReadingTime b; Topic := Topic b |}.
Definition set_Summary (x : string) (b : t) : t :=
  {| ID := ID b; Title := Title b; Author := Author b; Date := Date b;
     Summary := x; Content := Content b; FeaturedImage := FeaturedImage b;
     Tags := Tags b; ReadingTime := ReadingTime b; Topic := Topic b |}.
Definition set_Content (x : list BlogContent.t) (b : t) : t :=
  {| ID := ID b; Title := Title b; Author := Author b; Date := Date b;
     Summary := Summary b; Content := x; FeaturedImage := FeaturedImage b;
     Tags := Tags b; ReadingTime := ReadingTime b; Topic := Topic b |}.
Definition set_FeaturedImage (x : string) (b : t) : t :=
  {| ID := ID b; Title := Title b; Author := Author b; Date := Date b;
     Summary := Summary b; Content := Content b; FeaturedImage := x;
     Tags := Tags b; ReadingTime := ReadingTime b; Topic := Topic b |}.
Definition set_Tags (x : list string) (b : t) : t :=
  {| ID := ID b; Title := Title b; Author := Author b; Date := Date b;
     Summary := Summary b; Content := Content b; FeaturedImage := FeaturedImage b;
     Tags := x; ReadingTime := ReadingTime b; Topic := Topic b |}.
Definition set_ReadingTime (x : Z) (b : t) : t :=
  {| ID := ID b; Title := Title b; Author := Author b; Date := Date b;
     Summary := Summary b; Content := Content b; FeaturedImage := FeaturedImage b;
     Tags := Tags b; ReadingTime := x; Topic := Topic b |}.
Definition set_Topic (x : string) (b : t) : t :=
  {| ID := ID b; Title := Title b; Author := Author b; Date := Date b;
     Summary := Summary b; Content := Content b; FeaturedImage := FeaturedImage b;
     Tags := Tags b; ReadingTime := ReadingTime b; Topic := x |}.

(** The values that are representable: text that is valid UTF-8 and
    integers that fit an [int]. *)
Definition wellTyped (b : t) : bool :=
  utf8.ValidString (ID b)
  && utf8.ValidString (Title b)
  && utf8.ValidString (Author b)
  && utf8.ValidString (Date b)
  && utf8.ValidString (Summary b)
  && forallb BlogContent.wellTyped (Content b)
  && utf8.ValidString (FeaturedImage b)
  && forallb utf8.ValidString (Tags b)
  && jsonlib.isInt (ReadingTime b)
  && utf8.ValidString (Topic b).

(** The members [json.Marshal] writes, in field order. *)
Definition encode (b : t) : json :=
  JObject ([("id", jsonlib.encString (ID b))]
           ++ [("title", jsonlib.encString (Title b))]
           ++ [("author", jsonlib.encString (Author b))]
           ++ [("date", jsonlib.encString (Date b))]
           ++ [("summary", jsonlib.encString (Summary b))]
           ++ [("content", jsonlib.encSlice BlogContent.encode (Content b))]
           ++ [("featuredImage", jsonlib.encString (FeaturedImage b))]
           ++ [("tags", jsonlib.encSlice jsonlib.encString (Tags b))]
           ++ [("readingTime", JNumber (ReadingTime b))]
           ++ [("topic", jsonlib.encString (Topic b))]).

(** The field a member is decoded into. *)
Definition field (k : string) (v : json) (b : t) : option t :=
  if jsonlib.matches k "id" then x ← jsonlib.intoString v (ID b); Some (set_ID x b)
  else if jsonlib.matches k "title" then x ← jsonlib.intoString v (Title b); Some (set_Title x b)
  else if jsonlib.matches k "author" then x ← jsonlib.intoString v (Author b); Some (set_Author x b)
  else if jsonlib.matches k "date" then x ← jsonlib.intoString v (Date b); Some (set_Date x b)
  else if jsonlib.matches k "summary" then x ← jsonlib.intoString v (Summary b); Some (set_Summary x b)
  else if jsonlib.matches k "content" then x ← jsonlib.intoSlice BlogContent.decodeInto BlogContent.zero v (Content b); Some (set_Content x b)
  else if jsonlib.matches k "featuredImage" then x ← jsonlib.intoString v (FeaturedImage b); Some (set_FeaturedImage x b)
  else if jsonlib.matches k "tags" then x ← jsonlib.intoSlice jsonlib.intoString "" v (Tags b); Some (set_Tags x b)
  else if jsonlib.matches k "readingTime" then x ← jsonlib.intoInt v (ReadingTime b); Some (set_ReadingTime x b)
  else if jsonlib.matches k "topic" then x ← jsonlib.intoString v (Topic b); Some (set_Topic x b)
  else Some b.

Definition decodeInto (v : json) (cur : t) : option t :=
  jsonlib.intoStruct field v cur.
End BlogPost.

Module LlamaIndexPrompt.
Record t := { Topic : string; Contents : list ScrapedContent.t }.
End LlamaIndexPrompt.

Module PexelsSrc.
Record t := { Medium : string; Large : string }.

Definition field (k : string) (v : json) (s : t) : option t :=
  if jsonlib.matches k "medium"
  then x ← jsonlib.intoString v (Medium s); Some {| Medium := x; Large := Large s |}
  else if jsonlib.matches k "large"
  then x ← jsonlib.intoString v (Large s); Some {| Medium := Medium s; Large := x |}
  else Some s.
End PexelsSrc.

Module PexelsPhoto.
Record t := { Src : PexelsSrc.t }.

Definition zero : t := {| Src := {| PexelsSrc.Medium := ""; PexelsSrc.Large := "" |} |}.

Definition field (k : string) (v : json) (p : t) : option t :=
  if jsonlib.matches k "src"
  then x ← jsonlib.intoStruct PexelsSrc.field v (Src p); Some {| Src := x |}
  else Some p.
End PexelsPhoto.

Module PexelsResponse.
Record t := { Photos : list PexelsPhoto.t }.

Definition field (k : string) (v : json) (r : t) : option t :=
  if jsonlib.matches k "photos"
  then x ← jsonlib.intoSlice (jsonlib.intoStruct PexelsPhoto.field) PexelsPhoto.zero
                             v (Photos r);
       Some {| Photos := x |}
  else Some r.

(** [json.NewDecoder(resp.Body).Decode(&pexelsResp)] *)
Definition decode (body : content) : result t :=
  match body with
  | JSONText v =>
    match jsonlib.intoStruct field v {| Photos := [] |} with
    | Some r => Ok r
    | None => Err ErrJSON
    end
  | NotJSON _ => Err ErrJSON
  end.
End PexelsResponse.

(** ** scrapeContentForTopic *)

(** "Limit to 5 sources to avoid overwhelming" *)
Definition maxCount : nat := 5.

(** The two simulated articles. *)
Definition simulated (w : World) (topic : string) : list ScrapedContent.t :=
  [ {| ScrapedContent.URL := "https://example.com/article1";
       ScrapedContent.Title := "Latest developments on "
                               +:+ topic;
       ScrapedContent.Text :=
         "This is a simulated article about "
         +:+ topic
         +:+ ". It contains information about the topic that would have been "
         +:+ "scraped from actual news sources. The content includes various "
         +:+ "aspects and perspectives on the subject matter."
         +:+ blankLine
         +:+ "Experts have been discussing the implications of recent developments "
         +:+ "related to "
         +:+ topic
         +:+ ". Some argue that it represents a significant shift in how we "
         +:+ "understand the topic."
         +:+ blankLine
         +:+ "Further research is ongoing to fully understand the nuances of "
         +:+ topic
         +:+ " and its impact on various sectors.";
       ScrapedContent.PublishedAt := today w |};
    {| ScrapedContent.URL := "https://example.com/article2";
       ScrapedContent.Title := "Historical context of "
                               +:+ topic;
       ScrapedContent.Text :=
         "Here's some historical background on "
         +:+ topic
         +:+ ". This topic has evolved significantly over the past decade."
         +:+ blankLine
         +:+ "Many factors have contributed to how "
         +:+ topic
         +:+ " is perceived today. Economic, social, and political elements all "
         +:+ "play a role in shaping the discourse."
         +:+ blankLine
         +:+ "Communities worldwide have experienced the effects of "
         +:+ topic
         +:+ " in different ways. Their stories provide valuable insights into the "
         +:+ "global impact of this subject.";
       ScrapedContent.PublishedAt := twoDaysAgo w |} ].

Definition scrapeContentForTopic (w : World) (topic : string)
  : result (list ScrapedContent.t) :=
  let st0 : nat * list ScrapedContent.t := (0%nat, []) in
  (* what follows the visits: "Simulate scraping for development purposes
     if we didn't get any real content" *)
  let afterVisits (st : nat * list ScrapedContent.t) : result (list ScrapedContent.t) :=
    let contents := st.2 in
    if (length contents =? 0)%nat then Ok (simulated w topic) else Ok contents in
  let '(st1, err) := Visit w maxCount (searchURL topic) st0 in
  if err then
    (* "Fall back to Wikipedia if news search fails" *)
    let '(st2, err) := Visit w maxCount (wikiURL topic) st1 in
    if err then
      (* "Return whatever we have, even if empty" *)
      Ok st2.2
    else afterVisits st2
  else afterVisits st1.

(** ** getTopicImage *)

Definition defaultImage : string :=
  "https://cdn.pixabay.com/photo/2018/01/12/10/19/fantasy-3077928_1280.jpg".

(** [baseURL + "?" + queryParams.Encode()]: the parameters are written in
    the order of their keys. *)
Definition pexelsURL (topic : string) : string :=
  "https://api.pexels.com/v1/search" +:+ "?"
  +:+ "per_page=" +:+ url.QueryEscape "1" +:+ "&query=" +:+ url.QueryEscape topic.

Definition getTopicImage (w : World) (topic : string) : outcome string :=
  let apiKey := Getenv w "PEXELS_API_KEY" in
  if String.eqb apiKey "" then Done defaultImage
  else if NewRequest_fails w (pexelsURL topic) then Done defaultImage
  else
    match client_Do w (pexelsURL topic) apiKey with
    | NoResponse => Done defaultImage
    | Response StatusCode Body =>
      if negb (StatusCode =? StatusOK)%Z then Done defaultImage
      else
        match PexelsResponse.decode Body with
        | Err _ => Done defaultImage
        | Ok pexelsResp =>
          if (0 <? length (PexelsResponse.Photos pexelsResp))%nat then
            photo ← index (PexelsResponse.Photos pexelsResp) 0;
            Done (PexelsSrc.Large (PexelsPhoto.Src photo))
          else Done defaultImage
        end
    end.

(** ** generateBlogPost *)

Definition minInt (a b : Z) : Z := if (a <? b)%Z then a else b.

(** [l[:n]] with an [int] bound. *)
Definition sliceToInt {A} (l : list A) (n : Z) : outcome (list A) :=
  if (n <? 0)%Z then Panic "slice bounds out of range" else sliceTo l (Z.to_nat n).

Definition block : BlogContent.t := BlogContent.zero.

Definition heading (level : Z) (text : string) : BlogContent.t :=
  BlogContent.set_Text text (BlogContent.set_Level level (BlogContent.set_Type_ "heading" block)).

Definition paragraph (text : string) : BlogContent.t :=
  BlogContent.set_Text text (BlogContent.set_Type_ "paragraph" block).

Definition image (url alt caption : string) : BlogContent.t :=
  BlogContent.set_Caption caption
    (BlogContent.set_Alt alt (BlogContent.set_URL url (BlogContent.set_Type_ "image" block))).

Definition quote (text citation : string) : BlogContent.t :=
  BlogContent.set_Citation citation
    (BlogContent.set_Text text (BlogContent.set_Type_ "quote" block)).

Definition bullets (items : list string) : BlogContent.t :=
  BlogContent.set_Ordered false
    (BlogContent.set_Items items (BlogContent.set_Type_ "list" block)).

(** The four blocks the content starts with. *)
Definition opening (topic contentImage1 : string) : list BlogContent.t :=
  [ heading 1 ("Understanding "
               +:+ topic
               +:+ ": A Comprehensive Overview");
    paragraph
      ("In recent times, "
       +:+ topic
       +:+ " has become an increasingly important topic in global discourse. This "
       +:+ "article aims to provide a thorough analysis based on the latest "
       +:+ "information available from reliable sources.");
    image contentImage1
      ("Illustration of "
       +:+ topic)
      ("Visual representation of key aspects related to "
       +:+ topic);
    heading 2 "Current State and Recent Developments" ].

(** The six blocks it ends with. *)
Definition closing (topic contentImage2 : string) : list BlogContent.t :=
  [ heading 2 "Key Factors and Analysis";
    paragraph
      ("Several key factors influence the current state of "
       +:+ topic
       +:+ ". Understanding these elements is crucial for a comprehensive "
       +:+ "perspective.");
    bullets
      [ "Economic implications of "
        +:+ topic
        +:+ " on global markets";
        "Social and cultural impact of "
        +:+ topic
        +:+ " on communities";
        "Technological advancements related to "
        +:+ topic;
        "Regulatory frameworks surrounding "
        +:+ topic ];
    image contentImage2
      ("Impact of "
       +:+ topic)
      ("Visualizing the multifaceted impact of "
       +:+ topic);
    heading 2 "Expert Opinions and Insights";
    quote
      ("The development of "
       +:+ topic
       +:+ " represents one of the most significant shifts in this field that "
       +:+ "we've seen in the past decade.")
      "Industry Expert" ].

(** The loop over [paragraphs[:minInt(3, len(paragraphs))]]. *)
Definition addParagraph (content : list BlogContent.t) (p : string) : list BlogContent.t :=
  if (0 <? len p)%nat then content ++ [paragraph p] else content.

(** "Add content based on scraped data". *)
Definition addScraped (prompt : LlamaIndexPrompt.t) (content : list BlogContent.t)
  : outcome (list BlogContent.t) :=
  if (0 <? length (LlamaIndexPrompt.Contents prompt))%nat then
    first ← index (LlamaIndexPrompt.Contents prompt) 0;
    let paragraphs := strings.Split (ScrapedContent.Text first) blankLine in
    shown ← sliceToInt paragraphs (minInt 3 (Z.of_nat (length paragraphs)));
    Done (fold_left addParagraph shown content)
  else Done content.

Definition generateBlogPost (w : World) (prompt : LlamaIndexPrompt.t)
  : outcome (result BlogPost.t) :=
  let topic := LlamaIndexPrompt.Topic prompt in
  let blogID := uuid_New w in
  featuredImageURL ← getTopicImage w topic;
  contentImage1 ← getTopicImage w (topic +:+ " overview");
  contentImage2 ← getTopicImage w (topic +:+ " detail");
  let blog :=
    {| BlogPost.ID := blogID;
       BlogPost.Title := "Comprehensive Guide to "
                         +:+ topic
                         +:+ ": Latest Insights and Developments";
       BlogPost.Author := "AI Content Generator";
       BlogPost.Date := today w;
       BlogPost.Summary := "";
       BlogPost.Content := [];
       BlogPost.FeaturedImage := featuredImageURL;
       BlogPost.Tags := [topic; "News"; "Analysis"];
       BlogPost.ReadingTime := 5;
       BlogPost.Topic := topic |} in
  let blog := BlogPost.set_Summary
    ("An in-depth look at "
     +:+ topic
     +:+ ", examining the latest developments, key insights, and future "
     +:+ "implications based on the most current information available.") blog in
  let blog := BlogPost.set_Content (opening topic contentImage1) blog in
  content ← addScraped prompt (BlogPost.Content blog);
  let blog := BlogPost.set_Content content blog in
  let blog := BlogPost.set_Content (BlogPost.Content blog ++ closing topic contentImage2) blog in
  Done (Ok blog).

(** ** The store *)

(** [json.MarshalIndent(blog, "", "  ")] *)
Definition marshal (blog : BlogPost.t) : content := JSONText (BlogPost.encode blog).

(** [json.Unmarshal(blogData, &blog)] into a fresh [blog]. *)
Definition unmarshal (blogData : content) : result BlogPost.t :=
  match blogData with
  | JSONText v =>
    match BlogPost.decodeInto v BlogPost.zero with
    | Some blog => Ok blog
    | None => Err ErrJSON
    end
  | NotJSON _ => Err ErrJSON
  end.

Definition saveBlogPost (fs : gmap (list string) node) (blog : BlogPost.t)
  : gmap (list string) node * option error :=
  let '(fs, _) := os.MkdirAll fs "data/blogs" in
  let blogJSON := marshal blog in
  let filePath := filepath.Join "data/blogs" (BlogPost.ID blog +:+ ".json") in
  os.WriteFile fs filePath blogJSON.

(** One iteration of the loop of [getAllBlogs]. *)
Definition collect (fs : gmap (list string) node) (blogs : list BlogPost.t)
           (file : os.DirEntry) : list BlogPost.t :=
  if negb (os.IsDir file) && strings.HasSuffix (os.Name file) ".json" then
    match os.ReadFile fs (filepath.Join "data/blogs" (os.Name file)) with
    | Err _ => blogs
    | Ok blogData =>
      match unmarshal blogData with
      | Err _ => blogs
      | Ok blog => blogs ++ [blog]
      end
    end
  else blogs.

Definition getAllBlogs (fs : gmap (list string) node) : result (list BlogPost.t) :=
  match os.ReadDir fs "data/blogs" with
  | Err e => Err e
  | Ok files => Ok (fold_left (collect fs) files [])
  end.

Definition getBlogByID (fs : gmap (list string) node) (id : string) : result BlogPost.t :=
  let filePath := filepath.Join "data/blogs" (id +:+ ".json") in
  match os.ReadFile fs filePath with
  | Err e => Err e
  | Ok blogData => unmarshal blogData
  end.

(** ** The handlers *)

(** What a handler writes: a JSON body with status 200, or [http.Error]
    with a status, the text of the message and the error appended to it. *)
Inductive Reply (A : Type) : Type :=
| Body (a : A)
| Error (code : Z) (msg : string) (cause : option error).
Arguments Body {A} a.
Arguments Error {A} code msg cause.

Definition generateBlogHandler (w : World) (fs : gmap (list string) node) (body : content)
  : gmap (list string) node * outcome (Reply BlogPost.t) :=
  match RequestBody.decode body with
  | Err _ => (fs, Done (Error StatusBadRequest "Invalid request body" None))
  | Ok reqBody =>
    let topic := RequestBody.Topic reqBody in
    if String.eqb topic "" then (fs, Done (Error StatusBadRequest "Topic is required" None))
    else
      match scrapeContentForTopic w topic with
      | Err e => (fs, Done (Error StatusInternalServerError "Failed to scrape content: " (Some e)))
      | Ok scrapedContents =>
        if (length scrapedContents =? 0)%nat
        then (fs, Done (Error StatusNotFound "No content found for this topic" None))
        else
          let promptData := {| LlamaIndexPrompt.Topic := topic;
                               LlamaIndexPrompt.Contents := scrapedContents |} in
          match generateBlogPost w promptData with
          | Panic r => (fs, Panic r)
          | Done (Err e) =>
            (fs, Done (Error StatusInternalServerError "Failed to generate blog: " (Some e)))
          | Done (Ok blog) =>
            match saveBlogPost fs blog with
            | (fs', Some e) =>
              (fs', Done (Error StatusInternalServerError "Failed to save blog: " (Some e)))
            | (fs', None) => (fs', Done (Body blog))
            end
          end
      end
  end.

Definition getBlogsHandler (fs : gmap (list string) node) : Reply (list BlogPost.t) :=
  match getAllBlogs fs with
  | Err e => Error StatusInternalServerError "Failed to get blogs: " (Some e)
  | Ok blogs => Body blogs
  end.

Definition getBlogByIDHandler (fs : gmap (list string) node) (id : string)
  : Reply BlogPost.t :=
  match getBlogByID fs id with
  | Err _ => Error StatusNotFound "Blog not found" None
  | Ok blog => Body blog
  end.

(** ** main

    What [main] does to the file system before it starts to serve ("Create
    data directory if it doesn't exist"); the error of [MkdirAll] is
    dropped.  The routes it registers are the handlers above and the image
    proxy below. *)
Definition main (fs : gmap (list string) node) : gmap (list string) node :=
  (os.MkdirAll fs "data/blogs").1.

(** ** The image proxy

    [header] is the header of the response writer when the handler is
    entered, [rawQuery] the query of the request URL, [client_Do] the GET
    of the image by the handler's client. *)
Definition proxyImageHandler (w : World) (client_Do : string -> ImageResult)
           (header : gmap string (list string)) (rawQuery : string)
  : outcome ProxyReply :=
  let imageURL := url.Get (url.ParseQuery rawQuery) "url" in
  if String.eqb imageURL ""
  then Done (Refused StatusBadRequest "Image URL is required" None)
  else if NewRequest_fails w imageURL
  then Done (Refused StatusInternalServerError "Failed to create request: "
                     (Some BadRequestURL))
  else
    match client_Do imageURL with
    | NoImage =>
      Done (Refused StatusInternalServerError "Failed to fetch image: " (Some FetchFailed))
    | Image statusCode respHeader respBody =>
      if negb (statusCode =? StatusOK)%Z then
        if http.validCode statusCode
        then Done (Refused statusCode "Failed to fetch image: status code "
                           (Some (UpstreamStatus statusCode)))
        else Panic "invalid WriteHeader code"
      else
        let header := copyHeaders (map_to_list respHeader) header in
        let header := http.Set_ header "Content-Type" (http.Get respHeader "Content-Type") in
        Done (Relayed statusCode header respBody)
    end.


End Template.

(* ===================================================================== *)
(** * The external-provider back end *)
(* ===================================================================== *)

Module Provider.

Module BlogContent.
Record t := {
  Type_ : string;
  Text : string;
  Level : Z;
  URL : string;
  Alt : string;
  Caption : string
}.

Definition zero : t :=
  {| Type_ := ""; Text := ""; Level := 0%Z; URL := ""; Alt := ""; Caption := "" |}.

Definition set_Type_ (x : string) (b : t) : t :=
  {| Type_ := x; Text := Text b; Level := Level b; URL := URL b; Alt := Alt b;
     Caption := Caption b |}.
Definition set_Text (x : string) (b : t) : t :=
  {| Type_ := Type_ b; Text := x; Level := Level b; URL := URL b; Alt := Alt b;
     Caption := Caption b |}.
Definition set_Level (x : Z) (b : t) : t :=
  {| Type_ := Type_ b; Text := Text b; Level := x; URL := URL b; Alt := Alt b;
     Caption := Caption b |}.
Definition set_URL (x : string) (b : t) : t :=
  {| Type_ := Type_ b; Text := Text b; Level := Level b; URL := x; Alt := Alt b;
     Caption := Caption b |}.
Definition set_Alt (x : string) (b : t) : t :=
  {| Type_ := Type_ b; Text := Text b; Level := Level b; URL := URL b; Alt := x;
     Caption := Caption b |}.
Definition set_Caption (x : string) (b : t) : t :=
  {| Type_ := Type_ b; Text := Text b; Level := Level b; URL := URL b;
     Alt := Alt b; Caption := x |}.

(** The values that are representable: text that is valid UTF-8 and
    integers that fit an [int]. *)
Definition wellTyped (b : t) : bool :=
  utf8.ValidString (Type_ b)
  && utf8.ValidString (Text b)
  && jsonlib.isInt (Level b)
  && utf8.ValidString (URL b)
  && utf8.ValidString (Alt b)
  && utf8.ValidString (Caption b).

(** The members [json.Marshal] writes, in field order. *)
Definition encode (b : t) : json :=
  JObject ([("type", jsonlib.encString (Type_ b))]
           ++ jsonlib.optString "text" (Text b)
           ++ jsonlib.optInt "level" (Level b)
           ++ jsonlib.optString "url" (URL b)
           ++ jsonlib.optString "alt" (Alt b)
           ++ jsonlib.optString "caption" (Caption b)).

(** The field a member is decoded into. *)
Definition field (k : string) (v : json) (b : t) : option t :=
  if jsonlib.matches k "type" then x ← jsonlib.intoString v (Type_ b); Some (set_Type_ x b)
  else if jsonlib.matches k "text" then x ← jsonlib.intoString v (Text b); Some (set_Text x b)
  else if jsonlib.matches k "level" then x ← jsonlib.intoInt v (Level b); Some (set_Level x b)
  else if jsonlib.matches k "url" then x ← jsonlib.intoString v (URL b); Some (set_URL x b)
  else if jsonlib.matches k "alt" then x ← jsonlib.intoString v (Alt b); Some (set_Alt x b)
  else if jsonlib.matches k "caption" then x ← jsonlib.intoString v (Caption b); Some (set_Caption x b)
  else Some b.

Definition decodeInto (v : json) (cur : t) : option t :=
  jsonlib.intoStruct field v cur.
End BlogContent.

Module BlogPost.
Record t := {
  ID : string;
  Title : string;
  Author : string;
  Date : string;
  Summary : string;
  Content : list BlogContent.t;
  FeaturedImage : string;
  Tags : list string;
  ReadingTime : Z;
  Topic : string
}.

Definition zero : t :=
  {| ID := ""; Title := ""; Author := ""; Date := ""; Summary := ""; Content := [];
     FeaturedImage := ""; Tags := []; ReadingTime := 0%Z; Topic := "" |}.

Definition set_ID (x : string) (b : t) : t :=
  {| ID := x; Title := Title b; Author := Author b; Date := Date b;
     Summary := Summary b; Content := Content b; FeaturedImage := FeaturedImage b;
     Tags := Tags b; ReadingTime := ReadingTime b; Topic := Topic b |}.
Definition set_Title (x : string) (b : t) : t :=
  {| ID := ID b; Title := x; Author := Author b; Date := Date b;
     Summary := Summary b; Content := Content b; FeaturedImage := FeaturedImage b;
     Tags := Tags b; ReadingTime := ReadingTime b; Topic := Topic b |}.
Definition set_Author (x : string) (b : t) : t :=
  {| ID := ID b; Title := Title b; Author := x; Date := Date b;
     Summary := Summary b; Content := Content b; FeaturedImage := FeaturedImage b;
     Tags := Tags b; ReadingTime := ReadingTime b; Topic := Topic b |}.
Definition set_Date (x : string) (b : t) : t :=
  {| ID := ID b; Title := Title b; Author := Author b; Date := x;
     Summary := Summary b; Content := Content b; FeaturedImage := FeaturedImage b;
     Tags := Tags b; ReadingTime := ReadingTime b; Topic := Topic b |}.
Definition set_Summary (x : string) (b : t) : t :=
  {| ID := ID b; Title := Title b; Author := Author b; Date := Date b;
     Summary := x; Content := Content b; FeaturedImage := FeaturedImage b;
     Tags := Tags b; ReadingTime := ReadingTime b; Topic := Topic b |}.
Definition set_Content (x : list BlogContent.t) (b : t) : t :=
  {| ID := ID b; Title := Title b; Author := Author b; Date := Date b;
     Summary := Summary b; Content := x; FeaturedImage := FeaturedImage b;
     Tags := Tags b; ReadingTime := ReadingTime b; Topic := Topic b |}.
Definition set_FeaturedImage (x : string) (b : t) : t :=
  {| ID := ID b; Title := Title b; Author := Author b; Date := Date b;
     Summary := Summary b; Content := Content b; FeaturedImage := x;
     Tags := Tags b; ReadingTime := ReadingTime b; Topic := Topic b |}.
Definition set_Tags (x : list string) (b : t) : t :=
  {| ID := ID b; Title := Title b; Author := Author b; Date := Date b;
     Summary := Summary b; Content := Content b; FeaturedImage := FeaturedImage b;
     Tags := x; ReadingTime := ReadingTime b; Topic := Topic b |}.
Definition set_ReadingTime (x : Z) (b : t) : t :=
  {| ID := ID b; Title := Title b; Author := Author b; Date := Date b;
     Summary := Summary b; Content := Content b; FeaturedImage := FeaturedImage b;
     Tags := Tags b; ReadingTime := x; Topic := Topic b |}.
Definition set_Topic (x : string) (b : t) : t :=
  {| ID := ID b; Title := Title b; Author := Author b; Date := Date b;
     Summary := Summary b; Content := Content b; FeaturedImage := FeaturedImage b;
     Tags := Tags b; ReadingTime := ReadingTime b; Topic := x |}.

(** The values that are representable: text that is valid UTF-8 and
    integers that fit an [int]. *)
Definition wellTyped (b : t) : bool :=
  utf8.ValidString (ID b)
  && utf8.ValidString (Title b)
  && utf8.ValidString (Author b)
  && utf8.ValidString (Date b)
  && utf8.ValidString (Summary b)
  && forallb BlogContent.wellTyped (Content b)
  && utf8.ValidString (FeaturedImage b)
  && forallb utf8.ValidString (Tags b)
  && jsonlib.isInt (ReadingTime b)
  && utf8.ValidString (Topic b).

(** The members [json.Marshal] writes, in field order. *)
Definition encode (b : t) : json :=
  JObject ([("id", jsonlib.encString (ID b))]
           ++ [("title", jsonlib.encString (Title b))]
           ++ [("author", jsonlib.encString (Author b))]
           ++ [("date", jsonlib.encString (Date b))]
           ++ [("summary", jsonlib.encString (Summary b))]
           ++ [("content", jsonlib.encSlice BlogContent.encode (Content b))]
           ++ [("featuredImage", jsonlib.encString (FeaturedImage b))]
           ++ [("tags", jsonlib.encSlice jsonlib.encString (Tags b))]
           ++ [("readingTime", JNumber (ReadingTime b))]
           ++ [("topic", jsonlib.encString (Topic b))]).

(** The field a member is decoded into. *)
Definition field (k : string) (v : json) (b : t) : option t :=
  if jsonlib.matches k "id" then x ← jsonlib.intoString v (ID b); Some (set_ID x b)
  else if jsonlib.matches k "title" then x ← jsonlib.intoString v (Title b); Some (set_Title x b)
  else if jsonlib.matches k "author" then x ← jsonlib.intoString v (Author b); Some (set_Author x b)
  else if jsonlib.matches k "date" then x ← jsonlib.intoString v (Date b); Some (set_Date x b)
  else if jsonlib.matches k "summary" then x ← jsonlib.intoString v (Summary b); Some (set_Summary x b)
  else if jsonlib.matches k "content" then x ← jsonlib.intoSlice BlogContent.decodeInto BlogContent.zero v (Content b); Some (set_Content x b)
  else if jsonlib.matches k "featuredImage" then x ← jsonlib.intoString v (FeaturedImage b); Some (set_FeaturedImage x b)
  else if jsonlib.matches k "tags" then x ← jsonlib.intoSlice jsonlib.intoString "" v (Tags b); Some (set_Tags x b)
  else if jsonlib.matches k "readingTime" then x ← jsonlib.intoInt v (ReadingTime b); Some (set_ReadingTime x b)
  else if jsonlib.matches k "topic" then x ← jsonlib.intoString v (Topic b); Some (set_Topic x b)
  else Some b.

Definition decodeInto (v : json) (cur : t) : option t :=
  jsonlib.intoStruct field v cur.
End BlogPost.

Module LlamaIndexResponse.
Record t := {
  Title : string;
  Content : list BlogContent.t;
  FeaturedImage : string;
  Tags : list string;
  Summary : string
}.

Definition zero : t :=
  {| Title := ""; Content := []; FeaturedImage := ""; Tags := []; Summary := "" |}.

Definition set_Title (x : string) (b : t) : t :=
  {| Title := x; Content := Content b; FeaturedImage := FeaturedImage b;
     Tags := Tags b; Summary := Summary b |}.
Definition set_Content (x : list BlogContent.t) (b : t) : t :=
  {| Title := Title b; Content := x; FeaturedImage := FeaturedImage b;
     Tags := Tags b; Summary := Summary b |}.
Definition set_FeaturedImage (x : string) (b : t) : t :=
  {| Title := Title b; Content := Content b; FeaturedImage := x; Tags := Tags b;
     Summary := Summary b |}.
Definition set_Tags (x : list string) (b : t) : t :=
  {| Title := Title b; Content := Content b; FeaturedImage := FeaturedImage b;
     Tags := x; Summary := Summary b |}.
Definition set_Summary (x : string) (b : t) : t :=
  {| Title := Title b; Content := Content b; FeaturedImage := FeaturedImage b;
     Tags := Tags b; Summary := x |}.

(** The values that are representable: text that is valid UTF-8 and
    integers that fit an [int]. *)
Definition wellTyped (b : t) : bool :=
  utf8.ValidString (Title b)
  && forallb BlogContent.wellTyped (Content b)
  && utf8.ValidString (FeaturedImage b)
  && forallb utf8.ValidString (Tags b)
  && utf8.ValidString (Summary b).

(** The members [json.Marshal] writes, in field order. *)
Definition encode (b : t) : json :=
  JObject ([("title", jsonlib.encString (Title b))]
           ++ [("content", jsonlib.encSlice BlogContent.encode (Content b))]
           ++ [("featuredImage", jsonlib.encString (FeaturedImage b))]
           ++ [("tags", jsonlib.encSlice jsonlib.encString (Tags b))]
           ++ [("summary", jsonlib.encString (Summary b))]).

(** The field a member is decoded into. *)
Definition field (k : string) (v : json) (b : t) : option t :=
  if jsonlib.matches k "title" then x ← jsonlib.intoString v (Title b); Some (set_Title x b)
  else if jsonlib.matches k "content" then x ← jsonlib.intoSlice BlogContent.decodeInto BlogContent.zero v (Content b); Some (set_Content x b)
  else if jsonlib.matches k "featuredImage" then x ← jsonlib.intoString v (FeaturedImage b); Some (set_FeaturedImage x b)
  else if jsonlib.matches k "tags" then x ← jsonlib.intoSlice jsonlib.intoString "" v (Tags b); Some (set_Tags x b)
  else if jsonlib.matches k "summary" then x ← jsonlib.intoString v (Summary b); Some (set_Summary x b)
  else Some b.

Definition decodeInto (v : json) (cur : t) : option t :=
  jsonlib.intoStruct field v cur.
End LlamaIndexResponse.

Module LlamaIndexRequest.
Record t := { Topic : string; Contents : list ScrapedContent.t }.

Definition encode (r : t) : json :=
  JObject [("topic", jsonlib.encString (Topic r));
           ("contents", jsonlib.encSlice ScrapedContent.encode (Contents r))].
End LlamaIndexRequest.

(** ** scrapeContentForTopic *)

Definition maxCount : nat := 50.

(** The number of records below which the simulated articles are appended
    (the literal of [len(contents) < 5]). *)
Definition minContents : nat := 5.

(** The two simulated articles. *)
Definition simulated (w : World) (topic : string) : list ScrapedContent.t :=
  [ {| ScrapedContent.URL := "https://example.com/article1";
       ScrapedContent.Title := "Latest developments on "
                               +:+ topic;
       ScrapedContent.Text :=
         "This is a simulated article about "
         +:+ topic
         +:+ ". It contains information about the topic that would have been "
         +:+ "scraped from actual news sources."
         +:+ blankLine
         +:+ "Experts have been discussing "
         +:+ topic
         +:+ " extensively."
         +:+ blankLine
         +:+ "Further research on "
         +:+ topic
         +:+ " is ongoing.";
       ScrapedContent.PublishedAt := today w |};
    {| ScrapedContent.URL := "https://example.com/article2";
       ScrapedContent.Title := "Historical context of "
                               +:+ topic;
       ScrapedContent.Text :=
         "Here's some historical background on "
         +:+ topic
         +:+ ". This topic has evolved over time."
         +:+ blankLine
         +:+ "Many factors have shaped "
         +:+ topic
         +:+ " today."
         +:+ blankLine
         +:+ "Communities have experienced "
         +:+ topic
         +:+ " differently.";
       ScrapedContent.PublishedAt := twoDaysAgo w |} ].

Definition scrapeContentForTopic (w : World) (topic : string)
  : result (list ScrapedContent.t) :=
  let st0 : nat * list ScrapedContent.t := (0%nat, []) in
  let '(st1, err) := Visit w maxCount (searchURL topic) st0 in
  let st :=
    if err then
      (* the error of the second visit is logged and nothing else *)
      let '(st2, _) := Visit w maxCount (wikiURL topic) st1 in st2
    else st1 in
  let contents := st.2 in
  let contents :=
    if (length contents <? minContents)%nat then contents ++ simulated w topic
    else contents in
  Ok contents.

(** ** estimateReadingTime *)

(** Arithmetic on [int] (64 bits, two's complement). *)
Definition wrapInt (z : Z) : Z := ((z + 2 ^ 63) mod 2 ^ 64 - 2 ^ 63)%Z.

Definition countWords (totalWords : Z) (block : BlogContent.t) : Z :=
  if String.eqb (BlogContent.Type_ block) "paragraph"
     || String.eqb (BlogContent.Type_ block) "heading"
  then wrapInt (totalWords + Z.of_nat (length (strings.Fields (BlogContent.Text block))))
  else totalWords.

Definition estimateReadingTime (content : list BlogContent.t) : Z :=
  let totalWords := fold_left countWords content 0%Z in
  wrapInt (Z.quot totalWords 200 + 1).

(** ** GenerateBlogWithLlamaIndex *)

Definition GenerateBlogWithLlamaIndex (w : World) (topic : string)
           (contents : list ScrapedContent.t) : result LlamaIndexResponse.t :=
  let request := {| LlamaIndexRequest.Topic := topic;
                    LlamaIndexRequest.Contents := contents |} in
  let requestJSON := LlamaIndexRequest.encode request in
  match python3_llamaindex_service w requestJSON with
  | RunFailed => Err ErrExec
  | Exited (NotJSON _) => Err ErrJSON
  | Exited (JSONText out) =>
    match LlamaIndexResponse.decodeInto out LlamaIndexResponse.zero with
    | Some response => Ok response
    | None => Err ErrJSON
    end
  end.

(** ** The store *)

Definition dataDir : string := "./data/blogs".

(** [encoder.Encode(blog)] with indentation. *)
Definition marshal (blog : BlogPost.t) : content := JSONText (BlogPost.encode blog).

(** [json.NewDecoder(file).Decode(&blog)] into a fresh [blog]. *)
Definition unmarshal (data : content) : result BlogPost.t :=
  match data with
  | JSONText v =>
    match BlogPost.decodeInto v BlogPost.zero with
    | Some blog => Ok blog
    | None => Err ErrJSON
    end
  | NotJSON _ => Err ErrJSON
  end.

Definition saveBlogPost (fs : gmap (list string) node) (blog : BlogPost.t)
  : gmap (list string) node * option error :=
  match os.MkdirAll fs dataDir with
  | (fs, Some err) => (fs, Some err)
  | (fs, None) =>
    let filePath := filepath.Join dataDir (BlogPost.ID blog +:+ ".json") in
    os.WriteFile fs filePath (marshal blog)
  end.

Definition getBlogByID (fs : gmap (list string) node) (id : string) : result BlogPost.t :=
  let filePath := filepath.Join "./data/blogs" (id +:+ ".json") in
  match os.ReadFile fs filePath with
  | Err err => Err err
  | Ok data => unmarshal data
  end.

(** One iteration of the loop of [getAllBlogs]. *)
Definition collect (fs : gmap (list string) node) (blogs : list BlogPost.t)
           (file : os.DirEntry) : list BlogPost.t :=
  if String.eqb (filepath.Ext (os.Name file)) ".json" then
    match getBlogByID fs (strings.TrimSuffix (os.Name file) ".json") with
    | Ok blog => blogs ++ [blog]
    | Err _ => blogs
    end
  else blogs.

Definition getAllBlogs (fs : gmap (list string) node) : result (list BlogPost.t) :=
  match os.ReadDir fs dataDir with
  | Err err => if os.IsNotExist err then Ok [] else Err err
  | Ok files => Ok (fold_left (collect fs) files [])
  end.

(** ** The handlers *)

Inductive Reply (A : Type) : Type :=
| Body (a : A)
| Error (code : Z) (msg : string) (cause : option error).
Arguments Body {A} a.
Arguments Error {A} code msg cause.

Definition proxyURL (u : string) : string :=
  "http://localhost:8080/api/proxy-image?url=" +:+ url.QueryEscape u.

(** One iteration of [for i, block := range llamaResponse.Content]: the
    element at index [i] of the slice is updated in place. *)
Definition proxyStep (content : list BlogContent.t) (ib : nat * BlogContent.t)
  : list BlogContent.t :=
  let '(i, block) := ib in
  if String.eqb (BlogContent.Type_ block) "image" then
    match content !! i with
    | Some cur => <[i := BlogContent.set_URL (proxyURL (BlogContent.URL block)) cur]> content
    | None => content
    end
  else content.

(** "Proxy image URLs through the backend to handle CORS". *)
Definition proxyImages (r : LlamaIndexResponse.t) : LlamaIndexResponse.t :=
  let content := LlamaIndexResponse.Content r in
  let r := LlamaIndexResponse.set_Content
             (fold_left proxyStep (imap (fun i block => (i, block)) content) content) r in
  LlamaIndexResponse.set_FeaturedImage (proxyURL (LlamaIndexResponse.FeaturedImage r)) r.

Definition generateBlogHandler (w : World) (fs : gmap (list string) node) (body : content)
  : gmap (list string) node * Reply BlogPost.t :=
  match RequestBody.decode body with
  | Err _ => (fs, Error StatusBadRequest "Invalid request body" None)
  | Ok reqBody =>
    let topic := RequestBody.Topic reqBody in
    if String.eqb topic "" then (fs, Error StatusBadRequest "Topic is required" None)
    else
      match scrapeContentForTopic w topic with
      | Err err => (fs, Error StatusInternalServerError "Failed to scrape content: " (Some err))
      | Ok scrapedContents =>
        if (length scrapedContents =? 0)%nat
        then (fs, Error StatusNotFound "No content found for this topic" None)
        else
          match GenerateBlogWithLlamaIndex w topic scrapedContents with
          | Err err =>
            (fs, Error StatusInternalServerError "Failed to generate blog: " (Some err))
          | Ok llamaResponse =>
            let llamaResponse := proxyImages llamaResponse in
            let blog :=
              {| BlogPost.ID := uuid_New w;
                 BlogPost.Title := LlamaIndexResponse.Title llamaResponse;
                 BlogPost.Author := "AI Content Generator";
                 BlogPost.Date := today w;
                 BlogPost.Summary := LlamaIndexResponse.Summary llamaResponse;
                 BlogPost.Content := LlamaIndexResponse.Content llamaResponse;
                 BlogPost.FeaturedImage := LlamaIndexResponse.FeaturedImage llamaResponse;
                 BlogPost.Tags := LlamaIndexResponse.Tags llamaResponse;
                 BlogPost.ReadingTime :=
                   estimateReadingTime (LlamaIndexResponse.Content llamaResponse);
                 BlogPost.Topic := topic |} in
            match saveBlogPost fs blog with
            | (fs', Some err) =>
              (fs', Error StatusInternalServerError "Failed to save blog: " (Some err))
            | (fs', None) => (fs', Body blog)
            end
          end
      end
  end.

Definition getBlogsHandler (fs : gmap (list string) node) : Reply (list BlogPost.t) :=
  match getAllBlogs fs with
  | Err err => Error StatusInternalServerError "Failed to retrieve blogs: " (Some err)
  | Ok blogs => Body blogs
  end.

Definition getBlogByIDHandler (fs : gmap (list string) node) (id : string)
  : Reply BlogPost.t :=
  match getBlogByID fs id with
  | Err err => Error StatusNotFound "Blog not found: " (Some err)
  | Ok blog => Body blog
  end.

(** ** The image proxy

    [header] is the header of the response writer when the handler is
    entered, [rawQuery] the query of the request URL, [client_Do] the GET
    of the image by the handler's client. *)
Definition proxyImageHandler (w : World) (client_Do : string -> ImageResult)
           (header : gmap string (list string)) (rawQuery : string)
  : outcome ProxyReply :=
  let imageURL := url.Get (url.ParseQuery rawQuery) "url" in
  if String.eqb imageURL ""
  then Done (Refused StatusBadRequest "Image URL is required" None)
  else if NewRequest_fails w imageURL
  then Done (Refused StatusInternalServerError "Failed to create request: "
                     (Some BadRequestURL))
  else
    match client_Do imageURL with
    | NoImage =>
      Done (Refused StatusInternalServerError "Failed to fetch image: " (Some FetchFailed))
    | Image statusCode respHeader respBody =>
      if negb (statusCode =? StatusOK)%Z then
        if http.validCode statusCode
        then Done (Refused statusCode "Failed to fetch image: status code "
                           (Some (UpstreamStatus statusCode)))
        else Panic "invalid WriteHeader code"
      else
        let header := copyHeaders (map_to_list respHeader) header in
        let header := http.Set_ header "Content-Type" (http.Get respHeader "Content-Type") in
        Done (Relayed statusCode header respBody)
    end.


End Provider.

(* ===================================================================== *)
(** * Worlds, documents and specification-side definitions used below *)
(* ===================================================================== *)

(** Every host unreachable, no image-provider credential. *)
Definition offline : World :=
  {| colly_Visit := fun _ => {| matched := []; visitFailed := true |};
     today := "2025-03-14";
     twoDaysAgo := "2025-03-12";
     Getenv := fun _ => "";
     NewRequest_fails := fun _ => false;
     client_Do := fun _ _ => NoResponse;
     uuid_New := "0f8fad5b-d9cb-469f-a165-70867728950e";
     python3_llamaindex_service := fun _ => RunFailed |}.

(** The search page is unreachable, the encyclopedia answers with a page
    that has no article on it. *)
Definition sparse : World :=
  {| colly_Visit := fun u =>
       {| matched := [];
          visitFailed := strings.HasPrefix u "https://news.google.com/" |};
     today := "2025-03-14";
     twoDaysAgo := "2025-03-12";
     Getenv := fun _ => "";
     NewRequest_fails := fun _ => false;
     client_Do := fun _ _ => NoResponse;
     uuid_New := "0f8fad5b-d9cb-469f-a165-70867728950e";
     python3_llamaindex_service := fun _ => RunFailed |}.

(** An element whose paragraphs are the given texts. *)
Definition page (title : string) (paragraphs : list string) : HTMLElement :=
  {| Request_URL := "https://en.wikipedia.org/wiki/Example";
     ChildText := fun sel => if String.eqb sel "h1, h2, .title, .headline" then title else "";
     ForEach_Text := fun sel => if String.eqb sel "p" then paragraphs else [] |}.

(** The body of a record as the specification words it: the trimmed
    paragraphs of at least 20 characters, joined by a blank line. *)
Definition specBody (e : HTMLElement) : string :=
  String.concat blankLine
    (filter (fun p => (20 <=? len p)%nat) (map strings.TrimSpace (ForEach_Text e "p"))).

(** The paragraphs the callback keeps. *)
Definition keptParagraphs (e : HTMLElement) : list string :=
  filter (fun p => (20 <? len p)%nat) (map strings.TrimSpace (ForEach_Text e "p")).



(** The block invariants of the data model: the type is one of the five
    variants, a level is present exactly on headings and is at least 1,
    items are present exactly on lists. *)
Definition wellFormedBlock (b : Template.BlogContent.t) : Prop :=
  let type := Template.BlogContent.Type_ b in
  (type = "heading" ∨ type = "paragraph" ∨ type = "image" ∨ type = "quote" ∨ type = "list")
  ∧ (if String.eqb type "heading" then (1 <= Template.BlogContent.Level b)%Z
     else Template.BlogContent.Level b = 0%Z)
  ∧ (if String.eqb type "list" then Template.BlogContent.Items b ≠ []
     else Template.BlogContent.Items b = []).

(** The word count [W] of the specification: the number of
    white-space-separated words in the text of the heading and paragraph
    blocks. *)
Definition specWords {B} (typeOf textOf : B → string) (content : list B) : Z :=
  fold_right
    (fun b acc =>
       ((if String.eqb (typeOf b) "heading" || String.eqb (typeOf b) "paragraph"
         then Z.of_nat (length (strings.Fields (textOf b))) else 0) + acc)%Z)
    0%Z content.

(** What the image rewriting of the handler does to one block. *)
Definition proxied (block : Provider.BlogContent.t) : Provider.BlogContent.t :=
  if String.eqb (Provider.BlogContent.Type_ block) "image"
  then Provider.BlogContent.set_URL (Provider.proxyURL (Provider.BlogContent.URL block)) block
  else block.

(** A generation script that answers with a heading, an image and a
    paragraph. *)
Definition scriptOutput : content :=
  JSONText (JObject
    [("title", JString "Renewable Energy Today");
     ("content", JArray
        [JObject [("type", JString "heading"); ("level", JNumber 1);
                  ("text", JString "Renewable Energy Today")];
         JObject [("type", JString "image");
                  ("url", JString "https://images.pexels.com/photos/1/large.jpg?w=2&h=1");
                  ("alt", JString "Wind turbines")];
         JObject [("type", JString "paragraph");
                  ("text", JString "Wind and solar power keep growing.")]]);
     ("featuredImage", JString "https://images.pexels.com/photos/2/large.jpg");
     ("tags", JArray [JString "Energy"]);
     ("summary", JString "A short overview.")]).

Definition scripted : World :=
  {| colly_Visit := fun _ => {| matched := []; visitFailed := true |};
     today := "2025-03-14";
     twoDaysAgo := "2025-03-12";
     Getenv := fun _ => "";
     NewRequest_fails := fun _ => false;
     client_Do := fun _ _ => NoResponse;
     uuid_New := "0f8fad5b-d9cb-469f-a165-70867728950e";
     python3_llamaindex_service := fun _ => Exited scriptOutput |}.

Definition renewableEnergy : content :=
  JSONText (JObject [("topic", JString "Renewable Energy")]).

(** A content of [n] paragraphs of one word each. *)
Definition oneWordParagraphs (n : nat) : list Provider.BlogContent.t :=
  repeat (Provider.BlogContent.set_Text "word"
            (Provider.BlogContent.set_Type_ "paragraph" Provider.BlogContent.zero)) n.

(** An identifier that is a file name: it has no path separator (the
    identifiers the handlers generate are UUIDs). *)
Definition plainID (id : string) : bool :=
  negb (existsb (Ascii.eqb "/") (list_ascii_of_string id)).

(** Where the store keeps the document of an identifier that is a file
    name. *)
Definition blogPath (id : string) : filepath.path := ["data"; "blogs"; id +:+ ".json"].



(** What one directory entry contributes to the list of [getAllBlogs]. *)
Definition Template_load (fs : gmap (list string) node) (file : os.DirEntry)
  : option Template.BlogPost.t :=
  match Template.collect fs [] file with
  | [] => None
  | blog :: _ => Some blog
  end.

Definition Provider_load (fs : gmap (list string) node) (file : os.DirEntry)
  : option Provider.BlogPost.t :=
  match Provider.collect fs [] file with
  | [] => None
  | blog :: _ => Some blog
  end.

(** A document whose title is the single byte 255, which is not UTF-8. *)
Definition byte255 : string := str1 (ascii_of_nat 255).

Definition untypable : Provider.BlogPost.t :=
  {| Provider.BlogPost.ID := "0f8fad5b-d9cb-469f-a165-70867728950e";
     Provider.BlogPost.Title := byte255;
     Provider.BlogPost.Author := "AI Content Generator";
     Provider.BlogPost.Date := "2025-03-14";
     Provider.BlogPost.Summary := "";
     Provider.BlogPost.Content := [];
     Provider.BlogPost.FeaturedImage := "";
     Provider.BlogPost.Tags := [];
     Provider.BlogPost.ReadingTime := 1;
     Provider.BlogPost.Topic := "Renewable Energy" |}.

(** Three documents of the external-provider back end and three of the
    template back end. *)
Definition providerDoc (id title : string) : Provider.BlogPost.t :=
  {| Provider.BlogPost.ID := id;
     Provider.BlogPost.Title := title;
     Provider.BlogPost.Author := "AI Content Generator";
     Provider.BlogPost.Date := "2025-03-14";
     Provider.BlogPost.Summary := "A short overview.";
     Provider.BlogPost.Content := map proxied
       [Provider.BlogContent.set_Text title
          (Provider.BlogContent.set_Level 1
             (Provider.BlogContent.set_Type_ "heading" Provider.BlogContent.zero));
        Provider.BlogContent.set_URL "https://images.pexels.com/photos/1/large.jpg"
          (Provider.BlogContent.set_Type_ "image" Provider.BlogContent.zero)];
     Provider.BlogPost.FeaturedImage := Provider.proxyURL "https://images.pexels.com/photos/2/large.jpg";
     Provider.BlogPost.Tags := ["Energy"];
     Provider.BlogPost.ReadingTime := 1;
     Provider.BlogPost.Topic := title |}.

Definition templateDoc (id topic : string) : Template.BlogPost.t :=
  {| Template.BlogPost.ID := id;
     Template.BlogPost.Title := topic;
     Template.BlogPost.Author := "AI Content Generator";
     Template.BlogPost.Date := "2025-03-14";
     Template.BlogPost.Summary := "A short overview.";
     Template.BlogPost.Content :=
       Template.opening topic Template.defaultImage
       ++ Template.closing topic Template.defaultImage;
     Template.BlogPost.FeaturedImage := Template.defaultImage;
     Template.BlogPost.Tags := [topic; "News"; "Analysis"];
     Template.BlogPost.ReadingTime := 5;
     Template.BlogPost.Topic := topic |}.

(** The empty store with its two directories. *)
Definition dirs : gmap (list string) node :=
  <[["data"; "blogs"] := Dir]> (<[["data"] := Dir]> ∅).

(** The directory entry of the file of an identifier. *)
Definition entry (id : string) : os.DirEntry :=
  {| os.Name := id +:+ ".json"; os.IsDir := false |}.



(** The paragraphs joined by a blank line, and a blank line after the last
    one. *)
Definition terminated (kept : list string) : string :=
  match kept with
  | [] => ""
  | _ :: _ => String.concat blankLine kept +:+ blankLine
  end.

(** Each paragraph followed by a blank line. *)
Definition followed (kept : list string) : string :=
  fold_right (fun p rest => p +:+ blankLine +:+ rest) "" kept.

Definition twentyBytes : string := "Twenty bytes of text".
Definition twentyOneBytes : string := "Twenty-one bytes long".

(** A response of an image host: a PNG served with two headers, one of
    them with two values of [Content-Type]. *)
Definition pngHeader : gmap string (list string) :=
  {[ "Content-Type" := ["image/png"; "text/plain"]; "Cache-Control" := ["max-age=60"] ]}.

Definition imageHost (u : string) : ImageResult :=
  if String.eqb u "https://images.example.com/a b.png?w=1&h=2"
  then Image 200 pngHeader "PNG bytes"
  else Image 404 ∅ "not found".

(** The header of the response writer on entry, as a middleware left it. *)
Definition corsHeader : gmap string (list string) :=
  {[ "Vary" := ["Origin"]; "Content-Type" := ["application/json"] ]}.

(** The paragraphs that the template synthesizer takes from a corpus: of
    the first record only, the non-empty ones among the first three pieces
    of its text between blank lines. *)
Definition shownParagraphs (contents : list ScrapedContent.t) : list string :=
  match contents with
  | [] => []
  | first :: _ =>
    filter (fun p => p ≠ "") (take 3 (strings.Split (ScrapedContent.Text first) blankLine))
  end.

(** A record of two paragraphs around an empty piece, followed by a fourth
    piece. *)
Definition fourPieces : ScrapedContent.t :=
  {| ScrapedContent.URL := "https://example.org/a";
     ScrapedContent.Title := "A";
     ScrapedContent.Text := "one" +:+ blankLine +:+ blankLine +:+ "three" +:+ blankLine +:+ "four";
     ScrapedContent.PublishedAt := "" |}.

(** A file system is a tree: the parent of every entry is a directory
    (the working directory being one). *)
Definition treeFS (fs : gmap (list string) node) : Prop :=
  map_Forall (fun p _ => os.stat fs (removelast p) = Some Dir) fs.

(** A file system in which [data] is a regular file, so that the store
    directory cannot be made. *)
Definition blocked : gmap (list string) node :=
  {[ ["data"] := File (NotJSON "not a directory") ]}.

(** A block and a document of the external-provider back end, as the
    template back end has them: the three fields that only the template
    back end knows are empty. *)
Definition upgradeBlock (b : Provider.BlogContent.t) : Template.BlogContent.t :=
  {| Template.BlogContent.Type_ := Provider.BlogContent.Type_ b;
     Template.BlogContent.Text := Provider.BlogContent.Text b;
     Template.BlogContent.Level := Provider.BlogContent.Level b;
     Template.BlogContent.URL := Provider.BlogContent.URL b;
     Template.BlogContent.Alt := Provider.BlogContent.Alt b;
     Template.BlogContent.Caption := Provider.BlogContent.Caption b;
     Template.BlogContent.Citation := "";
     Template.BlogContent.Items := [];
     Template.BlogContent.Ordered := false |}.

Definition upgrade (d : Provider.BlogPost.t) : Template.BlogPost.t :=
  {| Template.BlogPost.ID := Provider.BlogPost.ID d;
     Template.BlogPost.Title := Provider.BlogPost.Title d;
     Template.BlogPost.Author := Provider.BlogPost.Author d;
     Template.BlogPost.Date := Provider.BlogPost.Date d;
     Template.BlogPost.Summary := Provider.BlogPost.Summary d;
     Template.BlogPost.Content := map upgradeBlock (Provider.BlogPost.Content d);
     Template.BlogPost.FeaturedImage := Provider.BlogPost.FeaturedImage d;
     Template.BlogPost.Tags := Provider.BlogPost.Tags d;
     Template.BlogPost.ReadingTime := Provider.BlogPost.ReadingTime d;
     Template.BlogPost.Topic := Provider.BlogPost.Topic d |}.

(** A block and a document of the template back end, as the
    external-provider back end has them: citation, items and ordering are
    dropped. *)
Definition downgradeBlock (b : Template.BlogContent.t) : Provider.BlogContent.t :=
  {| Provider.BlogContent.Type_ := Template.BlogContent.Type_ b;
     Provider.BlogContent.Text := Template.BlogContent.Text b;
     Provider.BlogContent.Level := Template.BlogContent.Level b;
     Provider.BlogContent.URL := Template.BlogContent.URL b;
     Provider.BlogContent.Alt := Template.BlogContent.Alt b;
     Provider.BlogContent.Caption := Template.BlogContent.Caption b |}.

Definition downgrade (d : Template.BlogPost.t) : Provider.BlogPost.t :=
  {| Provider.BlogPost.ID := Template.BlogPost.ID d;
     Provider.BlogPost.Title := Template.BlogPost.Title d;
     Provider.BlogPost.Author := Template.BlogPost.Author d;
     Provider.BlogPost.Date := Template.BlogPost.Date d;
     Provider.BlogPost.Summary := Template.BlogPost.Summary d;
     Provider.BlogPost.Content := map downgradeBlock (Template.BlogPost.Content d);
     Provider.BlogPost.FeaturedImage := Template.BlogPost.FeaturedImage d;
     Provider.BlogPost.Tags := Template.BlogPost.Tags d;
     Provider.BlogPost.ReadingTime := Template.BlogPost.ReadingTime d;
     Provider.BlogPost.Topic := Template.BlogPost.Topic d |}.

(** The state of the callback is consistent: the counter is the number of
    records gathered, and it is within the bound. *)
Definition counted (maxCount : nat) (st : nat * list ScrapedContent.t) : Prop :=
  st.1 = length st.2 ∧ (st.1 ≤ maxCount)%nat.

(** A request body that is an object without a topic. *)
Definition noTopic : content :=
  JSONText (JObject [("subject", JString "Renewable Energy"); ("count", JNumber 3)]).

(** A string with every byte [old] replaced by [new]. *)
Definition replaceByte (old new : ascii) (s : string) : string :=
  string_of_list_ascii
    (map (fun c => if Ascii.eqb c old then new else c) (list_ascii_of_string s)).

(** An element with a headline and five paragraphs of 21 bytes. *)
Definition fiveParagraphs : HTMLElement :=
  page "Tidal power" (replicate 5 twentyOneBytes).

(** A store in which the file [a.json] holds a document whose identifier
    is [b]. *)
Definition misfiled : gmap (list string) node :=
  <[blogPath "a" := File (Template.marshal (templateDoc "b" "Tidal Power"))]> dirs.

(** The acceptance test of the callback, as a function of the record. *)
Definition acceptable (c : ScrapedContent.t) : bool :=
  negb (String.eqb (ScrapedContent.Title c) "") && (100 <? len (ScrapedContent.Text c))%nat.

(** What one visit adds to a corpus of [count] records: the records of the
    acceptable elements of the page, in page order, as far as the bound
    leaves room. *)
Definition gathered (w : World) (maxCount count : nat) (u : string) : list ScrapedContent.t :=
  take (maxCount - count) (filter (fun c => acceptable c = true)
                                  (map extract (matched (colly_Visit w u)))).

(** A page with seven elements: six with a headline and five paragraphs,
    and one without headline among them. *)
Definition sevenElements : World :=
  {| colly_Visit := fun _ =>
       {| matched := [fiveParagraphs; fiveParagraphs; page "" (replicate 5 twentyOneBytes);
                      fiveParagraphs; fiveParagraphs; fiveParagraphs; fiveParagraphs];
          visitFailed := false |};
     today := today offline;
     twoDaysAgo := twoDaysAgo offline;
     Getenv := Getenv offline;
     NewRequest_fails := NewRequest_fails offline;
     client_Do := client_Do offline;
     uuid_New := uuid_New offline;
     python3_llamaindex_service := python3_llamaindex_service offline |}.

(** A document as the store gives it back: every string coerced to valid
    UTF-8, as [encoding/json] writes it, and nothing else changed. *)
Definition Provider_storedBlock (b : Provider.BlogContent.t) : Provider.BlogContent.t :=
  {| Provider.BlogContent.Type_ := jsonlib.coerceUTF8 (Provider.BlogContent.Type_ b);
     Provider.BlogContent.Text := jsonlib.coerceUTF8 (Provider.BlogContent.Text b);
     Provider.BlogContent.Level := Provider.BlogContent.Level b;
     Provider.BlogContent.URL := jsonlib.coerceUTF8 (Provider.BlogContent.URL b);
     Provider.BlogContent.Alt := jsonlib.coerceUTF8 (Provider.BlogContent.Alt b);
     Provider.BlogContent.Caption := jsonlib.coerceUTF8 (Provider.BlogContent.Caption b) |}.

Definition Provider_stored (d : Provider.BlogPost.t) : Provider.BlogPost.t :=
  {| Provider.BlogPost.ID := jsonlib.coerceUTF8 (Provider.BlogPost.ID d);
     Provider.BlogPost.Title := jsonlib.coerceUTF8 (Provider.BlogPost.Title d);
     Provider.BlogPost.Author := jsonlib.coerceUTF8 (Provider.BlogPost.Author d);
     Provider.BlogPost.Date := jsonlib.coerceUTF8 (Provider.BlogPost.Date d);
     Provider.BlogPost.Summary := jsonlib.coerceUTF8 (Provider.BlogPost.Summary d);
     Provider.BlogPost.Content := map Provider_storedBlock (Provider.BlogPost.Content d);
     Provider.BlogPost.FeaturedImage := jsonlib.coerceUTF8 (Provider.BlogPost.FeaturedImage d);
     Provider.BlogPost.Tags := map jsonlib.coerceUTF8 (Provider.BlogPost.Tags d);
     Provider.BlogPost.ReadingTime := Provider.BlogPost.ReadingTime d;
     Provider.BlogPost.Topic := jsonlib.coerceUTF8 (Provider.BlogPost.Topic d) |}.

Definition Template_storedBlock (b : Template.BlogContent.t) : Template.BlogContent.t :=
  {| Template.BlogContent.Type_ := jsonlib.coerceUTF8 (Template.BlogContent.Type_ b);
     Template.BlogContent.Text := jsonlib.coerceUTF8 (Template.BlogContent.Text b);
     Template.BlogContent.Level := Template.BlogContent.Level b;
     Template.BlogContent.URL := jsonlib.coerceUTF8 (Template.BlogContent.URL b);
     Template.BlogContent.Alt := jsonlib.coerceUTF8 (Template.BlogContent.Alt b);
     Template.BlogContent.Caption := jsonlib.coerceUTF8 (Template.BlogContent.Caption b);
     Template.BlogContent.Citation := jsonlib.coerceUTF8 (Template.BlogContent.Citation b);
     Template.BlogContent.Items := map jsonlib.coerceUTF8 (Template.BlogContent.Items b);
     Template.BlogContent.Ordered := Template.BlogContent.Ordered b |}.

Definition Template_stored (d : Template.BlogPost.t) : Template.BlogPost.t :=
  {| Template.BlogPost.ID := jsonlib.coerceUTF8 (Template.BlogPost.ID d);
     Template.BlogPost.Title := jsonlib.coerceUTF8 (Template.BlogPost.Title d);
     Template.BlogPost.Author := jsonlib.coerceUTF8 (Template.BlogPost.Author d);
     Template.BlogPost.Date := jsonlib.coerceUTF8 (Template.BlogPost.Date d);
     Template.BlogPost.Summary := jsonlib.coerceUTF8 (Template.BlogPost.Summary d);
     Template.BlogPost.Content := map Template_storedBlock (Template.BlogPost.Content d);
     Template.BlogPost.FeaturedImage := jsonlib.coerceUTF8 (Template.BlogPost.FeaturedImage d);
     Template.BlogPost.Tags := map jsonlib.coerceUTF8 (Template.BlogPost.Tags d);
     Template.BlogPost.ReadingTime := Template.BlogPost.ReadingTime d;
     Template.BlogPost.Topic := jsonlib.coerceUTF8 (Template.BlogPost.Topic d) |}.

(** The integers of a document fit an [int], as they do in the program. *)
Definition Provider_intsFit (d : Provider.BlogPost.t) : bool :=
  jsonlib.isInt (Provider.BlogPost.ReadingTime d)
  && forallb (fun b => jsonlib.isInt (Provider.BlogContent.Level b)) (Provider.BlogPost.Content d).

Definition Template_intsFit (d : Template.BlogPost.t) : bool :=
  jsonlib.isInt (Template.BlogPost.ReadingTime d)
  && forallb (fun b => jsonlib.isInt (Template.BlogContent.Level b)) (Template.BlogPost.Content d).

(** The file system after a sequence of requests to generate a document,
    each given with the world it is served in.  (The other handlers do not
    write.) *)
Definition Template_serve (requests : list (World * content))
           (fs : gmap (list string) node) : gmap (list string) node :=
  fold_left (fun fs r => (Template.generateBlogHandler r.1 fs r.2).1) requests fs.

Definition Provider_serve (requests : list (World * content))
           (fs : gmap (list string) node) : gmap (list string) node :=
  fold_left (fun fs r => (Provider.generateBlogHandler r.1 fs r.2).1) requests fs.

(** The identifier drawn for a request is a file name. *)
Definition plainRequest (r : World * content) : Prop := plainID (uuid_New r.1) = true.

(** Two requests for "Renewable Energy", served offline by the generation
    script of [scripted]. *)
Definition twoRequests : list (World * content) :=
  [ (scripted, JSONText (JObject [("topic", JString "Renewable Energy")]));
    (offline, JSONText (JObject [("topic", JString "Renewable Energy")])) ].

(* ===================================================================== *)
(** * Strings *)
(* ===================================================================== *)

Lemma string_length_app (s t : string) :
  String.length (s +:+ t) = (String.length s + String.length t)%nat.
Proof. induction s as [|c s IH]; simpl; [reflexivity | now rewrite IH]. Qed.

Lemma len_app (s t : string) : len (s +:+ t) = (len s + len t)%nat.
Proof. apply string_length_app. Qed.

Lemma app_assoc_str (s t u : string) : (s +:+ t) +:+ u = s +:+ (t +:+ u).
Proof. induction s as [|c s IH]; simpl; [reflexivity | now rewrite IH]. Qed.

Lemma app_empty_r (s : string) : s +:+ "" = s.
Proof. induction s as [|c s IH]; simpl; [reflexivity | now rewrite IH]. Qed.

Lemma eqb_empty_false (s : string) : s ≠ "" → String.eqb s "" = false.
Proof. intros H. now apply String.eqb_neq. Qed.

(* ===================================================================== *)
(** * The crawler *)
(* ===================================================================== *)

Section Crawler.

Variable maxCount : nat.





Lemma Visit_failed w u st : (Visit w maxCount u st).2 = visitFailed (colly_Visit w u).
Proof. reflexivity. Qed.

End Crawler.



(** The corpus of the template back end is the scraped records, the two
    simulated articles when there are none, and the scraped records (none,
    usually) when both visits failed. *)
Lemma Template_scrape_cases w topic st1 e1 st2 e2 :
  Visit w Template.maxCount (searchURL topic) (0%nat, []) = (st1, e1) →
  Visit w Template.maxCount (wikiURL topic) st1 = (st2, e2) →
  Template.scrapeContentForTopic w topic =
  Ok (let backfill (contents : list ScrapedContent.t) :=
        match contents with [] => Template.simulated w topic | _ => contents end in
      if e1 then (if e2 then st2.2 else backfill st2.2) else backfill st1.2).
Proof.
  intros H1 H2. unfold Template.scrapeContentForTopic. rewrite H1.
  destruct e1.
  - rewrite H2. destruct e2; [reflexivity|]. now destruct (st2.2).
  - now destruct (st1.2).
Qed.

(** The corpus of the other back end is the scraped records, followed by
    the two simulated articles when fewer than five were scraped. *)
Lemma Provider_scrape_cases w topic st1 e1 st2 e2 :
  Visit w Provider.maxCount (searchURL topic) (0%nat, []) = (st1, e1) →
  Visit w Provider.maxCount (wikiURL topic) st1 = (st2, e2) →
  Provider.scrapeContentForTopic w topic =
  Ok (let contents := if e1 then st2.2 else st1.2 in
      if (length contents <? Provider.minContents)%nat
      then contents ++ Provider.simulated w topic else contents).
Proof.
  intros H1 H2. unfold Provider.scrapeContentForTopic. rewrite H1.
  destruct e1; [now rewrite H2 | reflexivity].
Qed.





(* ===================================================================== *)
(** * The extractor *)
(* ===================================================================== *)

Lemma fold_paragraphStep ps acc :
  fold_left paragraphStep ps acc
  = acc +:+ followed (filter (fun p => (20 <? len p)%nat) (map strings.TrimSpace ps)).
Proof.
  revert acc. induction ps as [|p ps IH]; intros acc; simpl.
  - now rewrite app_empty_r.
  - rewrite IH. unfold paragraphStep.
    rewrite filter_cons. destruct (20 <? len (strings.TrimSpace p))%nat eqn:E.
    + rewrite decide_True by exact I. simpl.
      now rewrite !app_assoc_str.
    + rewrite decide_False by (intros []). reflexivity.
Qed.

Lemma followed_concat kept :
  followed kept
  = terminated kept.
Proof.
  induction kept as [|p kept IH]; [reflexivity|].
  simpl. rewrite IH. destruct kept as [|q kept]; [reflexivity|].
  now rewrite !app_assoc_str.
Qed.

(** C7 (counterexample). A paragraph whose trimmed text has exactly 20
    bytes is dropped, where the claim keeps it; and the text built from one
    kept paragraph ends with a blank line, where the claim has no trailing
    separator. *)
Lemma C7_counterexample :
  let e20 := page "Title" ["  " +:+ twentyBytes +:+ "  "] in
  let e21 := page "Title" [twentyOneBytes] in
  len (strings.TrimSpace ("  " +:+ twentyBytes +:+ "  ")) = 20%nat
  ∧ ScrapedContent.Text (extract e20) = ""
  ∧ specBody e20 = twentyBytes
  ∧ len twentyOneBytes = 21%nat
  ∧ ScrapedContent.Text (extract e21) = twentyOneBytes +:+ blankLine
  ∧ specBody e21 = twentyOneBytes.
Proof. repeat split; reflexivity. Qed.

(** C7 (amended). For every matched element the callback trims each
    paragraph, keeps exactly the trimmed paragraphs of more than 20 bytes
    (one of exactly 20 bytes is dropped), and the text of the record is each
    kept paragraph followed by a blank line: the kept paragraphs joined by a
    blank line, with one more blank line at the end when there is at least
    one. *)
Theorem C7_extract_body (e : HTMLElement) :
  ScrapedContent.Text (extract e)
  = terminated (keptParagraphs e)
  ∧ ∀ p, p ∈ keptParagraphs e
         ↔ (20 < len p)%nat ∧ p ∈ map strings.TrimSpace (ForEach_Text e "p").
Proof.
  split.
  - unfold extract, keptParagraphs. cbn [ScrapedContent.Text].
    rewrite fold_paragraphStep. exact (followed_concat _).
  - intros p. unfold keptParagraphs. rewrite list_elem_of_filter.
    split; intros [H1 H2]; split; try assumption.
    + now apply Nat.ltb_lt, Is_true_true.
    + now apply Is_true_true, Nat.ltb_lt.
Qed.

(* ===================================================================== *)
(** * The image resolver *)
(* ===================================================================== *)

(** The lookup of the first photo stays within bounds: the function always
    returns a URL. *)
Lemma getTopicImage_total (w : World) (query : string) :
  ∃ url, Template.getTopicImage w query = Done url.
Proof.
  unfold Template.getTopicImage.
  destruct (String.eqb _ ""); [now eexists|].
  destruct (NewRequest_fails w _); [now eexists|].
  destruct (client_Do w _ _) as [|code body]; [now eexists|].
  destruct (negb _); [now eexists|].
  destruct (Template.PexelsResponse.decode body) as [found|]; [|now eexists].
  destruct (Template.PexelsResponse.Photos found) as [|photo others]; now eexists.
Qed.

Lemma getTopicImage_no_key w query :
  Getenv w "PEXELS_API_KEY" = "" →
  Template.getTopicImage w query = Done Template.defaultImage.
Proof. intros H. unfold Template.getTopicImage. now rewrite H. Qed.



(* ===================================================================== *)
(** * The template synthesizer *)
(* ===================================================================== *)

Lemma minInt_bounds (n : nat) :
  (0 <= Template.minInt 3 (Z.of_nat n) <= Z.of_nat n)%Z.
Proof. unfold Template.minInt. destruct (3 <? Z.of_nat n)%Z eqn:E; lia. Qed.

Lemma sliceToInt_minInt {A} (l : list A) :
  Template.sliceToInt l (Template.minInt 3 (Z.of_nat (length l)))
  = Done (take (Z.to_nat (Template.minInt 3 (Z.of_nat (length l)))) l).
Proof.
  pose proof (minInt_bounds (length l)) as [Hlo Hhi].
  unfold Template.sliceToInt, sliceTo.
  destruct (_ <? 0)%Z eqn:E; [lia|].
  destruct (_ <=? _)%nat eqn:E'; [reflexivity|].
  apply Nat.leb_gt in E'. lia.
Qed.

(** The guarded block never goes out of bounds. *)
Lemma addScraped_total prompt content :
  ∃ content', Template.addScraped prompt content = Done content'
    ∧ (Template.LlamaIndexPrompt.Contents prompt = [] → content' = content)
    ∧ ∃ ps, content' = content ++ map Template.paragraph ps.
Proof.
  unfold Template.addScraped.
  destruct (Template.LlamaIndexPrompt.Contents prompt) as [|first others]; simpl.
  - exists content. split; [reflexivity|]. split; [reflexivity|].
    exists []. now rewrite app_nil_r.
  - rewrite sliceToInt_minInt. simpl. eexists. split; [reflexivity|].
    split; [discriminate|].
    generalize (take (Z.to_nat (Template.minInt 3
      (Z.of_nat (length (strings.Split (ScrapedContent.Text first) blankLine)))))
      (strings.Split (ScrapedContent.Text first) blankLine)).
    intros shown. revert content.
    induction shown as [|p shown IH]; intros content; simpl.
    + exists []. now rewrite app_nil_r.
    + destruct (IH (Template.addParagraph content p)) as [ps Hps]. rewrite Hps.
      unfold Template.addParagraph. destruct (0 <? len p)%nat.
      * exists (p :: ps). now rewrite <- app_assoc.
      * now exists ps.
Qed.

Ltac pick_variant := solve [ reflexivity | left; reflexivity | right; pick_variant ].

Ltac block_invariants :=
  unfold wellFormedBlock; cbn;
  split; [pick_variant | split; first [reflexivity | lia | discriminate]].

Lemma opening_wellFormed topic img : Forall wellFormedBlock (Template.opening topic img).
Proof. unfold Template.opening. repeat (constructor; [block_invariants|]). constructor. Qed.

Lemma closing_wellFormed topic img : Forall wellFormedBlock (Template.closing topic img).
Proof. unfold Template.closing. repeat (constructor; [block_invariants|]). constructor. Qed.

Lemma paragraph_wellFormed p : wellFormedBlock (Template.paragraph p).
Proof. block_invariants. Qed.

(** C8. The template synthesizer returns a document for every prompt (no
    index or slice bound is exceeded), every block of it satisfies the block
    invariants, and on an empty corpus the content is exactly the four
    opening and the six closing templated blocks. *)
Theorem C8_generateBlogPost_total (w : World) (prompt : Template.LlamaIndexPrompt.t) :
  ∃ blog, Template.generateBlogPost w prompt = Done (Ok blog)
    ∧ Forall wellFormedBlock (Template.BlogPost.Content blog)
    ∧ (Template.LlamaIndexPrompt.Contents prompt = [] →
       let topic := Template.LlamaIndexPrompt.Topic prompt in
       ∃ contentImage1 contentImage2,
         Template.getTopicImage w (topic +:+ " overview") = Done contentImage1
         ∧ Template.getTopicImage w (topic +:+ " detail") = Done contentImage2
         ∧ Template.BlogPost.Content blog
           = Template.opening topic contentImage1 ++ Template.closing topic contentImage2).
Proof.
  unfold Template.generateBlogPost.
  set (topic := Template.LlamaIndexPrompt.Topic prompt).
  destruct (getTopicImage_total w topic) as [featured ->].
  destruct (getTopicImage_total w (topic +:+ " overview")) as [image1 Himage1].
  destruct (getTopicImage_total w (topic +:+ " detail")) as [image2 Himage2].
  rewrite Himage1, Himage2.
  cbn [mbind outcome_bind Template.BlogPost.set_Summary
    Template.BlogPost.set_Content Template.BlogPost.Content].
  destruct (addScraped_total prompt (Template.opening topic image1))
    as (content' & -> & Hempty & ps & Hps).
  cbn [mbind outcome_bind]. eexists. split; [reflexivity|].
  cbn [Template.BlogPost.Content Template.BlogPost.set_Content]. split.
  - rewrite Hps. rewrite !Forall_app. split; [split|].
    + apply opening_wellFormed.
    + apply Forall_forall. intros b Hb. apply list_elem_of_fmap in Hb as (p & -> & _).
      apply paragraph_wellFormed.
    + apply closing_wellFormed.
  - intros Hnil. exists image1, image2. now rewrite (Hempty Hnil).
Qed.

(** The statement above on the empty corpus. *)
Lemma C8_generateBlogPost_total_witness :
  ∃ blog,
    Template.generateBlogPost offline
      {| Template.LlamaIndexPrompt.Topic := "Renewable Energy";
         Template.LlamaIndexPrompt.Contents := [] |} = Done (Ok blog)
    ∧ length (Template.BlogPost.Content blog) = 10%nat.
Proof.
  destruct (C8_generateBlogPost_total offline
    {| Template.LlamaIndexPrompt.Topic := "Renewable Energy";
       Template.LlamaIndexPrompt.Contents := [] |}) as (blog & Hrun & _ & Hcontent).
  exists blog. split; [exact Hrun|].
  destruct (Hcontent eq_refl) as (image1 & image2 & _ & _ & ->). reflexivity.
Defined.

(* ===================================================================== *)
(** * Reading time *)
(* ===================================================================== *)

Ltac int_bounds :=
  change (2 ^ 64)%Z with 18446744073709551616%Z in *;
  change (2 ^ 63)%Z with 9223372036854775808%Z in *.

Lemma wrapInt_small (z : Z) : (- 2 ^ 63 <= z < 2 ^ 63)%Z → Provider.wrapInt z = z.
Proof.
  intros H. unfold Provider.wrapInt. int_bounds.
  rewrite Z.mod_small by lia. lia.
Qed.

Lemma specWords_nonneg {B} (typeOf textOf : B → string) content :
  (0 <= specWords typeOf textOf content)%Z.
Proof.
  induction content as [|b content IH]; simpl; [lia|].
  destruct (_ || _); lia.
Qed.

(** The loop of [estimateReadingTime] computes [W] as long as [W] fits an
    [int]. *)
Lemma countWords_specWords content acc :
  let W := specWords Provider.BlogContent.Type_ Provider.BlogContent.Text content in
  (0 <= acc)%Z → (acc + W < 2 ^ 63)%Z →
  fold_left Provider.countWords content acc = (acc + W)%Z.
Proof.
  revert acc. induction content as [|b content IH]; intros acc W Hacc Hfit.
  - subst W. simpl. lia.
  - subst W. simpl in *.
    pose proof (specWords_nonneg Provider.BlogContent.Type_ Provider.BlogContent.Text
                  content) as Hnn.
    unfold Provider.countWords at 2.
    rewrite (orb_comm (String.eqb _ "paragraph")).
    destruct (_ || _).
    + rewrite wrapInt_small by (int_bounds; lia). rewrite IH by lia. lia.
    + rewrite IH by lia. lia.
Qed.

Lemma estimateReadingTime_specWords content :
  let W := specWords Provider.BlogContent.Type_ Provider.BlogContent.Text content in
  (W < 2 ^ 63)%Z → Provider.estimateReadingTime content = (W / 200 + 1)%Z.
Proof.
  intros W Hfit. unfold Provider.estimateReadingTime.
  pose proof (specWords_nonneg Provider.BlogContent.Type_ Provider.BlogContent.Text
                content) as Hnn. fold W in Hnn.
  rewrite countWords_specWords by (fold W; lia). fold W.
  rewrite Z.add_0_l, Z.quot_div_nonneg by lia.
  assert (0 <= W / 200)%Z by (apply Z.div_pos; lia).
  pose proof (Z.mul_div_le W 200 ltac:(lia)).
  apply wrapInt_small. int_bounds. lia.
Qed.

(** 199 and 200 words; and blocks that are not text do not count. *)
Example readingTime_199_words :
  specWords Provider.BlogContent.Type_ Provider.BlogContent.Text (oneWordParagraphs 199)
  = 199%Z
  ∧ Provider.estimateReadingTime (oneWordParagraphs 199) = 1%Z.
Proof. split; vm_compute; reflexivity. Qed.

Example readingTime_200_words :
  specWords Provider.BlogContent.Type_ Provider.BlogContent.Text (oneWordParagraphs 200)
  = 200%Z
  ∧ Provider.estimateReadingTime (oneWordParagraphs 200) = 2%Z.
Proof. split; vm_compute; reflexivity. Qed.

Example readingTime_other_blocks :
  Provider.estimateReadingTime
    (oneWordParagraphs 199
     ++ map (Provider.BlogContent.set_Type_ "image") (oneWordParagraphs 200))
  = 1%Z.
Proof. vm_compute; reflexivity. Qed.

(** The document of the external-provider handler carries the estimate of
    its own content. *)
Lemma Provider_handler_readingTime w fs body fs' blog :
  Provider.generateBlogHandler w fs body = (fs', Provider.Body blog) →
  Provider.BlogPost.ReadingTime blog
  = Provider.estimateReadingTime (Provider.BlogPost.Content blog).
Proof.
  unfold Provider.generateBlogHandler.
  destruct (RequestBody.decode body); [|discriminate].
  destruct (String.eqb _ ""); [discriminate|].
  destruct (Provider.scrapeContentForTopic _ _); [|discriminate].
  destruct (_ =? 0)%nat; [discriminate|].
  destruct (Provider.GenerateBlogWithLlamaIndex _ _ _); [|discriminate].
  destruct (Provider.saveBlogPost _ _) as [fs'' [e|]]; [discriminate|].
  intros [= _ <-]. reflexivity.
Qed.

Lemma Template_readingTime w prompt blog :
  Template.generateBlogPost w prompt = Done (Ok blog) →
  Template.BlogPost.ReadingTime blog = 5%Z.
Proof.
  unfold Template.generateBlogPost.
  set (topic := Template.LlamaIndexPrompt.Topic prompt).
  destruct (getTopicImage_total w topic) as [featured ->].
  destruct (getTopicImage_total w (topic +:+ " overview")) as [image1 ->].
  destruct (getTopicImage_total w (topic +:+ " detail")) as [image2 ->].
  cbn [mbind outcome_bind].
  destruct (Template.addScraped _ _); cbn [mbind outcome_bind]; [|discriminate].
  intros [= <-]. reflexivity.
Qed.

(** C3 (counterexample). The document the template back end produces for
    "Renewable Energy" from the simulated corpus has 148 words in its
    headings and paragraphs, so the formula gives 1, and its reading time
    is 5. *)
Lemma C3_counterexample :
  ∃ blog,
    Template.generateBlogPost sparse
      {| Template.LlamaIndexPrompt.Topic := "Renewable Energy";
         Template.LlamaIndexPrompt.Contents := Template.simulated sparse "Renewable Energy" |}
    = Done (Ok blog)
    ∧ specWords Template.BlogContent.Type_ Template.BlogContent.Text
        (Template.BlogPost.Content blog) = 148%Z
    ∧ (148 / 200 + 1 = 1)%Z
    ∧ Template.BlogPost.ReadingTime blog = 5%Z.
Proof. eexists. split; [reflexivity|]. repeat split; reflexivity. Qed.

(** C3 (amended). In the external-provider back end the reading time of
    every document is [W / 200 + 1] (rounded down), [W] being the number of
    words of the heading and paragraph blocks, other blocks not counted: 1
    for 199 words, 2 for 200, and never less than 1.  In the template back
    end the reading time is the constant 5. *)
Theorem C3_readingTime :
  (∀ w fs body fs' blog,
     Provider.generateBlogHandler w fs body = (fs', Provider.Body blog) →
     let W := specWords Provider.BlogContent.Type_ Provider.BlogContent.Text
                (Provider.BlogPost.Content blog) in
     (W < 2 ^ 63)%Z →
     Provider.BlogPost.ReadingTime blog = (W / 200 + 1)%Z
     ∧ (1 <= Provider.BlogPost.ReadingTime blog)%Z
     ∧ (W = 199%Z → Provider.BlogPost.ReadingTime blog = 1%Z)
     ∧ (W = 200%Z → Provider.BlogPost.ReadingTime blog = 2%Z))
  ∧ (∀ w prompt blog,
       Template.generateBlogPost w prompt = Done (Ok blog) →
       Template.BlogPost.ReadingTime blog = 5%Z).
Proof.
  split.
  - intros w fs body fs' blog Hrun W Hfit.
    rewrite (Provider_handler_readingTime _ _ _ _ _ Hrun).
    rewrite estimateReadingTime_specWords by exact Hfit. fold W.
    pose proof (specWords_nonneg Provider.BlogContent.Type_ Provider.BlogContent.Text
                  (Provider.BlogPost.Content blog)) as Hnn. fold W in Hnn.
    split; [reflexivity|]. split.
    + assert (0 <= W / 200)%Z by (apply Z.div_pos; lia). lia.
    + split; intros ->; reflexivity.
  - intros w prompt blog. apply Template_readingTime.
Qed.

(** The statement above, on the document the handler returns when the
    generation script answers with a heading, an image and a paragraph. *)
Lemma C3_readingTime_witness :
  let run := Provider.generateBlogHandler scripted ∅ renewableEnergy in
  ∃ blog, run.2 = Provider.Body blog ∧ Provider.BlogPost.ReadingTime blog = 1%Z.
Proof.
  intros run.
  set (blog := match run.2 with
               | Provider.Body b => b
               | Provider.Error _ _ _ => Provider.BlogPost.zero
               end).
  assert (Hbody : run.2 = Provider.Body blog) by (vm_compute; reflexivity).
  assert (Hrun : Provider.generateBlogHandler scripted ∅ renewableEnergy
                 = (run.1, Provider.Body blog))
    by (rewrite <- Hbody; apply surjective_pairing).
  exists blog. split; [exact Hbody|].
  destruct (proj1 C3_readingTime _ _ _ _ _ Hrun) as (H & _).
  - vm_compute. reflexivity.
  - rewrite H. vm_compute. reflexivity.
Defined.

(* ===================================================================== *)
(** * The image proxy rewriting *)
(* ===================================================================== *)

Lemma proxyStep_loop (done todo : list Provider.BlogContent.t) :
  fold_left Provider.proxyStep
            (imap (fun i block => (length done + i, block)%nat) todo)
            (map proxied done ++ todo)
  = map proxied (done ++ todo).
Proof.
  revert done. induction todo as [|block todo IH]; intros done.
  - simpl. now rewrite !app_nil_r.
  - rewrite imap_cons. cbn [fold_left]. unfold Provider.proxyStep at 2.
    rewrite Nat.add_0_r.
    assert (Hat : (map proxied done ++ block :: todo) !! length done = Some block).
    { rewrite lookup_app_r by (rewrite length_map; lia).
      now rewrite length_map, Nat.sub_diag. }
    assert (Hnext : map proxied done ++ proxied block :: todo
                    = map proxied (done ++ [block]) ++ todo).
    { now rewrite map_app, <- app_assoc. }
    assert (Himap : imap ((fun i b => (length done + i, b)%nat) ∘ S) todo
                    = imap (fun i b => (length (done ++ [block]) + i, b)%nat) todo).
    { apply imap_ext. intros i b _. simpl. rewrite length_app. simpl. f_equal. lia. }
    rewrite Himap.
    replace (done ++ block :: todo) with ((done ++ [block]) ++ todo)
      by (now rewrite <- app_assoc).
    rewrite <- IH. f_equal.
    rewrite <- Hnext.
    destruct (String.eqb (Provider.BlogContent.Type_ block) "image") eqn:Htype.
    + assert (Hp : proxied block
                   = Provider.BlogContent.set_URL
                       (Provider.proxyURL (Provider.BlogContent.URL block)) block)
        by (unfold proxied; now rewrite Htype).
      rewrite Hp, Hat.
      replace (length done) with (length (map proxied done) + 0)%nat
        by (rewrite length_map; lia).
      now rewrite insert_app_r.
    + assert (Hp : proxied block = block) by (unfold proxied; now rewrite Htype).
      now rewrite Hp.
Qed.

(** The loop of the handler rewrites every image block and leaves the
    other blocks alone. *)
Lemma proxyStep_all content :
  fold_left Provider.proxyStep (imap (fun i block => (i, block)) content) content
  = map proxied content.
Proof. exact (proxyStep_loop [] content). Qed.

Lemma len_escapeByte c : (1 ≤ len (url.escapeByte c))%nat.
Proof.
  unfold url.escapeByte. destruct (Ascii.eqb c " "); [simpl; lia|].
  destruct (url.shouldEscape c); simpl; lia.
Qed.

Lemma len_QueryEscape u : (len u ≤ len (url.QueryEscape u))%nat.
Proof.
  induction u as [|c u IH]; simpl; [lia|].
  rewrite len_app. pose proof (len_escapeByte c). unfold len in *. simpl. lia.
Qed.

(** A proxy URL is never the URL it stands for. *)
Lemma proxyURL_neq u : Provider.proxyURL u ≠ u.
Proof.
  intros H. apply (f_equal len) in H. unfold Provider.proxyURL in H.
  rewrite len_app in H. pose proof (len_QueryEscape u).
  unfold len in *. simpl in H. lia.
Qed.

(** C10. In the external-provider back end, whenever the handler returns a
    document, the document it has saved and returns was built from the
    answer of the generation script by replacing the URL of every block of
    type "image", and the featured image, by
    "http://localhost:8080/api/proxy-image?url=" followed by the
    query-escaped original URL, which is never the original URL; the other
    blocks are unchanged. *)
Theorem C10_image_urls_proxied (w : World) (fs fs' : gmap (list string) node)
        (body : content) (blog : Provider.BlogPost.t) :
  Provider.generateBlogHandler w fs body = (fs', Provider.Body blog) →
  ∃ topic corpus response,
    Provider.GenerateBlogWithLlamaIndex w topic corpus = Ok response
    ∧ Provider.saveBlogPost fs blog = (fs', None)
    ∧ Provider.BlogPost.FeaturedImage blog
      = "http://localhost:8080/api/proxy-image?url="
        +:+ url.QueryEscape (Provider.LlamaIndexResponse.FeaturedImage response)
    ∧ Provider.BlogPost.FeaturedImage blog
      ≠ Provider.LlamaIndexResponse.FeaturedImage response
    ∧ Provider.BlogPost.Content blog
      = map proxied (Provider.LlamaIndexResponse.Content response)
    ∧ ∀ i block,
        Provider.BlogPost.Content blog !! i = Some block →
        Provider.BlogContent.Type_ block = "image" →
        ∃ original,
          Provider.LlamaIndexResponse.Content response !! i = Some original
          ∧ Provider.BlogContent.Type_ original = "image"
          ∧ Provider.BlogContent.URL block
            = "http://localhost:8080/api/proxy-image?url="
              +:+ url.QueryEscape (Provider.BlogContent.URL original)
          ∧ Provider.BlogContent.URL block ≠ Provider.BlogContent.URL original.
Proof.
  unfold Provider.generateBlogHandler.
  destruct (RequestBody.decode body) as [reqBody|]; [|discriminate].
  destruct (String.eqb _ ""); [discriminate|].
  destruct (Provider.scrapeContentForTopic _ _) as [corpus|]; [|discriminate].
  destruct (_ =? 0)%nat; [discriminate|].
  destruct (Provider.GenerateBlogWithLlamaIndex _ _ _) as [response|] eqn:Hgen;
    [|discriminate].
  destruct (Provider.saveBlogPost _ _) as [fs'' [e|]] eqn:Hsave; [discriminate|].
  intros [= <- <-].
  exists (RequestBody.Topic reqBody), corpus, response.
  split; [exact Hgen|]. split; [exact Hsave|].
  cbn [Provider.BlogPost.FeaturedImage Provider.BlogPost.Content].
  unfold Provider.proxyImages.
  cbn [Provider.LlamaIndexResponse.FeaturedImage Provider.LlamaIndexResponse.Content
       Provider.LlamaIndexResponse.set_Content
       Provider.LlamaIndexResponse.set_FeaturedImage].
  rewrite !proxyStep_all.
  split; [reflexivity|]. split; [apply proxyURL_neq|]. split; [reflexivity|].
  intros i block Hblock Htype.
  rewrite list_lookup_fmap in Hblock.
  destruct (Provider.LlamaIndexResponse.Content response !! i) as [original|] eqn:Hi;
    [|discriminate].
  simpl in Hblock. injection Hblock as <-.
  exists original. split; [reflexivity|].
  unfold proxied in *.
  destruct (String.eqb (Provider.BlogContent.Type_ original) "image") eqn:Hty.
  - apply String.eqb_eq in Hty. split; [exact Hty|]. simpl.
    split; [reflexivity | apply proxyURL_neq].
  - apply String.eqb_neq in Hty. contradiction.
Qed.

(** The statement above, on the run in which the generation script answers
    with a heading, an image and a paragraph. *)
Lemma C10_image_urls_proxied_witness :
  let run := Provider.generateBlogHandler scripted ∅ renewableEnergy in
  ∃ blog, run.2 = Provider.Body blog
    ∧ Provider.BlogPost.FeaturedImage blog
      = "http://localhost:8080/api/proxy-image?url=https%3A%2F%2Fimages.pexels.com%2Fphotos%2F2%2Flarge.jpg".
Proof.
  intros run.
  set (blog := match run.2 with
               | Provider.Body b => b
               | Provider.Error _ _ _ => Provider.BlogPost.zero
               end).
  assert (Hbody : run.2 = Provider.Body blog) by (vm_compute; reflexivity).
  assert (Hrun : Provider.generateBlogHandler scripted ∅ renewableEnergy
                 = (run.1, Provider.Body blog))
    by (rewrite <- Hbody; apply surjective_pairing).
  exists blog. split; [exact Hbody|].
  destruct (C10_image_urls_proxied _ _ _ _ _ Hrun) as (topic & corpus & response & _).
  vm_compute. reflexivity.
Defined.

(* ===================================================================== *)
(** * Serialization *)
(* ===================================================================== *)

(** One step of the decoding: a rune is decoded from a prefix of the
    string, and the decoding goes on with the rest. *)
Lemma runes_step (c0 : ascii) (s1 : string) :
  ∃ c rest,
    utf8.runes (String c0 s1) = c :: utf8.runes rest
    ∧ String c0 s1 = utf8.raw c +:+ rest
    ∧ (String.length rest ≤ String.length s1)%nat.
Proof.
  assert (Hbad : ∃ c rest,
    utf8.invalid c0 :: utf8.runes s1 = c :: utf8.runes rest
    ∧ String c0 s1 = utf8.raw c +:+ rest
    ∧ (String.length rest ≤ String.length s1)%nat).
  { exists (utf8.invalid c0), s1. repeat split. lia. }
  cbn [utf8.runes].
  destruct (byteZ c0 <? utf8.RuneSelf)%Z.
  { eexists _, s1. repeat split. lia. }
  destruct (utf8.first (byteZ c0)) as [[[size lo] hi]|]; [|exact Hbad].
  destruct s1 as [|c1 s2]; [exact Hbad|]. cbv beta iota zeta.
  destruct (_ && _); [|exact Hbad].
  destruct s2 as [|c2 s3].
  { destruct size as [|[|[|size]]]; try exact Hbad.
    eexists _, "". repeat split. simpl. lia. }
  destruct (utf8.cont (byteZ c2)) eqn:E2.
  2:{ destruct size as [|[|[|size]]]; try exact Hbad.
      eexists _, (String c2 s3). repeat split. simpl. lia. }
  destruct s3 as [|c3 s4].
  { destruct size as [|[|[|[|size]]]]; try exact Hbad.
    - eexists _, (String c2 ""). repeat split. simpl. lia.
    - eexists _, "". repeat split. simpl. lia. }
  destruct (utf8.cont (byteZ c3)) eqn:E3;
    destruct size as [|[|[|[|size]]]]; try exact Hbad.
  all: try (eexists _, (String c2 (String c3 s4)); repeat split; simpl; lia).
  all: try (eexists _, (String c3 s4); repeat split; simpl; lia).
  all: try (eexists _, s4; repeat split; simpl; lia).
Qed.

(** The runes of a string are made of its bytes. *)
Lemma runes_join_bounded (n : nat) :
  ∀ s, (String.length s ≤ n)%nat → utf8.join (utf8.runes s) = s.
Proof.
  induction n as [|n IH]; intros s Hn.
  - destruct s; [reflexivity | simpl in Hn; lia].
  - destruct s as [|c0 s1]; [reflexivity|].
    destruct (runes_step c0 s1) as (c & rest & -> & Hs & Hlen).
    simpl in Hn. cbn [utf8.join fold_right]. fold (utf8.join (utf8.runes rest)).
    rewrite IH by lia. now rewrite Hs.
Qed.

Lemma runes_join (s : string) : utf8.join (utf8.runes s) = s.
Proof. now apply (runes_join_bounded (String.length s)). Qed.

(** Valid UTF-8 is written as it is. *)
Lemma coerceUTF8_valid (s : string) :
  utf8.ValidString s = true → jsonlib.coerceUTF8 s = s.
Proof.
  unfold utf8.ValidString, jsonlib.coerceUTF8. intros Hvalid.
  rewrite <- (runes_join s) at 2. f_equal.
  induction (utf8.runes s) as [|c cs IH]; [reflexivity|].
  simpl in *. apply andb_true_iff in Hvalid as [Hc Hcs].
  rewrite Hc. now rewrite IH.
Qed.

Lemma encString_valid (s : string) :
  utf8.ValidString s = true → jsonlib.encString s = JString s.
Proof. intros H. unfold jsonlib.encString. now rewrite coerceUTF8_valid. Qed.

Lemma optString_valid (name s : string) :
  utf8.ValidString s = true →
  jsonlib.optString name s = match s with "" => [] | _ => [(name, JString s)] end.
Proof.
  intros H. unfold jsonlib.optString. destruct s; [reflexivity|].
  now rewrite encString_valid.
Qed.

Lemma encStrings_valid (l : list string) :
  forallb utf8.ValidString l = true →
  map jsonlib.encString l = map JString l.
Proof.
  induction l as [|s l IH]; [reflexivity|]. simpl. intros H.
  apply andb_true_iff in H as [Hs Hl]. now rewrite encString_valid, IH.
Qed.

Lemma intoStrings (l : list string) :
  mapM (fun x => jsonlib.intoString x "") (map JString l) = Some l.
Proof.
  induction l as [|s l IH]; [reflexivity|]. simpl. now rewrite IH.
Qed.

Lemma optStrings_valid (name : string) (l : list string) :
  forallb utf8.ValidString l = true →
  jsonlib.optSlice jsonlib.encString name l
  = match l with [] => [] | _ => [(name, JArray (map JString l))] end.
Proof.
  intros H. unfold jsonlib.optSlice, jsonlib.encSlice. destruct l; [reflexivity|].
  now rewrite encStrings_valid.
Qed.

Lemma encSlice_strings_valid (l : list string) :
  forallb utf8.ValidString l = true →
  jsonlib.encSlice jsonlib.encString l = JArray (map JString l).
Proof. intros H. unfold jsonlib.encSlice. now rewrite encStrings_valid. Qed.

Lemma intoSlice_strings (l cur : list string) :
  jsonlib.intoSlice jsonlib.intoString "" (JArray (map JString l)) cur = Some l.
Proof. apply intoStrings. Qed.

(** A slice of records that each read back as themselves reads back as
    itself. *)
Lemma intoSlice_records {A} (enc : A → json) (dec : json → A → option A) (zero : A)
      (ok : A → bool) (l cur : list A) :
  (∀ a, ok a = true → dec (enc a) zero = Some a) →
  forallb ok l = true →
  jsonlib.intoSlice dec zero (jsonlib.encSlice enc l) cur = Some l.
Proof.
  intros Hone. unfold jsonlib.intoSlice, jsonlib.encSlice.
  induction l as [|a l IH]; [reflexivity|]. simpl. intros H.
  apply andb_true_iff in H as [Ha Hl]. now rewrite (Hone a Ha), (IH Hl).
Qed.

(** Member names are compared by evaluation. *)
Ltac match_names :=
  repeat match goal with
  | |- context [jsonlib.matches ?k ?f] =>
    let b := eval vm_compute in (jsonlib.matches k f) in
    change (jsonlib.matches k f) with b
  end.

Ltac decode_members field :=
  cbn [fold_left]; unfold jsonlib.member, field;
  cbn [fst snd mbind option_bind]; match_names;
  cbn [mbind option_bind jsonlib.intoString jsonlib.intoInt jsonlib.intoBool];
  repeat match goal with
         | H : jsonlib.isInt _ = true |- _ => rewrite H
         end;
  rewrite ?intoSlice_strings;
  cbn [mbind option_bind].

(** The members of field [v] are decoded into the record so far, giving
    the record with the field set to [v]. *)
Ltac absorb field setter v :=
  lazymatch goal with
  | |- fold_left (jsonlib.member field) (?seg ++ ?rest) (Some ?cur) = _ =>
    rewrite (fold_left_app (jsonlib.member field) seg rest (Some cur));
    replace (fold_left (jsonlib.member field) seg (Some cur)) with (Some (setter v cur));
    [| destruct v; cbn [Z.eqb]; decode_members field; reflexivity ]
  | |- fold_left (jsonlib.member field) ?seg (Some ?cur) = _ =>
    replace (fold_left (jsonlib.member field) seg (Some cur)) with (Some (setter v cur));
    [| destruct v; cbn [Z.eqb]; decode_members field; reflexivity ]
  end.

Lemma Provider_BlogContent_roundtrip (b : Provider.BlogContent.t) :
  Provider.BlogContent.wellTyped b = true →
  Provider.BlogContent.decodeInto (Provider.BlogContent.encode b) Provider.BlogContent.zero
  = Some b.
Proof.
  destruct b as [type text level url alt caption].
  unfold Provider.BlogContent.wellTyped. cbn [Provider.BlogContent.Type_
    Provider.BlogContent.Text Provider.BlogContent.Level Provider.BlogContent.URL
    Provider.BlogContent.Alt Provider.BlogContent.Caption].
  rewrite !andb_true_iff. intros (((((Htype & Htext) & Hlevel) & Hurl) & Halt) & Hcaption).
  unfold Provider.BlogContent.encode. cbn [Provider.BlogContent.Type_
    Provider.BlogContent.Text Provider.BlogContent.Level Provider.BlogContent.URL
    Provider.BlogContent.Alt Provider.BlogContent.Caption].
  rewrite encString_valid, !optString_valid by assumption.
  unfold jsonlib.optInt, Provider.BlogContent.decodeInto, jsonlib.intoStruct.
  absorb Provider.BlogContent.field Provider.BlogContent.set_Type_ type.
  absorb Provider.BlogContent.field Provider.BlogContent.set_Text text.
  absorb Provider.BlogContent.field Provider.BlogContent.set_Level level.
  absorb Provider.BlogContent.field Provider.BlogContent.set_URL url.
  absorb Provider.BlogContent.field Provider.BlogContent.set_Alt alt.
  absorb Provider.BlogContent.field Provider.BlogContent.set_Caption caption.
  reflexivity.
Qed.

Lemma Template_BlogContent_roundtrip (b : Template.BlogContent.t) :
  Template.BlogContent.wellTyped b = true →
  Template.BlogContent.decodeInto (Template.BlogContent.encode b) Template.BlogContent.zero
  = Some b.
Proof.
  destruct b as [type text level url alt caption citation items ordered].
  unfold Template.BlogContent.wellTyped. cbn [Template.BlogContent.Type_
    Template.BlogContent.Text Template.BlogContent.Level Template.BlogContent.URL
    Template.BlogContent.Alt Template.BlogContent.Caption Template.BlogContent.Citation
    Template.BlogContent.Items Template.BlogContent.Ordered].
  rewrite !andb_true_iff.
  intros (((((((Htype & Htext) & Hlevel) & Hurl) & Halt) & Hcaption) & Hcitation) & Hitems).
  unfold Template.BlogContent.encode. cbn [Template.BlogContent.Type_
    Template.BlogContent.Text Template.BlogContent.Level Template.BlogContent.URL
    Template.BlogContent.Alt Template.BlogContent.Caption Template.BlogContent.Citation
    Template.BlogContent.Items Template.BlogContent.Ordered].
  rewrite encString_valid, !optString_valid, optStrings_valid by assumption.
  unfold jsonlib.optInt, jsonlib.optBool, Template.BlogContent.decodeInto,
    jsonlib.intoStruct.
  absorb Template.BlogContent.field Template.BlogContent.set_Type_ type.
  absorb Template.BlogContent.field Template.BlogContent.set_Text text.
  absorb Template.BlogContent.field Template.BlogContent.set_Level level.
  absorb Template.BlogContent.field Template.BlogContent.set_URL url.
  absorb Template.BlogContent.field Template.BlogContent.set_Alt alt.
  absorb Template.BlogContent.field Template.BlogContent.set_Caption caption.
  absorb Template.BlogContent.field Template.BlogContent.set_Citation citation.
  absorb Template.BlogContent.field Template.BlogContent.set_Items items.
  absorb Template.BlogContent.field Template.BlogContent.set_Ordered ordered.
  reflexivity.
Qed.
Lemma Provider_BlogPost_roundtrip (b : Provider.BlogPost.t) :
  Provider.BlogPost.wellTyped b = true →
  Provider.BlogPost.decodeInto (Provider.BlogPost.encode b) Provider.BlogPost.zero = Some b.
Proof.
  destruct b as [id title author date summary content featured tags reading topic].
  unfold Provider.BlogPost.wellTyped. cbn [Provider.BlogPost.ID Provider.BlogPost.Title
    Provider.BlogPost.Author Provider.BlogPost.Date Provider.BlogPost.Summary
    Provider.BlogPost.Content Provider.BlogPost.FeaturedImage Provider.BlogPost.Tags
    Provider.BlogPost.ReadingTime Provider.BlogPost.Topic].
  rewrite !andb_true_iff.
  intros (((((((((Hid & Htitle) & Hauthor) & Hdate) & Hsummary) & Hcontent) & Hfeatured)
              & Htags) & Hreading) & Htopic).
  unfold Provider.BlogPost.encode. cbn [Provider.BlogPost.ID Provider.BlogPost.Title
    Provider.BlogPost.Author Provider.BlogPost.Date Provider.BlogPost.Summary
    Provider.BlogPost.Content Provider.BlogPost.FeaturedImage Provider.BlogPost.Tags
    Provider.BlogPost.ReadingTime Provider.BlogPost.Topic].
  rewrite !encString_valid, encSlice_strings_valid by assumption.
  unfold Provider.BlogPost.decodeInto, jsonlib.intoStruct.
  cbn [app]. decode_members Provider.BlogPost.field.
  rewrite (intoSlice_records _ _ _ _ content _ Provider_BlogContent_roundtrip Hcontent).
  cbn [mbind option_bind]. rewrite intoSlice_strings.
  cbn [mbind option_bind]. rewrite ?Hreading. reflexivity.
Qed.

Lemma Template_BlogPost_roundtrip (b : Template.BlogPost.t) :
  Template.BlogPost.wellTyped b = true →
  Template.BlogPost.decodeInto (Template.BlogPost.encode b) Template.BlogPost.zero = Some b.
Proof.
  destruct b as [id title author date summary content featured tags reading topic].
  unfold Template.BlogPost.wellTyped. cbn [Template.BlogPost.ID Template.BlogPost.Title
    Template.BlogPost.Author Template.BlogPost.Date Template.BlogPost.Summary
    Template.BlogPost.Content Template.BlogPost.FeaturedImage Template.BlogPost.Tags
    Template.BlogPost.ReadingTime Template.BlogPost.Topic].
  rewrite !andb_true_iff.
  intros (((((((((Hid & Htitle) & Hauthor) & Hdate) & Hsummary) & Hcontent) & Hfeatured)
              & Htags) & Hreading) & Htopic).
  unfold Template.BlogPost.encode. cbn [Template.BlogPost.ID Template.BlogPost.Title
    Template.BlogPost.Author Template.BlogPost.Date Template.BlogPost.Summary
    Template.BlogPost.Content Template.BlogPost.FeaturedImage Template.BlogPost.Tags
    Template.BlogPost.ReadingTime Template.BlogPost.Topic].
  rewrite !encString_valid, encSlice_strings_valid by assumption.
  unfold Template.BlogPost.decodeInto, jsonlib.intoStruct.
  cbn [app]. decode_members Template.BlogPost.field.
  rewrite (intoSlice_records _ _ _ _ content _ Template_BlogContent_roundtrip Hcontent).
  cbn [mbind option_bind]. rewrite intoSlice_strings.
  cbn [mbind option_bind]. rewrite ?Hreading. reflexivity.
Qed.

(* ===================================================================== *)
(** * File names and paths *)
(* ===================================================================== *)

Lemma substring_all (s : string) : String.substring 0 (String.length s) s = s.
Proof. induction s as [|c s IH]; simpl; [reflexivity | now rewrite IH]. Qed.

Lemma substring_suffix (s t : string) :
  String.substring (String.length s) (String.length t) (s +:+ t) = t.
Proof. induction s as [|c s IH]; simpl; [apply substring_all | exact IH]. Qed.

Lemma substring_prefix (s t : string) :
  String.substring 0 (String.length s) (s +:+ t) = s.
Proof.
  induction s as [|c s IH]; simpl; [now destruct t | now rewrite IH].
Qed.

Lemma HasSuffix_app (s t : string) : strings.HasSuffix (s +:+ t) t = true.
Proof.
  unfold strings.HasSuffix, len. rewrite string_length_app.
  replace (String.length s + String.length t - String.length t)%nat
    with (String.length s) by lia.
  rewrite substring_suffix, String.eqb_refl.
  apply andb_true_iff; split; [apply Nat.leb_le; lia | reflexivity].
Qed.

Lemma TrimSuffix_app (s t : string) : strings.TrimSuffix (s +:+ t) t = s.
Proof.
  unfold strings.TrimSuffix. rewrite HasSuffix_app. unfold len.
  rewrite string_length_app.
  replace (String.length s + String.length t - String.length t)%nat
    with (String.length s) by lia.
  apply substring_prefix.
Qed.

Lemma app_json_inj (a b : string) : a +:+ ".json" = b +:+ ".json" → a = b.
Proof.
  intros H. rewrite <- (TrimSuffix_app a ".json"), <- (TrimSuffix_app b ".json").
  now rewrite H.
Qed.

Lemma list_ascii_app (s t : string) :
  list_ascii_of_string (s +:+ t) = list_ascii_of_string s ++ list_ascii_of_string t.
Proof. induction s as [|c s IH]; simpl; [reflexivity | now rewrite IH]. Qed.

Lemma Ext_json (id : string) : filepath.Ext (id +:+ ".json") = ".json".
Proof.
  unfold filepath.Ext. rewrite list_ascii_app, rev_app_distr. reflexivity.
Qed.

Lemma HasPrefix_slash (c : ascii) (s : string) :
  strings.HasPrefix (String c s) "/" = Ascii.eqb "/" c.
Proof.
  unfold strings.HasPrefix. cbn [String.prefix].
  destruct (ascii_dec "/" c) as [<-|Hne]; [now destruct s|].
  symmetry. now apply Ascii.eqb_neq.
Qed.

Lemma app_str1 (cur : string) (c : ascii) (s : string) :
  (cur +:+ str1 c) +:+ s = cur +:+ String c s.
Proof. rewrite app_assoc_str. reflexivity. Qed.

(** A string without separator is a single element of a path. *)
Lemma splitFrom_plain (name cur : string) :
  existsb (Ascii.eqb "/") (list_ascii_of_string name) = false →
  strings.splitFrom "/" 0 cur name = [cur +:+ name].
Proof.
  revert cur. induction name as [|c name IH]; intros cur Hplain.
  - cbn [strings.splitFrom]. now rewrite app_empty_r.
  - cbn [list_ascii_of_string existsb] in Hplain.
    apply orb_false_iff in Hplain as [Hc Hname].
    cbn [strings.splitFrom]. rewrite HasPrefix_slash, Hc, (IH _ Hname).
    now rewrite app_str1.
Qed.

Lemma plain_json (id : string) :
  plainID id = true →
  existsb (Ascii.eqb "/") (list_ascii_of_string (id +:+ ".json")) = false.
Proof.
  unfold plainID. intros H. apply negb_true_iff in H.
  rewrite list_ascii_app, existsb_app, H. reflexivity.
Qed.

Lemma json_not_special (id : string) :
  String.eqb (id +:+ ".json") "" = false
  ∧ String.eqb (id +:+ ".json") "." = false
  ∧ String.eqb (id +:+ ".json") ".." = false.
Proof.
  repeat split; apply String.eqb_neq; intros H; apply (f_equal String.length) in H;
    rewrite string_length_app in H; simpl in H; lia.
Qed.

Lemma splitFrom_byte (c : ascii) (cur s : string) :
  Ascii.eqb "/" c = false →
  strings.splitFrom "/" 0 cur (String c s) = strings.splitFrom "/" 0 (cur +:+ str1 c) s.
Proof. intros H. cbn [strings.splitFrom]. now rewrite HasPrefix_slash, H. Qed.

Lemma splitFrom_slash (cur s : string) :
  strings.splitFrom "/" 0 cur (String "/" s) = cur :: strings.splitFrom "/" 0 "" s.
Proof. cbn [strings.splitFrom]. now rewrite HasPrefix_slash. Qed.

Lemma Split_blogs (name : string) :
  existsb (Ascii.eqb "/") (list_ascii_of_string name) = false →
  strings.Split ("data/blogs" +:+ "/" +:+ name) "/" = ["data"; "blogs"; name]
  ∧ strings.Split ("./data/blogs" +:+ "/" +:+ name) "/" = ["."; "data"; "blogs"; name].
Proof.
  intros Hname. unfold strings.Split. split.
  - change ("data/blogs" +:+ "/" +:+ name)
      with (String "d" (String "a" (String "t" (String "a" (String "/"
           (String "b" (String "l" (String "o" (String "g" (String "s"
           (String "/" name))))))))))).
    repeat first [ rewrite splitFrom_slash | rewrite splitFrom_byte by reflexivity ].
    now rewrite (splitFrom_plain _ "" Hname).
  - change ("./data/blogs" +:+ "/" +:+ name)
      with (String "." (String "/"
           (String "d" (String "a" (String "t" (String "a" (String "/"
           (String "b" (String "l" (String "o" (String "g" (String "s"
           (String "/" name))))))))))))).
    repeat first [ rewrite splitFrom_slash | rewrite splitFrom_byte by reflexivity ].
    now rewrite (splitFrom_plain _ "" Hname).
Qed.

(** The file of a plain identifier lies in the directory of the store,
    however the directory is written. *)
Lemma Join_plain (id : string) :
  plainID id = true →
  filepath.Join "data/blogs" (id +:+ ".json") = blogPath id
  ∧ filepath.Join "./data/blogs" (id +:+ ".json") = blogPath id.
Proof.
  intros Hplain. destruct (Split_blogs _ (plain_json id Hplain)) as [S1 S2].
  destruct (json_not_special id) as (N0 & N1 & N2).
  unfold filepath.Join.
  change (String.eqb "data/blogs" "") with false.
  change (String.eqb "./data/blogs" "") with false.
  cbv iota. rewrite N0. unfold filepath.Clean. rewrite S1, S2.
  cbn [fold_left]. unfold filepath.cleanStep at 1 2 4 5 6.
  cbn [String.eqb Ascii.eqb Bool.eqb orb].
  unfold filepath.cleanStep. rewrite N0, N1, N2. split; reflexivity.
Qed.

Lemma blogPath_inj (a b : string) : blogPath a = blogPath b → a = b.
Proof. unfold blogPath. intros [= H]. now apply app_json_inj. Qed.

(* ===================================================================== *)
(** * The file system *)
(* ===================================================================== *)

Lemma Clean_blogs :
  filepath.Clean "data/blogs" = ["data"; "blogs"]
  ∧ filepath.Clean "./data/blogs" = ["data"; "blogs"].
Proof. split; vm_compute; reflexivity. Qed.

Lemma WriteFile_ok fs p c fs' :
  os.WriteFile fs p c = (fs', None) → fs' = <[p := File c]> fs ∧ p ≠ [].
Proof.
  unfold os.WriteFile. intros H. split.
  - destruct (os.stat fs p) as [[?|]|]; try discriminate;
      destruct (os.stat fs (removelast p)) as [[?|]|]; try discriminate;
      now injection H as <-.
  - intros ->. discriminate.
Qed.

Lemma ReadFile_written fs p c : p ≠ [] → os.ReadFile (<[p := File c]> fs) p = Ok c.
Proof.
  intros Hp. unfold os.ReadFile, os.stat.
  destruct p as [|e p]; [contradiction|]. now rewrite lookup_insert_eq.
Qed.

(** What is written is what is read. *)
Lemma Template_read_written fs fs' blog :
  Template.saveBlogPost fs blog = (fs', None) →
  Template.getBlogByID fs' (Template.BlogPost.ID blog)
  = Template.unmarshal (Template.marshal blog).
Proof.
  unfold Template.saveBlogPost, Template.getBlogByID.
  destruct (os.MkdirAll fs "data/blogs") as [fs1 e]. intros Hw.
  apply WriteFile_ok in Hw as [-> Hp]. now rewrite ReadFile_written.
Qed.

Lemma Provider_read_written fs fs' blog :
  Provider.saveBlogPost fs blog = (fs', None) →
  Provider.getBlogByID fs' (Provider.BlogPost.ID blog)
  = Provider.unmarshal (Provider.marshal blog).
Proof.
  unfold Provider.saveBlogPost, Provider.getBlogByID, Provider.dataDir.
  destruct (os.MkdirAll fs "./data/blogs") as [fs1 [e|]]; [discriminate|]. intros Hw.
  apply WriteFile_ok in Hw as [-> Hp]. now rewrite ReadFile_written.
Qed.

Lemma Template_unmarshal_marshal blog :
  Template.BlogPost.wellTyped blog = true →
  Template.unmarshal (Template.marshal blog) = Ok blog.
Proof.
  intros H. unfold Template.unmarshal, Template.marshal.
  now rewrite Template_BlogPost_roundtrip.
Qed.

Lemma Provider_unmarshal_marshal blog :
  Provider.BlogPost.wellTyped blog = true →
  Provider.unmarshal (Provider.marshal blog) = Ok blog.
Proof.
  intros H. unfold Provider.unmarshal, Provider.marshal.
  now rewrite Provider_BlogPost_roundtrip.
Qed.

(** C2 (counterexample). A document whose title is the byte 255 is saved
    without error and read back with the three bytes of U+FFFD as its
    title. *)
Lemma C2_counterexample :
  let saved := Provider.saveBlogPost ∅ untypable in
  saved.2 = None
  ∧ Provider.getBlogByID saved.1 (Provider.BlogPost.ID untypable)
    = Ok (Provider.BlogPost.set_Title jsonlib.replacement untypable)
  ∧ Provider.BlogPost.set_Title jsonlib.replacement untypable ≠ untypable.
Proof.
  split; [vm_compute; reflexivity|]. split; [vm_compute; reflexivity|].
  discriminate.
Qed.

(** C2 (amended). For any document whose strings are valid UTF-8 and whose
    integers fit an [int], when [saveBlogPost] returns without error,
    [getBlogByID] with the identifier of the document returns the document,
    equal in every field (a nil slice and an empty one being the same list);
    this holds in both back ends, for every identifier and every state of
    the file system. *)
Theorem C2_save_then_get :
  (∀ fs fs' blog,
     Provider.BlogPost.wellTyped blog = true →
     Provider.saveBlogPost fs blog = (fs', None) →
     Provider.getBlogByID fs' (Provider.BlogPost.ID blog) = Ok blog)
  ∧ (∀ fs fs' blog,
       Template.BlogPost.wellTyped blog = true →
       Template.saveBlogPost fs blog = (fs', None) →
       Template.getBlogByID fs' (Template.BlogPost.ID blog) = Ok blog).
Proof.
  split; intros fs fs' blog Htyped Hsaved.
  - rewrite (Provider_read_written _ _ _ Hsaved). now apply Provider_unmarshal_marshal.
  - rewrite (Template_read_written _ _ _ Hsaved). now apply Template_unmarshal_marshal.
Qed.

(** The statement above, for a document with an image block saved into the
    empty file system. *)
Lemma C2_save_then_get_witness :
  let blog := providerDoc "0f8fad5b-d9cb-469f-a165-70867728950e" "Renewable Energy" in
  let saved := Provider.saveBlogPost ∅ blog in
  Provider.BlogPost.wellTyped blog = true
  ∧ saved.2 = None
  ∧ Provider.getBlogByID saved.1 (Provider.BlogPost.ID blog) = Ok blog.
Proof.
  intros blog saved.
  assert (Htyped : Provider.BlogPost.wellTyped blog = true) by (vm_compute; reflexivity).
  assert (Hnone : saved.2 = None) by (vm_compute; reflexivity).
  split; [exact Htyped|]. split; [exact Hnone|].
  apply (proj1 C2_save_then_get ∅ saved.1 blog Htyped).
  rewrite <- Hnone. apply surjective_pairing.
Defined.

(* ===================================================================== *)
(** * Listing the store *)
(* ===================================================================== *)







Section ThreeFiles.

Variables id1 id2 id3 : string.
Variables c1 c2 c3 garbage : content.
Hypothesis H12 : id1 ≠ id2.
Hypothesis H13 : id1 ≠ id3.
Hypothesis H23 : id2 ≠ id3.









End ThreeFiles.

(** The loop of [getAllBlogs] appends what each entry contributes. *)
Lemma Template_fold_collect fs files acc :
  fold_left (Template.collect fs) files acc = acc ++ omap (Template_load fs) files.
Proof.
  revert acc. induction files as [|file files IH]; intros acc; simpl.
  - now rewrite app_nil_r.
  - rewrite IH. unfold Template_load, Template.collect.
    destruct (negb (os.IsDir file) && strings.HasSuffix (os.Name file) ".json");
      [|reflexivity].
    destruct (os.ReadFile fs _) as [blogData|]; [|reflexivity].
    destruct (Template.unmarshal blogData) as [blog|]; [|reflexivity].
    simpl. now rewrite <- app_assoc.
Qed.

Lemma Provider_fold_collect fs files acc :
  fold_left (Provider.collect fs) files acc = acc ++ omap (Provider_load fs) files.
Proof.
  revert acc. induction files as [|file files IH]; intros acc; simpl.
  - now rewrite app_nil_r.
  - rewrite IH. unfold Provider_load, Provider.collect.
    destruct (String.eqb (filepath.Ext (os.Name file)) ".json"); [|reflexivity].
    destruct (Provider.getBlogByID fs _) as [blog|]; [|reflexivity].
    simpl. now rewrite <- app_assoc.
Qed.

(** What the entry of a stored file contributes: the document its bytes
    decode to, if they do. *)
Lemma Template_load_entry fs id c :
  plainID id = true → fs !! blogPath id = Some (File c) →
  Template_load fs (entry id)
  = match Template.unmarshal c with Ok blog => Some blog | Err _ => None end.
Proof.
  intros Hplain Hfile. unfold Template_load, Template.collect, entry.
  cbn [os.IsDir os.Name negb andb]. rewrite HasSuffix_app.
  rewrite (proj1 (Join_plain id Hplain)).
  unfold os.ReadFile. change (os.stat fs (blogPath id)) with (fs !! blogPath id).
  rewrite Hfile. now destruct (Template.unmarshal c).
Qed.

Lemma Provider_load_entry fs id c :
  plainID id = true → fs !! blogPath id = Some (File c) →
  Provider_load fs (entry id)
  = match Provider.unmarshal c with Ok blog => Some blog | Err _ => None end.
Proof.
  intros Hplain Hfile. unfold Provider_load, Provider.collect, entry.
  cbn [os.Name]. rewrite Ext_json, TrimSuffix_app. cbn [String.eqb Ascii.eqb Bool.eqb].
  unfold Provider.getBlogByID. rewrite (proj2 (Join_plain id Hplain)).
  unfold os.ReadFile. change (os.stat fs (blogPath id)) with (fs !! blogPath id).
  rewrite Hfile. now destruct (Provider.unmarshal c).
Qed.










(* ===================================================================== *)
(** * The scenario "Renewable Energy" *)
(* ===================================================================== *)






(* ===================================================================== *)
(** * The image proxy *)
(* ===================================================================== *)

(** ** Escaping and unescaping a query value *)

(** One escaped byte at the head of a string: both passes of [unescape]
    read it back as the byte. *)
Lemma escapeByte_read (c : ascii) (rest : string) :
  url.escapesOK (url.escapeByte c +:+ rest) = url.escapesOK rest
  ∧ url.unescapeBytes (url.escapeByte c +:+ rest) = String c (url.unescapeBytes rest).
Proof.
  destruct c as [[] [] [] [] [] [] [] []]; split; reflexivity.
Qed.

(** An escaped byte holds none of the separators of a query. *)
Lemma escapeByte_no_separator (c : ascii) :
  strings.ContainsByte (url.escapeByte c) "&" = false
  ∧ strings.ContainsByte (url.escapeByte c) ";" = false
  ∧ strings.ContainsByte (url.escapeByte c) "=" = false.
Proof.
  destruct c as [[] [] [] [] [] [] [] []]; repeat split; reflexivity.
Qed.

Lemma ContainsByte_app (s t : string) (c : ascii) :
  strings.ContainsByte (s +:+ t) c = strings.ContainsByte s c || strings.ContainsByte t c.
Proof.
  unfold strings.ContainsByte. induction s as [|a s IH]; [reflexivity|].
  cbn [String.append list_ascii_of_string existsb]. rewrite IH. apply orb_assoc.
Qed.

Lemma QueryEscape_no_separator (u : string) :
  strings.ContainsByte (url.QueryEscape u) "&" = false
  ∧ strings.ContainsByte (url.QueryEscape u) ";" = false
  ∧ strings.ContainsByte (url.QueryEscape u) "=" = false.
Proof.
  induction u as [|c u (IH1 & IH2 & IH3)]; [repeat split; reflexivity|].
  cbn [url.QueryEscape]. rewrite !ContainsByte_app, IH1, IH2, IH3.
  destruct (escapeByte_no_separator c) as (-> & -> & ->). repeat split; reflexivity.
Qed.

Lemma QueryEscape_read (u : string) :
  url.escapesOK (url.QueryEscape u) = true ∧ url.unescapeBytes (url.QueryEscape u) = u.
Proof.
  induction u as [|c u [IH1 IH2]]; [split; reflexivity|].
  cbn [url.QueryEscape]. destruct (escapeByte_read c (url.QueryEscape u)) as [-> ->].
  split; [exact IH1|now rewrite IH2].
Qed.

(** A string without [%] and [+] is its own unescaping: the shortcut of
    [unescape] returns what its second pass would. *)
Lemma unescapeBytes_plain (s : string) :
  strings.ContainsByte s "%" = false → strings.ContainsByte s "+" = false →
  url.unescapeBytes s = s.
Proof.
  unfold strings.ContainsByte. induction s as [|c s IH]; [reflexivity|].
  cbn [list_ascii_of_string existsb url.unescapeBytes].
  intros [Hc Hs]%orb_false_elim [Hc' Hs']%orb_false_elim.
  rewrite Ascii.eqb_sym in Hc. rewrite Ascii.eqb_sym in Hc'.
  rewrite Hc, Hc'. now rewrite IH.
Qed.

Lemma QueryUnescape_checked (s : string) :
  url.escapesOK s = true → url.QueryUnescape s = Some (url.unescapeBytes s).
Proof.
  intros H. unfold url.QueryUnescape. rewrite H.
  destruct (strings.ContainsByte s "%") eqn:Hp; [reflexivity|].
  destruct (strings.ContainsByte s "+") eqn:Hq; [reflexivity|].
  cbn [negb andb]. now rewrite unescapeBytes_plain.
Qed.

Lemma QueryUnescape_QueryEscape (u : string) :
  url.QueryUnescape (url.QueryEscape u) = Some u.
Proof.
  destruct (QueryEscape_read u) as [H1 H2].
  now rewrite QueryUnescape_checked, H2.
Qed.

(** ** Parsing a query with one setting *)

Lemma parseFrom_one (m : gmap string (list string)) (key s : string) :
  strings.ContainsByte s "&" = false →
  url.parseFrom m key s = url.addSetting m (key +:+ s).
Proof.
  unfold strings.ContainsByte. revert key. induction s as [|c s IH]; intros key.
  - intros _. cbn [url.parseFrom]. now rewrite app_empty_r.
  - cbn [list_ascii_of_string existsb url.parseFrom].
    intros [Hc Hs]%orb_false_elim. rewrite Ascii.eqb_sym in Hc. rewrite Hc.
    rewrite IH by exact Hs. unfold str1.
    now rewrite app_assoc_str.
Qed.

Lemma Cut_at (s t : string) (c : ascii) :
  strings.ContainsByte s c = false →
  strings.Cut (s +:+ String c t) c = (s, t, true).
Proof.
  unfold strings.ContainsByte. induction s as [|a s IH].
  - intros _. cbn [String.append strings.Cut]. now rewrite Ascii.eqb_refl.
  - cbn [list_ascii_of_string existsb String.append strings.Cut].
    intros [Hc Hs]%orb_false_elim. rewrite Ascii.eqb_sym in Hc. rewrite Hc.
    now rewrite IH.
Qed.

(** The query [url=<escaped u>] is parsed to the one setting of [url] to
    [u]. *)
Lemma ParseQuery_url (u : string) :
  url.ParseQuery ("url=" +:+ url.QueryEscape u) = {[ "url" := [u] ]}.
Proof.
  destruct (QueryEscape_no_separator u) as (Hamp & Hsemi & Heq).
  unfold url.ParseQuery. rewrite parseFrom_one.
  2:{ rewrite ContainsByte_app, Hamp. reflexivity. }
  change (EmptyString +:+ ("url=" +:+ url.QueryEscape u))
    with ("url=" +:+ url.QueryEscape u).
  unfold url.addSetting. rewrite ContainsByte_app, Hsemi.
  change (strings.ContainsByte "url=" ";" || false) with false. cbv iota.
  change (String.eqb ("url=" +:+ url.QueryEscape u) "") with false. cbv iota.
  change ("url=" +:+ url.QueryEscape u) with ("url" +:+ String "=" (url.QueryEscape u)).
  rewrite Cut_at by reflexivity.
  change (url.QueryUnescape "url") with (Some "url").
  rewrite QueryUnescape_QueryEscape. reflexivity.
Qed.

(** ** Further settings after the first *)

Lemma addSetting_first (m : gmap string (list string)) (setting key value : string)
      (values : list string) :
  m !! key = Some (value :: values) →
  ∃ values', url.addSetting m setting !! key = Some (value :: values').
Proof.
  intros Hm. unfold url.addSetting.
  destruct (strings.ContainsByte setting ";"); [now exists values|].
  destruct (String.eqb setting ""); [now exists values|].
  destruct (strings.Cut setting "=") as [[k v] found].
  destruct (url.QueryUnescape k) as [k'|]; [|now exists values].
  destruct (url.QueryUnescape v) as [v'|]; [|now exists values].
  destruct (decide (k' = key)) as [->|Hne].
  - rewrite lookup_insert_eq, Hm. exists (values ++ [v']). reflexivity.
  - rewrite lookup_insert_ne by exact Hne. now exists values.
Qed.

Lemma parseFrom_first (query : string) (m : gmap string (list string))
      (setting key value : string) (values : list string) :
  m !! key = Some (value :: values) →
  ∃ values', url.parseFrom m setting query !! key = Some (value :: values').
Proof.
  revert m setting values. induction query as [|c query IH]; intros m setting values Hm.
  - cbn [url.parseFrom]. now apply addSetting_first with values.
  - cbn [url.parseFrom]. destruct (Ascii.eqb c "&").
    + destruct (addSetting_first m setting key value values Hm) as [values' H'].
      now apply IH with values'.
    + now apply IH with values.
Qed.

Lemma parseFrom_app (m : gmap string (list string)) (setting s rest : string) :
  strings.ContainsByte s "&" = false →
  url.parseFrom m setting (s +:+ String "&" rest)
  = url.parseFrom (url.addSetting m (setting +:+ s)) EmptyString rest.
Proof.
  unfold strings.ContainsByte. revert setting. induction s as [|c s IH]; intros setting.
  - intros _. cbn [String.append url.parseFrom Ascii.eqb Bool.eqb].
    now rewrite app_empty_r.
  - cbn [list_ascii_of_string existsb String.append url.parseFrom].
    intros [Hc Hs]%orb_false_elim. rewrite Ascii.eqb_sym in Hc. rewrite Hc.
    rewrite IH by exact Hs. unfold str1. now rewrite app_assoc_str.
Qed.

Lemma addSetting_escaped (m : gmap string (list string)) (key u : string) :
  strings.ContainsByte key ";" = false → strings.ContainsByte key "=" = false →
  key ≠ "" → url.QueryUnescape key = Some key →
  url.addSetting m (key +:+ String "=" (url.QueryEscape u))
  = <[key := default [] (m !! key) ++ [u]]> m.
Proof.
  intros Hsemi Heq Hkey Hplain.
  destruct (QueryEscape_no_separator u) as (_ & Hsemi' & _).
  unfold url.addSetting.
  rewrite ContainsByte_app, Hsemi.
  change (String "=" (url.QueryEscape u)) with ("=" +:+ url.QueryEscape u) at 1.
  rewrite ContainsByte_app, Hsemi'. cbn [orb strings.ContainsByte list_ascii_of_string existsb].
  cbn [Ascii.eqb Bool.eqb andb orb].
  destruct key as [|c key]; [contradiction|].
  cbn [String.append String.eqb].
  change (String c (key +:+ String "=" (url.QueryEscape u)))
    with (String c key +:+ String "=" (url.QueryEscape u)).
  rewrite Cut_at by exact Heq. rewrite Hplain, QueryUnescape_QueryEscape. reflexivity.
Qed.

(** ** The proxy URL read back by the proxy *)

(** X1. The link that [generateBlogHandler] writes for an image is the
    proxy end point followed by a query, and the image proxy reads the
    original URL back from that query, whatever bytes the URL holds and
    whatever further settings follow it: [r.URL.Query().Get("url")] undoes
    [url.QueryEscape]. *)
Theorem proxy_query_round_trip (u rest : string) :
  Provider.proxyURL u
  = "http://localhost:8080/api/proxy-image?" +:+ ("url=" +:+ url.QueryEscape u)
  ∧ url.Get (url.ParseQuery ("url=" +:+ url.QueryEscape u)) "url" = u
  ∧ url.Get (url.ParseQuery (("url=" +:+ url.QueryEscape u) +:+ "&" +:+ rest)) "url" = u.
Proof.
  split; [reflexivity|]. split.
  - rewrite ParseQuery_url. unfold url.Get. now rewrite lookup_singleton_eq.
  - unfold url.ParseQuery.
    change ("&" +:+ rest) with (String "&" rest).
    rewrite parseFrom_app.
    2:{ rewrite ContainsByte_app, (proj1 (QueryEscape_no_separator u)). reflexivity. }
    change (EmptyString +:+ ("url=" +:+ url.QueryEscape u))
      with ("url" +:+ String "=" (url.QueryEscape u)).
    rewrite addSetting_escaped by (reflexivity || discriminate).
    destruct (parseFrom_first rest
                (<["url" := default [] ((∅ : gmap string (list string)) !! "url") ++ [u]]> ∅)
                EmptyString "url" u []) as [values Hvalues].
    { now rewrite lookup_insert_eq, lookup_empty. }
    unfold url.Get. now rewrite Hvalues.
Qed.

(** ** Copying the header *)

Lemma copyHeaders_union (entries : list (string * list string))
      (header : gmap string (list string)) :
  NoDup entries.*1 → copyHeaders entries header = list_to_map entries ∪ header.
Proof.
  unfold copyHeaders. revert header.
  induction entries as [|[k v] entries IH]; intros header Hnodup.
  - cbn [fold_left]. symmetry. apply (left_id_L ∅ (∪)).
  - rewrite fmap_cons in Hnodup. apply NoDup_cons in Hnodup as [Hk Hnodup].
    cbn [fst] in Hk. cbn [fold_left fst snd]. rewrite IH by exact Hnodup.
    change (list_to_map ((k, v) :: entries))
      with (<[k := v]> (list_to_map entries : gmap string (list string))).
    rewrite <- insert_union_l. symmetry. apply insert_union_r.
    now apply not_elem_of_list_to_map_1.
Qed.

Lemma copyHeaders_entries (respHeader header : gmap string (list string))
      (entries : list (string * list string)) :
  entries ≡ₚ map_to_list respHeader →
  copyHeaders entries header = respHeader ∪ header.
Proof.
  intros Hperm.
  assert (Hnodup : NoDup entries.*1).
  { rewrite Hperm. apply NoDup_fst_map_to_list. }
  rewrite copyHeaders_union by exact Hnodup.
  rewrite (list_to_map_proper entries (map_to_list respHeader) Hnodup Hperm).
  now rewrite list_to_map_to_list.
Qed.

(** X2. The loop that copies the header of the fetched response gives the
    same header in whatever order [range] yields the entries: every key of
    the response with its values, and the keys that the response does not
    have as they were. *)
Theorem copyHeaders_any_order (respHeader header : gmap string (list string))
        (entries : list (string * list string)) :
  entries ≡ₚ map_to_list respHeader →
  copyHeaders entries header = respHeader ∪ header
  ∧ ∀ key, copyHeaders entries header !! key
           = match respHeader !! key with
             | Some values => Some values
             | None => header !! key
             end.
Proof.
  intros Hperm. rewrite (copyHeaders_entries _ _ _ Hperm). split; [reflexivity|].
  intros key. rewrite lookup_union.
  destruct (respHeader !! key) as [values|]; [|now rewrite (left_id_L None union)].
  now destruct (header !! key).
Qed.

Lemma copyHeaders_any_order_witness :
  let entries := [("Content-Type", ["image/png"; "text/plain"]);
                  ("Cache-Control", ["max-age=60"])] in
  entries ≡ₚ map_to_list pngHeader
  ∧ copyHeaders entries corsHeader = pngHeader ∪ corsHeader.
Proof.
  intros entries.
  assert (Hperm : entries ≡ₚ map_to_list pngHeader).
  { unfold entries, pngHeader.
    rewrite map_to_list_insert by reflexivity.
    now rewrite map_to_list_singleton. }
  split; [exact Hperm|]. apply (proj1 (copyHeaders_any_order _ corsHeader _ Hperm)).
Defined.

(** ** What the proxy answers *)

(** X3. When the image host answers, the proxy passes the answer on: with
    status 200 it relays the body unchanged under the header of the
    response laid over the header it was entered with, [Content-Type]
    reduced to the first value the response gave for it; with any other
    three-digit status it refuses with that same status.  The two back ends
    answer alike. *)
Theorem proxyImageHandler_relays (w : World) (client_Do : string → ImageResult)
        (header : gmap string (list string)) (rawQuery : string)
        (statusCode : Z) (respHeader : gmap string (list string)) (respBody : string) :
  let imageURL := url.Get (url.ParseQuery rawQuery) "url" in
  imageURL ≠ "" →
  NewRequest_fails w imageURL = false →
  client_Do imageURL = Image statusCode respHeader respBody →
  (100 ≤ statusCode ≤ 999)%Z →
  Provider.proxyImageHandler w client_Do header rawQuery
  = Done (if (statusCode =? 200)%Z
          then Relayed 200
                 (<["Content-Type" := [http.Get respHeader "Content-Type"]]>
                    (respHeader ∪ header))
                 respBody
          else Refused statusCode "Failed to fetch image: status code "
                 (Some (UpstreamStatus statusCode)))
  ∧ Template.proxyImageHandler w client_Do header rawQuery
    = Provider.proxyImageHandler w client_Do header rawQuery.
Proof.
  intros imageURL Hurl Hreq Hdo Hcode. split; [|reflexivity].
  unfold Provider.proxyImageHandler. fold imageURL.
  rewrite (eqb_empty_false _ Hurl), Hreq, Hdo. unfold StatusOK.
  destruct (statusCode =? 200)%Z eqn:Hok; cbn [negb].
  - apply Z.eqb_eq in Hok as ->.
    now rewrite (copyHeaders_entries respHeader header (map_to_list respHeader)).
  - unfold http.validCode.
    destruct Hcode as [->%Z.leb_le ->%Z.leb_le]. reflexivity.
Qed.

Lemma proxyImageHandler_relays_witness :
  let rawQuery := "url=" +:+ url.QueryEscape "https://images.example.com/a b.png?w=1&h=2" in
  Provider.proxyImageHandler offline imageHost corsHeader rawQuery
  = Done (Relayed 200
            (<["Content-Type" := ["image/png"]]> (pngHeader ∪ corsHeader)) "PNG bytes").
Proof.
  intros rawQuery.
  assert (Hget : url.Get (url.ParseQuery rawQuery) "url"
                 = "https://images.example.com/a b.png?w=1&h=2")
    by (vm_compute; reflexivity).
  refine (proj1 (proxyImageHandler_relays offline imageHost corsHeader rawQuery
                   200 pngHeader "PNG bytes" _ _ _ _)).
  - rewrite Hget. discriminate.
  - rewrite Hget. reflexivity.
  - rewrite Hget. reflexivity.
  - lia.
Defined.

(** X4. Of the links that [generateBlogHandler] writes, the proxy refuses
    with 400, "Image URL is required", exactly the links of an empty URL: a
    block or an answer without image URL gets a link that the proxy never
    serves, and every other link is taken up. *)
Theorem proxy_link_refused_iff_empty (w : World) (client_Do : string → ImageResult)
        (header : gmap string (list string)) (u : string) :
  Provider.proxyImageHandler w client_Do header ("url=" +:+ url.QueryEscape u)
  = Done (Refused StatusBadRequest "Image URL is required" None)
  ↔ u = "".
Proof.
  unfold Provider.proxyImageHandler. rewrite ParseQuery_url.
  unfold url.Get. rewrite lookup_singleton_eq.
  destruct (String.eqb u "") eqn:Hu.
  - apply String.eqb_eq in Hu. tauto.
  - apply String.eqb_neq in Hu. split; [|contradiction].
    destruct (NewRequest_fails w u); [discriminate|].
    destruct (client_Do u) as [|statusCode respHeader respBody]; [discriminate|].
    destruct (negb (statusCode =? StatusOK)%Z); [|discriminate].
    destruct (http.validCode statusCode); discriminate.
Qed.

(* ===================================================================== *)
(** * The URLs the back ends request *)
(* ===================================================================== *)

(** X5. The request to the image provider carries exactly two parameters,
    [per_page] with the value 1 and [query] with the topic: read back as a
    query, the URL gives the topic unchanged, so no byte of the topic
    (an ampersand, an equals sign, a percent sign) adds or changes a
    parameter. *)
Theorem pexelsURL_parameters (topic : string) :
  let rawQuery := "per_page=1&query=" +:+ url.QueryEscape topic in
  Template.pexelsURL topic = "https://api.pexels.com/v1/search?" +:+ rawQuery
  ∧ url.ParseQuery rawQuery = {[ "per_page" := ["1"]; "query" := [topic] ]}.
Proof.
  intros rawQuery. split; [reflexivity|].
  unfold rawQuery, url.ParseQuery.
  change ("per_page=1&query=" +:+ url.QueryEscape topic)
    with ("per_page=1" +:+ String "&" ("query=" +:+ url.QueryEscape topic)).
  rewrite parseFrom_app by reflexivity.
  rewrite parseFrom_one.
  2:{ rewrite ContainsByte_app, (proj1 (QueryEscape_no_separator topic)). reflexivity. }
  change (EmptyString +:+ ("query=" +:+ url.QueryEscape topic))
    with ("query" +:+ String "=" (url.QueryEscape topic)).
  rewrite addSetting_escaped by (reflexivity || discriminate).
  change (url.addSetting ∅ (EmptyString +:+ "per_page=1"))
    with (url.addSetting ∅ ("per_page" +:+ String "=" (url.QueryEscape "1"))).
  rewrite addSetting_escaped by (reflexivity || discriminate).
  rewrite lookup_empty. cbn [default app].
  rewrite lookup_insert_ne by discriminate. rewrite lookup_empty. cbn [default app].
  rewrite insert_empty. apply insert_insert_ne. discriminate.
Qed.

(* ===================================================================== *)
(** * The template synthesizer: what the document is made of *)
(* ===================================================================== *)

Lemma take_minInt {A} (l : list A) :
  take (Z.to_nat (Template.minInt 3 (Z.of_nat (length l)))) l = take 3 l.
Proof.
  unfold Template.minInt. destruct (3 <? Z.of_nat (length l))%Z eqn:E.
  - reflexivity.
  - apply Z.ltb_ge in E. rewrite Nat2Z.id.
    rewrite firstn_all. symmetry. apply take_ge. lia.
Qed.

Lemma fold_addParagraph (ps : list string) (content : list Template.BlogContent.t) :
  fold_left Template.addParagraph ps content
  = content ++ map Template.paragraph (filter (fun p => p ≠ "") ps).
Proof.
  revert content. induction ps as [|p ps IH]; intros content.
  - cbn. now rewrite app_nil_r.
  - cbn [fold_left]. rewrite IH. unfold Template.addParagraph.
    destruct p as [|c p].
    + cbn [len String.length Nat.ltb Nat.leb].
      rewrite filter_cons_False by (intros H; now apply H). reflexivity.
    + cbn [len String.length Nat.ltb Nat.leb].
      rewrite filter_cons_True by discriminate.
      cbn [map]. now rewrite <- app_assoc.
Qed.

Lemma addScraped_shown (prompt : Template.LlamaIndexPrompt.t)
      (content : list Template.BlogContent.t) :
  Template.addScraped prompt content
  = Done (content
          ++ map Template.paragraph (shownParagraphs (Template.LlamaIndexPrompt.Contents prompt))).
Proof.
  unfold Template.addScraped, shownParagraphs.
  destruct (Template.LlamaIndexPrompt.Contents prompt) as [|first others].
  - cbn. now rewrite app_nil_r.
  - cbn [length Nat.ltb Nat.leb index lookup list_lookup mbind outcome_bind].
    rewrite sliceToInt_minInt. cbn [mbind outcome_bind].
    now rewrite fold_addParagraph, take_minInt.
Qed.

(** The document, field by field. *)
Lemma generateBlogPost_document (w : World) (prompt : Template.LlamaIndexPrompt.t) :
  let topic := Template.LlamaIndexPrompt.Topic prompt in
  ∃ featured image1 image2,
    Template.getTopicImage w topic = Done featured
    ∧ Template.getTopicImage w (topic +:+ " overview") = Done image1
    ∧ Template.getTopicImage w (topic +:+ " detail") = Done image2
    ∧ ∃ blog,
        Template.generateBlogPost w prompt = Done (Ok blog)
        ∧ Template.BlogPost.ID blog = uuid_New w
        ∧ Template.BlogPost.Topic blog = topic
        ∧ Template.BlogPost.FeaturedImage blog = featured
        ∧ Template.BlogPost.Content blog
          = Template.opening topic image1
            ++ map Template.paragraph
                 (shownParagraphs (Template.LlamaIndexPrompt.Contents prompt))
            ++ Template.closing topic image2.
Proof.
  intros topic. unfold Template.generateBlogPost. fold topic.
  destruct (getTopicImage_total w topic) as [featured Hfeatured].
  destruct (getTopicImage_total w (topic +:+ " overview")) as [image1 Himage1].
  destruct (getTopicImage_total w (topic +:+ " detail")) as [image2 Himage2].
  exists featured, image1, image2. rewrite Hfeatured, Himage1, Himage2.
  do 3 (split; [reflexivity|]).
  cbn [mbind outcome_bind Template.BlogPost.set_Summary
    Template.BlogPost.set_Content Template.BlogPost.Content].
  rewrite addScraped_shown. cbn [mbind outcome_bind].
  eexists. split; [reflexivity|].
  cbn [Template.BlogPost.ID Template.BlogPost.Topic Template.BlogPost.FeaturedImage
    Template.BlogPost.Content Template.BlogPost.set_Content].
  repeat split.
Qed.

Lemma shownParagraphs_length (contents : list ScrapedContent.t) :
  (length (shownParagraphs contents) ≤ 3)%nat.
Proof.
  unfold shownParagraphs. destruct contents as [|first others]; [cbn; lia|].
  etransitivity; [apply length_filter|]. rewrite length_take. lia.
Qed.

(** X6. The scraped part of a generated document is read from the first
    record of the corpus alone: its text is split at blank lines, and the
    non-empty ones among the first three pieces become paragraph blocks, in
    order, between the four opening and the six closing blocks.  A document
    therefore has at least 10 and at most 13 blocks. *)
Theorem generateBlogPost_content (w : World) (prompt : Template.LlamaIndexPrompt.t) :
  let topic := Template.LlamaIndexPrompt.Topic prompt in
  ∃ blog image1 image2,
    Template.generateBlogPost w prompt = Done (Ok blog)
    ∧ Template.BlogPost.Content blog
      = Template.opening topic image1
        ++ map Template.paragraph (shownParagraphs (Template.LlamaIndexPrompt.Contents prompt))
        ++ Template.closing topic image2
    ∧ (10 ≤ length (Template.BlogPost.Content blog) ≤ 13)%nat.
Proof.
  intros topic.
  destruct (generateBlogPost_document w prompt)
    as (featured & image1 & image2 & _ & _ & _ & blog & Hgen & _ & _ & _ & Hcontent).
  exists blog, image1, image2. split; [exact Hgen|]. split; [exact Hcontent|].
  rewrite Hcontent, !length_app, length_map.
  pose proof (shownParagraphs_length (Template.LlamaIndexPrompt.Contents prompt)).
  cbn [Template.opening Template.closing length]. lia.
Qed.

(** X7. Whatever follows the first record of the corpus has no effect on
    the document: the synthesizer never reads the second and later
    records. *)
Theorem generateBlogPost_first_record_only (w : World) (topic : string)
        (first : ScrapedContent.t) (others others' : list ScrapedContent.t) :
  Template.generateBlogPost w
    {| Template.LlamaIndexPrompt.Topic := topic;
       Template.LlamaIndexPrompt.Contents := first :: others |}
  = Template.generateBlogPost w
      {| Template.LlamaIndexPrompt.Topic := topic;
         Template.LlamaIndexPrompt.Contents := first :: others' |}.
Proof.
  unfold Template.generateBlogPost.
  cbn [Template.LlamaIndexPrompt.Topic].
  destruct (Template.getTopicImage w topic) as [featured|]; [|reflexivity].
  destruct (Template.getTopicImage w (topic +:+ " overview")) as [image1|]; [|reflexivity].
  destruct (Template.getTopicImage w (topic +:+ " detail")) as [image2|]; [|reflexivity].
  cbn [mbind outcome_bind]. now rewrite !addScraped_shown.
Qed.

(** X8. Without an image-provider key every image of a generated document
    is the default image: the featured image and the URL of each image
    block, for every topic and corpus. *)
Theorem generateBlogPost_default_images (w : World) (prompt : Template.LlamaIndexPrompt.t) :
  Getenv w "PEXELS_API_KEY" = "" →
  ∃ blog,
    Template.generateBlogPost w prompt = Done (Ok blog)
    ∧ Template.BlogPost.FeaturedImage blog = Template.defaultImage
    ∧ Forall (fun b => Template.BlogContent.Type_ b = "image" →
                       Template.BlogContent.URL b = Template.defaultImage)
             (Template.BlogPost.Content blog).
Proof.
  intros Hkey.
  destruct (generateBlogPost_document w prompt)
    as (featured & image1 & image2 & H0 & H1 & H2 & blog & Hgen & _ & _ & Hf & Hcontent).
  rewrite (getTopicImage_no_key w _ Hkey) in H0.
  rewrite (getTopicImage_no_key w _ Hkey) in H1.
  rewrite (getTopicImage_no_key w _ Hkey) in H2.
  injection H0 as <-. injection H1 as <-. injection H2 as <-.
  exists blog. split; [exact Hgen|]. split; [exact Hf|].
  rewrite Hcontent, !Forall_app. split; [|split].
  - unfold Template.opening. repeat (constructor; [cbn; first [discriminate|reflexivity]|]).
    constructor.
  - apply Forall_forall. intros b (p & -> & _)%list_elem_of_fmap. discriminate.
  - unfold Template.closing. repeat (constructor; [cbn; first [discriminate|reflexivity]|]).
    constructor.
Qed.

Lemma generateBlogPost_default_images_witness :
  ∃ blog,
    Template.generateBlogPost offline
      {| Template.LlamaIndexPrompt.Topic := "Renewable Energy";
         Template.LlamaIndexPrompt.Contents := [fourPieces] |} = Done (Ok blog)
    ∧ Template.BlogPost.FeaturedImage blog = Template.defaultImage
    ∧ Forall (fun b => Template.BlogContent.Type_ b = "image" →
                       Template.BlogContent.URL b = Template.defaultImage)
             (Template.BlogPost.Content blog).
Proof.
  apply (generateBlogPost_default_images offline). reflexivity.
Defined.

(* ===================================================================== *)
(** * The store: failures, other documents, listing *)
(* ===================================================================== *)

(** ** Making the store directory *)

Lemma tree_blogs fs n :
  treeFS fs → fs !! ["data"; "blogs"] = Some n → fs !! ["data"] = Some Dir.
Proof. intros Htree Hp. exact (Htree _ _ Hp). Qed.



(** Making the directory touches the two directories and nothing else,
    in particular not the file of a document. *)
Lemma mkdirs_other fs (q : list string) :
  q ≠ ["data"] → q ≠ ["data"; "blogs"] →
  (os.mkdirs fs [] ["data"; "blogs"]).1 !! q = fs !! q.
Proof.
  intros Hdata Hblogs. cbn [os.mkdirs app os.stat].
  destruct (fs !! ["data"]) as [[c|]|]; [reflexivity| |].
  - destruct (fs !! ["data"; "blogs"]) as [[c|]|]; try reflexivity.
    cbn [fst]. now rewrite lookup_insert_ne by congruence.
  - destruct (<[["data"] := Dir]> fs !! ["data"; "blogs"]) as [[c|]|]; cbn [fst];
      now rewrite !lookup_insert_ne by congruence.
Qed.




(** ** A failed save leaves no trace *)




Lemma blocked_tree : treeFS blocked.
Proof.
  unfold treeFS, blocked. apply map_Forall_singleton. reflexivity.
Qed.


(** ** Saving one document and reading another *)

Lemma WriteFile_other fs p q c : p ≠ q → (os.WriteFile fs p c).1 !! q = fs !! q.
Proof.
  intros Hpq. unfold os.WriteFile.
  destruct (os.stat fs p) as [[?|]|];
    try destruct (os.stat fs (removelast p)) as [[?|]|];
    cbn [fst]; try reflexivity; now rewrite lookup_insert_ne.
Qed.

Lemma Template_save_frame fs blog (q : list string) :
  plainID (Template.BlogPost.ID blog) = true →
  q ≠ ["data"] → q ≠ ["data"; "blogs"] → q ≠ blogPath (Template.BlogPost.ID blog) →
  (Template.saveBlogPost fs blog).1 !! q = fs !! q.
Proof.
  intros Hplain Hdata Hblogs Hfile. unfold Template.saveBlogPost, os.MkdirAll.
  rewrite (proj1 Clean_blogs), (proj1 (Join_plain _ Hplain)).
  pose proof (mkdirs_other fs q Hdata Hblogs) as Hmk.
  destruct (os.mkdirs fs [] ["data"; "blogs"]) as [fs1 e1]. cbn [fst] in Hmk.
  rewrite WriteFile_other; [exact Hmk|congruence].
Qed.

Lemma Provider_save_frame fs blog (q : list string) :
  plainID (Provider.BlogPost.ID blog) = true →
  q ≠ ["data"] → q ≠ ["data"; "blogs"] → q ≠ blogPath (Provider.BlogPost.ID blog) →
  (Provider.saveBlogPost fs blog).1 !! q = fs !! q.
Proof.
  intros Hplain Hdata Hblogs Hfile. unfold Provider.saveBlogPost, Provider.dataDir, os.MkdirAll.
  rewrite (proj2 Clean_blogs), (proj2 (Join_plain _ Hplain)).
  pose proof (mkdirs_other fs q Hdata Hblogs) as Hmk.
  destruct (os.mkdirs fs [] ["data"; "blogs"]) as [fs1 [e1|]]; cbn [fst] in Hmk.
  - exact Hmk.
  - rewrite WriteFile_other; [exact Hmk|congruence].
Qed.

Lemma other_file (id id' : string) :
  id ≠ id' →
  blogPath id ≠ ["data"] ∧ blogPath id ≠ ["data"; "blogs"] ∧ blogPath id ≠ blogPath id'.
Proof.
  intros Hne. repeat split; try discriminate. intros H%blogPath_inj. contradiction.
Qed.

Lemma Template_get_lookup fs id :
  plainID id = true →
  Template.getBlogByID fs id
  = match fs !! blogPath id with
    | Some (File c) => Template.unmarshal c
    | Some Dir => Err ErrIsDir
    | None => Err ErrNotExist
    end.
Proof.
  intros Hplain. unfold Template.getBlogByID. rewrite (proj1 (Join_plain _ Hplain)).
  unfold os.ReadFile. change (os.stat fs (blogPath id)) with (fs !! blogPath id).
  now destruct (fs !! blogPath id) as [[c|]|].
Qed.

Lemma Provider_get_lookup fs id :
  plainID id = true →
  Provider.getBlogByID fs id
  = match fs !! blogPath id with
    | Some (File c) => Provider.unmarshal c
    | Some Dir => Err ErrIsDir
    | None => Err ErrNotExist
    end.
Proof.
  intros Hplain. unfold Provider.getBlogByID. rewrite (proj2 (Join_plain _ Hplain)).
  unfold os.ReadFile. change (os.stat fs (blogPath id)) with (fs !! blogPath id).
  now destruct (fs !! blogPath id) as [[c|]|].
Qed.

(** X10. Saving a document writes its own file and, at most, makes the
    two directories above it: every other path of the file system is as it
    was, whether the save succeeds or fails, and so [getBlogByID] answers
    as before for every other identifier. *)
Theorem saveBlogPost_keeps_the_rest (fs : gmap (list string) node)
        (q : list string) (id : string) :
  q ≠ ["data"] → q ≠ ["data"; "blogs"] → plainID id = true →
  (∀ blog, plainID (Provider.BlogPost.ID blog) = true →
     (q ≠ blogPath (Provider.BlogPost.ID blog) →
      (Provider.saveBlogPost fs blog).1 !! q = fs !! q)
     ∧ (id ≠ Provider.BlogPost.ID blog →
        Provider.getBlogByID (Provider.saveBlogPost fs blog).1 id
        = Provider.getBlogByID fs id))
  ∧ (∀ blog, plainID (Template.BlogPost.ID blog) = true →
       (q ≠ blogPath (Template.BlogPost.ID blog) →
        (Template.saveBlogPost fs blog).1 !! q = fs !! q)
       ∧ (id ≠ Template.BlogPost.ID blog →
          Template.getBlogByID (Template.saveBlogPost fs blog).1 id
          = Template.getBlogByID fs id)).
Proof.
  intros Hdata Hblogs Hplain. split; intros blog Hblog; split.
  - intros Hfile. now apply Provider_save_frame.
  - intros Hne. destruct (other_file id _ Hne) as (H1 & H2 & H3).
    rewrite !(Provider_get_lookup _ _ Hplain). now rewrite Provider_save_frame.
  - intros Hfile. now apply Template_save_frame.
  - intros Hne. destruct (other_file id _ Hne) as (H1 & H2 & H3).
    rewrite !(Template_get_lookup _ _ Hplain). now rewrite Template_save_frame.
Qed.

Lemma saveBlogPost_keeps_the_rest_witness :
  let first := providerDoc "0f8fad5b-d9cb-469f-a165-70867728950e" "Renewable Energy" in
  let second := providerDoc "7c9e6679-7425-40de-944b-e07fc1f90ae7" "Tidal Power" in
  let fs := (Provider.saveBlogPost ∅ first).1 in
  Provider.getBlogByID fs (Provider.BlogPost.ID first) = Ok first
  ∧ Provider.getBlogByID (Provider.saveBlogPost fs second).1 (Provider.BlogPost.ID first)
    = Provider.getBlogByID fs (Provider.BlogPost.ID first).
Proof.
  intros first second fs. split; [vm_compute; reflexivity|].
  refine (proj2 (proj1 (saveBlogPost_keeps_the_rest fs ["notes.txt"]
                          (Provider.BlogPost.ID first) _ _ eq_refl) second eq_refl) _);
    discriminate.
Defined.

(** ** A missing document, a missing directory *)





(** ** A saved document is listed *)

Lemma entryOf_blog (id : string) (n : node) :
  os.entryOf ["data"; "blogs"] (blogPath id, n)
  = Some {| os.Name := id +:+ ".json"; os.IsDir := os.isDirNode n |}.
Proof. reflexivity. Qed.

Lemma ReadDir_has_file fs id c :
  fs !! ["data"; "blogs"] = Some Dir → fs !! blogPath id = Some (File c) →
  ∃ files, os.ReadDir fs "data/blogs" = Ok files
           ∧ os.ReadDir fs "./data/blogs" = Ok files
           ∧ entry id ∈ files.
Proof.
  intros Hblogs Hfile. unfold os.ReadDir. destruct Clean_blogs as [-> ->].
  change (os.stat fs ["data"; "blogs"]) with (fs !! ["data"; "blogs"]).
  rewrite Hblogs. eexists. split; [reflexivity|]. split; [reflexivity|].
  rewrite merge_sort_Permutation. apply list_elem_of_omap.
  exists (blogPath id, File c). split; [now apply elem_of_map_to_list|].
  apply entryOf_blog.
Qed.

Lemma WriteFile_parent fs p c fs' :
  os.WriteFile fs p c = (fs', None) → os.stat fs (removelast p) = Some Dir.
Proof.
  unfold os.WriteFile.
  destruct (os.stat fs p) as [[?|]|]; try discriminate;
    destruct (os.stat fs (removelast p)) as [[?|]|]; now try discriminate.
Qed.

(** After a save that succeeded, the directory is there and holds the
    file. *)
Lemma Template_saved_state fs fs' blog :
  plainID (Template.BlogPost.ID blog) = true →
  Template.saveBlogPost fs blog = (fs', None) →
  fs' !! ["data"; "blogs"] = Some Dir
  ∧ fs' !! blogPath (Template.BlogPost.ID blog) = Some (File (Template.marshal blog)).
Proof.
  intros Hplain. unfold Template.saveBlogPost.
  rewrite (proj1 (Join_plain _ Hplain)).
  destruct (os.MkdirAll fs "data/blogs") as [fs1 e1]. intros Hw.
  pose proof (WriteFile_parent _ _ _ _ Hw) as Hparent.
  apply WriteFile_ok in Hw as [-> _]. split.
  - unfold blogPath. rewrite lookup_insert_ne by discriminate. exact Hparent.
  - apply lookup_insert_eq.
Qed.

Lemma Provider_saved_state fs fs' blog :
  plainID (Provider.BlogPost.ID blog) = true →
  Provider.saveBlogPost fs blog = (fs', None) →
  fs' !! ["data"; "blogs"] = Some Dir
  ∧ fs' !! blogPath (Provider.BlogPost.ID blog) = Some (File (Provider.marshal blog)).
Proof.
  intros Hplain. unfold Provider.saveBlogPost, Provider.dataDir.
  rewrite (proj2 (Join_plain _ Hplain)).
  destruct (os.MkdirAll fs "./data/blogs") as [fs1 [e1|]]; [discriminate|]. intros Hw.
  pose proof (WriteFile_parent _ _ _ _ Hw) as Hparent.
  apply WriteFile_ok in Hw as [-> _]. split.
  - unfold blogPath. rewrite lookup_insert_ne by discriminate. exact Hparent.
  - apply lookup_insert_eq.
Qed.

(** X13. A document that was saved is listed: after a save that succeeded,
    [getAllBlogs] returns without error a list that holds the document,
    whatever else the file system holds.  (The document has valid UTF-8
    strings, so that it is stored unchanged, and its identifier is a file
    name.) *)
Theorem saved_document_is_listed :
  (∀ fs fs' blog,
     Provider.BlogPost.wellTyped blog = true →
     plainID (Provider.BlogPost.ID blog) = true →
     Provider.saveBlogPost fs blog = (fs', None) →
     ∃ blogs, Provider.getAllBlogs fs' = Ok blogs ∧ blog ∈ blogs)
  ∧ (∀ fs fs' blog,
       Template.BlogPost.wellTyped blog = true →
       plainID (Template.BlogPost.ID blog) = true →
       Template.saveBlogPost fs blog = (fs', None) →
       ∃ blogs, Template.getAllBlogs fs' = Ok blogs ∧ blog ∈ blogs).
Proof.
  split; intros fs fs' blog Htyped Hplain Hsaved.
  - destruct (Provider_saved_state _ _ _ Hplain Hsaved) as [Hblogs Hfile].
    destruct (ReadDir_has_file _ _ _ Hblogs Hfile) as (files & _ & Hdir & Hin).
    unfold Provider.getAllBlogs, Provider.dataDir. rewrite Hdir.
    eexists. split; [reflexivity|].
    rewrite Provider_fold_collect. cbn [app]. apply list_elem_of_omap.
    exists (entry (Provider.BlogPost.ID blog)). split; [exact Hin|].
    rewrite (Provider_load_entry _ _ _ Hplain Hfile).
    now rewrite Provider_unmarshal_marshal.
  - destruct (Template_saved_state _ _ _ Hplain Hsaved) as [Hblogs Hfile].
    destruct (ReadDir_has_file _ _ _ Hblogs Hfile) as (files & Hdir & _ & Hin).
    unfold Template.getAllBlogs. rewrite Hdir.
    eexists. split; [reflexivity|].
    rewrite Template_fold_collect. cbn [app]. apply list_elem_of_omap.
    exists (entry (Template.BlogPost.ID blog)). split; [exact Hin|].
    rewrite (Template_load_entry _ _ _ Hplain Hfile).
    now rewrite Template_unmarshal_marshal.
Qed.

Lemma saved_document_is_listed_witness :
  let blog := providerDoc "0f8fad5b-d9cb-469f-a165-70867728950e" "Renewable Energy" in
  let saved := Provider.saveBlogPost dirs blog in
  saved.2 = None ∧ ∃ blogs, Provider.getAllBlogs saved.1 = Ok blogs ∧ blog ∈ blogs.
Proof.
  intros blog saved.
  assert (Hnone : saved.2 = None) by (vm_compute; reflexivity).
  split; [exact Hnone|].
  apply (proj1 saved_document_is_listed dirs saved.1 blog); [reflexivity..|].
  rewrite <- Hnone. apply surjective_pairing.
Defined.

(* ===================================================================== *)
(** * One store, two back ends *)
(* ===================================================================== *)

(** A slice of records, each of which one back end reads as [f] of what
    the other wrote, is read as the slice of the [f]s. *)
Lemma intoSlice_converted {A B} (enc : A → json) (dec : json → B → option B) (zero : B)
      (f : A → B) (ok : A → bool) (l : list A) (cur : list B) :
  (∀ a, ok a = true → dec (enc a) zero = Some (f a)) →
  forallb ok l = true →
  jsonlib.intoSlice dec zero (jsonlib.encSlice enc l) cur = Some (map f l).
Proof.
  intros Hone. unfold jsonlib.intoSlice, jsonlib.encSlice.
  induction l as [|a l IH]; [reflexivity|]. simpl. intros H.
  apply andb_true_iff in H as [Ha Hl]. now rewrite (Hone a Ha), (IH Hl).
Qed.

Lemma Template_reads_Provider_block (b : Provider.BlogContent.t) :
  Provider.BlogContent.wellTyped b = true →
  Template.BlogContent.decodeInto (Provider.BlogContent.encode b) Template.BlogContent.zero
  = Some (upgradeBlock b).
Proof.
  destruct b as [type text level url alt caption].
  unfold Provider.BlogContent.wellTyped, upgradeBlock. cbn [Provider.BlogContent.Type_
    Provider.BlogContent.Text Provider.BlogContent.Level Provider.BlogContent.URL
    Provider.BlogContent.Alt Provider.BlogContent.Caption].
  rewrite !andb_true_iff. intros (((((Htype & Htext) & Hlevel) & Hurl) & Halt) & Hcaption).
  unfold Provider.BlogContent.encode. cbn [Provider.BlogContent.Type_
    Provider.BlogContent.Text Provider.BlogContent.Level Provider.BlogContent.URL
    Provider.BlogContent.Alt Provider.BlogContent.Caption].
  rewrite encString_valid, !optString_valid by assumption.
  unfold jsonlib.optInt, Template.BlogContent.decodeInto, jsonlib.intoStruct.
  absorb Template.BlogContent.field Template.BlogContent.set_Type_ type.
  absorb Template.BlogContent.field Template.BlogContent.set_Text text.
  absorb Template.BlogContent.field Template.BlogContent.set_Level level.
  absorb Template.BlogContent.field Template.BlogContent.set_URL url.
  absorb Template.BlogContent.field Template.BlogContent.set_Alt alt.
  absorb Template.BlogContent.field Template.BlogContent.set_Caption caption.
  reflexivity.
Qed.

Lemma Provider_reads_Template_block (b : Template.BlogContent.t) :
  Template.BlogContent.wellTyped b = true →
  Provider.BlogContent.decodeInto (Template.BlogContent.encode b) Provider.BlogContent.zero
  = Some (downgradeBlock b).
Proof.
  destruct b as [type text level url alt caption citation items ordered].
  unfold Template.BlogContent.wellTyped, downgradeBlock. cbn [Template.BlogContent.Type_
    Template.BlogContent.Text Template.BlogContent.Level Template.BlogContent.URL
    Template.BlogContent.Alt Template.BlogContent.Caption Template.BlogContent.Citation
    Template.BlogContent.Items Template.BlogContent.Ordered].
  rewrite !andb_true_iff.
  intros (((((((Htype & Htext) & Hlevel) & Hurl) & Halt) & Hcaption) & Hcitation) & Hitems).
  unfold Template.BlogContent.encode. cbn [Template.BlogContent.Type_
    Template.BlogContent.Text Template.BlogContent.Level Template.BlogContent.URL
    Template.BlogContent.Alt Template.BlogContent.Caption Template.BlogContent.Citation
    Template.BlogContent.Items Template.BlogContent.Ordered].
  rewrite encString_valid, !optString_valid, optStrings_valid by assumption.
  unfold jsonlib.optInt, jsonlib.optBool, Provider.BlogContent.decodeInto,
    jsonlib.intoStruct.
  absorb Provider.BlogContent.field Provider.BlogContent.set_Type_ type.
  absorb Provider.BlogContent.field Provider.BlogContent.set_Text text.
  absorb Provider.BlogContent.field Provider.BlogContent.set_Level level.
  absorb Provider.BlogContent.field Provider.BlogContent.set_URL url.
  absorb Provider.BlogContent.field Provider.BlogContent.set_Alt alt.
  absorb Provider.BlogContent.field Provider.BlogContent.set_Caption caption.
  absorb Provider.BlogContent.field
    (fun (_ : string) (r : Provider.BlogContent.t) => r) citation.
  absorb Provider.BlogContent.field
    (fun (_ : list string) (r : Provider.BlogContent.t) => r) items.
  absorb Provider.BlogContent.field
    (fun (_ : bool) (r : Provider.BlogContent.t) => r) ordered.
  reflexivity.
Qed.

Lemma Template_reads_Provider (d : Provider.BlogPost.t) :
  Provider.BlogPost.wellTyped d = true →
  Template.unmarshal (Provider.marshal d) = Ok (upgrade d).
Proof.
  destruct d as [id title author date summary content featured tags reading topic].
  unfold Provider.BlogPost.wellTyped, upgrade. cbn [Provider.BlogPost.ID Provider.BlogPost.Title
    Provider.BlogPost.Author Provider.BlogPost.Date Provider.BlogPost.Summary
    Provider.BlogPost.Content Provider.BlogPost.FeaturedImage Provider.BlogPost.Tags
    Provider.BlogPost.ReadingTime Provider.BlogPost.Topic].
  rewrite !andb_true_iff.
  intros (((((((((Hid & Htitle) & Hauthor) & Hdate) & Hsummary) & Hcontent) & Hfeatured)
              & Htags) & Hreading) & Htopic).
  unfold Template.unmarshal, Provider.marshal, Provider.BlogPost.encode.
  cbn [Provider.BlogPost.ID Provider.BlogPost.Title
    Provider.BlogPost.Author Provider.BlogPost.Date Provider.BlogPost.Summary
    Provider.BlogPost.Content Provider.BlogPost.FeaturedImage Provider.BlogPost.Tags
    Provider.BlogPost.ReadingTime Provider.BlogPost.Topic].
  rewrite !encString_valid, encSlice_strings_valid by assumption.
  unfold Template.BlogPost.decodeInto, jsonlib.intoStruct.
  cbn [app]. decode_members Template.BlogPost.field.
  rewrite (intoSlice_converted _ _ _ upgradeBlock _ content _
             Template_reads_Provider_block Hcontent).
  cbn [mbind option_bind]. rewrite intoSlice_strings.
  cbn [mbind option_bind]. rewrite ?Hreading. reflexivity.
Qed.

Lemma Provider_reads_Template (d : Template.BlogPost.t) :
  Template.BlogPost.wellTyped d = true →
  Provider.unmarshal (Template.marshal d) = Ok (downgrade d).
Proof.
  destruct d as [id title author date summary content featured tags reading topic].
  unfold Template.BlogPost.wellTyped, downgrade. cbn [Template.BlogPost.ID Template.BlogPost.Title
    Template.BlogPost.Author Template.BlogPost.Date Template.BlogPost.Summary
    Template.BlogPost.Content Template.BlogPost.FeaturedImage Template.BlogPost.Tags
    Template.BlogPost.ReadingTime Template.BlogPost.Topic].
  rewrite !andb_true_iff.
  intros (((((((((Hid & Htitle) & Hauthor) & Hdate) & Hsummary) & Hcontent) & Hfeatured)
              & Htags) & Hreading) & Htopic).
  unfold Provider.unmarshal, Template.marshal, Template.BlogPost.encode.
  cbn [Template.BlogPost.ID Template.BlogPost.Title
    Template.BlogPost.Author Template.BlogPost.Date Template.BlogPost.Summary
    Template.BlogPost.Content Template.BlogPost.FeaturedImage Template.BlogPost.Tags
    Template.BlogPost.ReadingTime Template.BlogPost.Topic].
  rewrite !encString_valid, encSlice_strings_valid by assumption.
  unfold Provider.BlogPost.decodeInto, jsonlib.intoStruct.
  cbn [app]. decode_members Provider.BlogPost.field.
  rewrite (intoSlice_converted _ _ _ downgradeBlock _ content _
             Provider_reads_Template_block Hcontent).
  cbn [mbind option_bind]. rewrite intoSlice_strings.
  cbn [mbind option_bind]. rewrite ?Hreading. reflexivity.
Qed.

(** X14. The two back ends keep their documents in the same files and read
    each other's: a document saved by the external-provider back end is
    returned by [getBlogByID] of the template back end with the same
    fields, and one saved by the template back end is returned by the
    external-provider back end with the citation, the items and the
    ordering of its blocks dropped and every other field the same. *)
Theorem back_ends_share_the_store :
  (∀ fs fs' blog,
     Provider.BlogPost.wellTyped blog = true →
     plainID (Provider.BlogPost.ID blog) = true →
     Provider.saveBlogPost fs blog = (fs', None) →
     Template.getBlogByID fs' (Provider.BlogPost.ID blog) = Ok (upgrade blog))
  ∧ (∀ fs fs' blog,
       Template.BlogPost.wellTyped blog = true →
       plainID (Template.BlogPost.ID blog) = true →
       Template.saveBlogPost fs blog = (fs', None) →
       Provider.getBlogByID fs' (Template.BlogPost.ID blog) = Ok (downgrade blog)).
Proof.
  split; intros fs fs' blog Htyped Hplain Hsaved.
  - destruct (Provider_saved_state _ _ _ Hplain Hsaved) as [_ Hfile].
    rewrite (Template_get_lookup _ _ Hplain), Hfile.
    now apply Template_reads_Provider.
  - destruct (Template_saved_state _ _ _ Hplain Hsaved) as [_ Hfile].
    rewrite (Provider_get_lookup _ _ Hplain), Hfile.
    now apply Provider_reads_Template.
Qed.

Lemma back_ends_share_the_store_witness :
  let blog := templateDoc "0f8fad5b-d9cb-469f-a165-70867728950e" "Renewable Energy" in
  let saved := Template.saveBlogPost ∅ blog in
  saved.2 = None
  ∧ Provider.getBlogByID saved.1 (Template.BlogPost.ID blog) = Ok (downgrade blog)
  ∧ Template.BlogPost.Content blog
    ≠ Template.BlogPost.Content (upgrade (downgrade blog)).
Proof.
  intros blog saved.
  assert (Hnone : saved.2 = None) by (vm_compute; reflexivity).
  split; [exact Hnone|]. split.
  - apply (proj2 back_ends_share_the_store ∅ saved.1 blog); [reflexivity..|].
    rewrite <- Hnone. apply surjective_pairing.
  - discriminate.
Defined.

(* ===================================================================== *)
(** * The crawler: how much it gathers; what the handlers answer *)
(* ===================================================================== *)

Section Counting.

Variable maxCount : nat.

Lemma onHTML_counted st e : counted maxCount st → counted maxCount (onHTML maxCount st e).
Proof.
  destruct st as [count contents]. unfold counted, onHTML. cbn [fst snd].
  intros [Hcount Hbound].
  destruct (maxCount <=? count)%nat eqn:Hfull; [now split|].
  apply Nat.leb_gt in Hfull.
  destruct (negb _ && _); cbn [fst snd]; [|now split].
  rewrite length_app. cbn [length]. split; lia.
Qed.

Lemma fold_onHTML_counted es st :
  counted maxCount st → counted maxCount (fold_left (onHTML maxCount) es st).
Proof.
  revert st. induction es as [|e es IH]; intros st Hst; cbn [fold_left]; [exact Hst|].
  apply IH, onHTML_counted, Hst.
Qed.

Lemma Visit_counted w u st :
  counted maxCount st → counted maxCount (Visit w maxCount u st).1.
Proof. intros Hst. unfold Visit. cbn [fst]. now apply fold_onHTML_counted. Qed.

Lemma counted_length st : counted maxCount st → (length st.2 ≤ maxCount)%nat.
Proof. intros [<- H]. exact H. Qed.

End Counting.

Lemma counted_start maxCount : counted maxCount (0%nat, []).
Proof. split; cbn; lia. Qed.

(** X15. The crawler never returns more records than its bound, however
    many elements the pages hold and whichever visits fail: at most 5 in
    the template back end, at most 50 in the external-provider back end,
    the simulated articles included. *)
Theorem scrapeContentForTopic_bounded (w : World) (topic : string) :
  (∃ corpus, Template.scrapeContentForTopic w topic = Ok corpus
             ∧ (length corpus ≤ Template.maxCount)%nat)
  ∧ (∃ corpus, Provider.scrapeContentForTopic w topic = Ok corpus
               ∧ (length corpus ≤ Provider.maxCount)%nat).
Proof.
  split.
  - destruct (Visit w Template.maxCount (searchURL topic) (0%nat, [])) as [st1 e1] eqn:H1.
    destruct (Visit w Template.maxCount (wikiURL topic) st1) as [st2 e2] eqn:H2.
    eexists; split; [exact (Template_scrape_cases _ _ _ _ _ _ H1 H2)|].
    assert (A1 : counted Template.maxCount st1).
    { change st1 with ((st1, e1).1). rewrite <- H1. apply Visit_counted, counted_start. }
    assert (A2 : counted Template.maxCount st2).
    { change st2 with ((st2, e2).1). rewrite <- H2. apply Visit_counted, A1. }
    apply counted_length in A1, A2. cbv zeta.
    destruct e1; [destruct e2|]; try assumption.
    + destruct (st2.2); [cbn; unfold Template.maxCount; lia | assumption].
    + destruct (st1.2); [cbn; unfold Template.maxCount; lia | assumption].
  - destruct (Visit w Provider.maxCount (searchURL topic) (0%nat, [])) as [st1 e1] eqn:H1.
    destruct (Visit w Provider.maxCount (wikiURL topic) st1) as [st2 e2] eqn:H2.
    eexists; split; [exact (Provider_scrape_cases _ _ _ _ _ _ H1 H2)|].
    assert (A1 : counted Provider.maxCount st1).
    { change st1 with ((st1, e1).1). rewrite <- H1. apply Visit_counted, counted_start. }
    assert (A2 : counted Provider.maxCount st2).
    { change st2 with ((st2, e2).1). rewrite <- H2. apply Visit_counted, A1. }
    apply counted_length in A1, A2. cbv zeta.
    assert (A : (length (if e1 then st2.2 else st1.2) ≤ Provider.maxCount)%nat)
      by (now destruct e1).
    destruct (_ <? _)%nat eqn:Hfew; [|exact A].
    apply Nat.ltb_lt in Hfew. rewrite length_app.
    unfold Provider.minContents in Hfew. unfold Provider.maxCount. cbn [Provider.simulated length].
    lia.
Qed.

(** ** What the generating handlers answer *)

Lemma Provider_scrape_nonempty w topic :
  ∃ corpus, Provider.scrapeContentForTopic w topic = Ok corpus
            ∧ (length corpus =? 0)%nat = false.
Proof.
  destruct (Visit w Provider.maxCount (searchURL topic) (0%nat, [])) as [st1 e1] eqn:H1.
  destruct (Visit w Provider.maxCount (wikiURL topic) st1) as [st2 e2] eqn:H2.
  eexists; split; [exact (Provider_scrape_cases _ _ _ _ _ _ H1 H2)|].
  cbv zeta. apply Nat.eqb_neq.
  destruct (_ <? _)%nat eqn:Hfew.
  - rewrite length_app. cbn [Provider.simulated length]. lia.
  - apply Nat.ltb_ge in Hfew. unfold Provider.minContents in Hfew. lia.
Qed.

Lemma Template_scrape_ok w topic :
  ∃ corpus, Template.scrapeContentForTopic w topic = Ok corpus.
Proof.
  destruct (Visit w Template.maxCount (searchURL topic) (0%nat, [])) as [st1 e1] eqn:H1.
  destruct (Visit w Template.maxCount (wikiURL topic) st1) as [st2 e2] eqn:H2.
  eexists. exact (Template_scrape_cases _ _ _ _ _ _ H1 H2).
Qed.

(** X16. The answers that the generating handlers can give.  The
    external-provider back end answers with the document, with 400 for a
    bad body or an empty topic, or with 500 when the generation or the save
    fails: it never answers 404, its corpus being never empty, and never
    reports a failed crawl.  The template back end answers with the
    document, with 400, with 404 for an empty corpus, or with 500 when the
    save fails: it never reports a failed crawl or a failed generation, and
    never panics. *)
Theorem generateBlogHandler_answers (w : World) (fs : gmap (list string) node)
        (body : content) :
  match (Provider.generateBlogHandler w fs body).2 with
  | Provider.Body _ => True
  | Provider.Error code msg _ =>
    (code = StatusBadRequest ∧ (msg = "Invalid request body" ∨ msg = "Topic is required"))
    ∨ (code = StatusInternalServerError
       ∧ (msg = "Failed to generate blog: " ∨ msg = "Failed to save blog: "))
  end
  ∧ match (Template.generateBlogHandler w fs body).2 with
    | Done (Template.Body _) => True
    | Done (Template.Error code msg _) =>
      (code = StatusBadRequest ∧ (msg = "Invalid request body" ∨ msg = "Topic is required"))
      ∨ (code = StatusNotFound ∧ msg = "No content found for this topic")
      ∨ (code = StatusInternalServerError ∧ msg = "Failed to save blog: ")
    | Panic _ => False
    end.
Proof.
  split.
  - unfold Provider.generateBlogHandler.
    destruct (RequestBody.decode body) as [reqBody|]; [|cbn; tauto].
    destruct (String.eqb (RequestBody.Topic reqBody) ""); [cbn; tauto|].
    destruct (Provider_scrape_nonempty w (RequestBody.Topic reqBody))
      as (corpus & -> & ->).
    destruct (Provider.GenerateBlogWithLlamaIndex w _ corpus) as [resp|]; [|cbn; tauto].
    match goal with |- context [Provider.saveBlogPost fs ?b] =>
      destruct (Provider.saveBlogPost fs b) as [fs1 [e|]]
    end; cbn; tauto.
  - unfold Template.generateBlogHandler.
    destruct (RequestBody.decode body) as [reqBody|]; [|cbn; tauto].
    destruct (String.eqb (RequestBody.Topic reqBody) ""); [cbn; tauto|].
    destruct (Template_scrape_ok w (RequestBody.Topic reqBody)) as (corpus & ->).
    destruct (length corpus =? 0)%nat; [cbn; tauto|].
    match goal with |- context [Template.generateBlogPost w ?p] =>
      destruct (generateBlogPost_document w p)
        as (_ & _ & _ & _ & _ & _ & blog & -> & _)
    end.
    destruct (Template.saveBlogPost fs blog) as [fs1 [e|]]; cbn; tauto.
Qed.

(** ** A request without a topic *)

Lemma decode_no_topic (members : list (string * json)) (r : RequestBody.t) :
  Forall (fun m => jsonlib.matches m.1 "topic" = false) members →
  fold_left (jsonlib.member RequestBody.field) members (Some r) = Some r.
Proof.
  induction 1 as [|[k v] members Hk _ IH]; [reflexivity|].
  cbn [fold_left]. unfold jsonlib.member at 2, RequestBody.field.
  cbn [fst snd mbind option_bind] in *. rewrite Hk. exact IH.
Qed.

(** X17. A request whose body is a JSON object with no member named
    [topic] (in any letter case) is refused by both back ends with 400,
    "Topic is required", whatever else the object holds; nothing is crawled
    for it and the file system stays as it was. *)
Theorem generateBlogHandler_no_topic (w : World) (fs : gmap (list string) node)
        (members : list (string * json)) :
  Forall (fun m => jsonlib.matches m.1 "topic" = false) members →
  Provider.generateBlogHandler w fs (JSONText (JObject members))
  = (fs, Provider.Error StatusBadRequest "Topic is required" None)
  ∧ Template.generateBlogHandler w fs (JSONText (JObject members))
    = (fs, Done (Template.Error StatusBadRequest "Topic is required" None)).
Proof.
  intros Hnone.
  assert (Hdecode : RequestBody.decode (JSONText (JObject members))
                    = Ok {| RequestBody.Topic := "" |}).
  { unfold RequestBody.decode, jsonlib.intoStruct. now rewrite decode_no_topic. }
  unfold Provider.generateBlogHandler, Template.generateBlogHandler.
  rewrite Hdecode. split; reflexivity.
Qed.

Lemma generateBlogHandler_no_topic_witness :
  Provider.generateBlogHandler scripted dirs noTopic
  = (dirs, Provider.Error StatusBadRequest "Topic is required" None)
  ∧ Template.generateBlogHandler scripted dirs noTopic
    = (dirs, Done (Template.Error StatusBadRequest "Topic is required" None)).
Proof.
  apply (generateBlogHandler_no_topic scripted dirs).
  repeat constructor.
Defined.

(* ===================================================================== *)
(** * The entry points of the crawl; what the callback accepts *)
(* ===================================================================== *)

Lemma replaceFrom_byte (old new : ascii) (s : string) :
  strings.replaceFrom (str1 old) (str1 new) 0 s = replaceByte old new s.
Proof.
  unfold replaceByte. induction s as [|c s IH]; [reflexivity|].
  cbn [strings.replaceFrom list_ascii_of_string map string_of_list_ascii].
  unfold strings.HasPrefix, str1. cbn [String.prefix].
  rewrite <- IH. destruct (ascii_dec old c) as [->|Hne].
  - rewrite Ascii.eqb_refl. destruct s; reflexivity.
  - assert (Hcb : Ascii.eqb c old = false) by (apply Ascii.eqb_neq; congruence).
    rewrite Hcb. reflexivity.
Qed.

Lemma replaceByte_gone (old new : ascii) (s : string) :
  new ≠ old → strings.ContainsByte (replaceByte old new s) old = false.
Proof.
  intros Hne. unfold strings.ContainsByte, replaceByte.
  rewrite list_ascii_of_string_of_list_ascii.
  induction (list_ascii_of_string s) as [|c l IH]; [reflexivity|].
  cbn [map existsb]. rewrite IH, orb_false_r.
  destruct (Ascii.eqb c old) eqn:E; apply Ascii.eqb_neq.
  - congruence.
  - apply Ascii.eqb_neq in E. congruence.
Qed.

Lemma replaceByte_len (old new : ascii) (s : string) : len (replaceByte old new s) = len s.
Proof.
  unfold replaceByte, len. induction s as [|c s IH]; [reflexivity|].
  cbn [list_ascii_of_string map string_of_list_ascii String.length]. now rewrite IH.
Qed.

(** X18. The two entry points of the crawl are the fixed prefixes followed
    by the topic with each space replaced, by [+] for the news search and by
    [_] for the encyclopedia: the URLs have no space in them, and every
    other byte of the topic is passed on as it is. *)
Theorem entry_URLs_have_no_space (topic : string) :
  searchURL topic = "https://news.google.com/search?q=" +:+ replaceByte " " "+" topic
  ∧ wikiURL topic = "https://en.wikipedia.org/wiki/" +:+ replaceByte " " "_" topic
  ∧ strings.ContainsByte (searchURL topic) " " = false
  ∧ strings.ContainsByte (wikiURL topic) " " = false.
Proof.
  assert (Hs : searchURL topic
               = "https://news.google.com/search?q=" +:+ replaceByte " " "+" topic).
  { unfold searchURL, strings.ReplaceAll. f_equal. apply (replaceFrom_byte " " "+"). }
  assert (Hw : wikiURL topic
               = "https://en.wikipedia.org/wiki/" +:+ replaceByte " " "_" topic).
  { unfold wikiURL, strings.ReplaceAll. f_equal. apply (replaceFrom_byte " " "_"). }
  split; [exact Hs|]. split; [exact Hw|].
  rewrite Hs, Hw, !ContainsByte_app, !replaceByte_gone by discriminate.
  split; reflexivity.
Qed.

(** ** Paragraphs and acceptance *)

Lemma len_followed (kept : list string) :
  len (followed kept) = sum_list (map (fun p => len p + 2)%nat kept).
Proof.
  induction kept as [|p kept IH]; [reflexivity|].
  cbn [followed fold_right map sum_list]. fold (followed kept).
  rewrite !len_app, IH. cbn. lia.
Qed.

Lemma extract_Text (e : HTMLElement) :
  ScrapedContent.Text (extract e) = followed (keptParagraphs e).
Proof.
  unfold extract, keptParagraphs. cbn [ScrapedContent.Text].
  now rewrite fold_paragraphStep.
Qed.

Lemma keptParagraphs_long (e : HTMLElement) :
  Forall (fun p => 20 < len p)%nat (keptParagraphs e).
Proof.
  unfold keptParagraphs. apply Forall_forall. intros p Hp.
  apply list_elem_of_filter in Hp as [Hp _]. apply Is_true_true in Hp.
  now apply Nat.ltb_lt in Hp.
Qed.

Lemma sum_long (kept : list string) :
  Forall (fun p => 20 < len p)%nat kept →
  (23 * length kept ≤ sum_list (map (fun p => len p + 2)%nat kept))%nat.
Proof.
  induction 1 as [|p kept Hp _ IH]; [cbn; lia|].
  cbn [map length]. change (sum_list (?x :: ?l)) with (x + sum_list l)%nat.
  cbn beta. lia.
Qed.

(** X19. The text of a record is as long as its kept paragraphs and the
    blank lines after them, so an element with a headline and five kept
    paragraphs is always recorded while the bound is not reached: five
    paragraphs of more than 20 bytes make more than 100 bytes. *)
Theorem onHTML_records_five_paragraphs (maxCount count : nat)
        (contents : list ScrapedContent.t) (e : HTMLElement) :
  (count < maxCount)%nat →
  ChildText e "h1, h2, .title, .headline" ≠ "" →
  (5 ≤ length (keptParagraphs e))%nat →
  len (ScrapedContent.Text (extract e))
  = sum_list (map (fun p => len p + 2)%nat (keptParagraphs e))
  ∧ onHTML maxCount (count, contents) e = (S count, contents ++ [extract e]).
Proof.
  intros Hcount Htitle Hfive.
  assert (Hlen : len (ScrapedContent.Text (extract e))
                 = sum_list (map (fun p => len p + 2)%nat (keptParagraphs e))).
  { now rewrite extract_Text, len_followed. }
  split; [exact Hlen|].
  unfold onHTML. apply Nat.leb_gt in Hcount. rewrite Hcount.
  pose proof (sum_long _ (keptParagraphs_long e)) as Hsum.
  assert (Hlong : (100 <? len (ScrapedContent.Text (extract e)))%nat = true).
  { apply Nat.ltb_lt. rewrite Hlen. lia. }
  rewrite Hlong.
  assert (Ht : String.eqb (ScrapedContent.Title (extract e)) "" = false).
  { apply String.eqb_neq. exact Htitle. }
  rewrite Ht. reflexivity.
Qed.

Lemma onHTML_records_five_paragraphs_witness :
  len (ScrapedContent.Text (extract fiveParagraphs)) = 115%nat
  ∧ onHTML Template.maxCount (4%nat, []) fiveParagraphs = (5%nat, [extract fiveParagraphs]).
Proof.
  assert (H5 : (5 ≤ length (keptParagraphs fiveParagraphs))%nat)
    by (vm_compute; lia).
  destruct (onHTML_records_five_paragraphs Template.maxCount 4 [] fiveParagraphs)
    as [Hlen Hrec].
  - unfold Template.maxCount. lia.
  - discriminate.
  - exact H5.
  - split; [rewrite Hlen; vm_compute; reflexivity|exact Hrec].
Defined.

(** ** The reading time and the image links *)

Lemma countWords_proxied (acc : Z) (block : Provider.BlogContent.t) :
  Provider.countWords acc (proxied block) = Provider.countWords acc block.
Proof.
  unfold proxied. destruct (String.eqb (Provider.BlogContent.Type_ block) "image");
    reflexivity.
Qed.

Lemma fold_countWords_proxied (content : list Provider.BlogContent.t) (acc : Z) :
  fold_left Provider.countWords (map proxied content) acc
  = fold_left Provider.countWords content acc.
Proof.
  revert acc. induction content as [|b content IH]; intros acc; [reflexivity|].
  cbn [map fold_left]. now rewrite countWords_proxied, IH.
Qed.

(** X20. Rewriting the image links leaves the reading time as it was: the
    handler estimates it on the rewritten blocks, and gets the reading time
    of the blocks that the generation script answered with. *)
Theorem readingTime_ignores_proxying (response : Provider.LlamaIndexResponse.t) :
  Provider.estimateReadingTime
    (Provider.LlamaIndexResponse.Content (Provider.proxyImages response))
  = Provider.estimateReadingTime (Provider.LlamaIndexResponse.Content response).
Proof.
  unfold Provider.proxyImages.
  cbn [Provider.LlamaIndexResponse.Content Provider.LlamaIndexResponse.set_Content
    Provider.LlamaIndexResponse.set_FeaturedImage].
  rewrite proxyStep_all. unfold Provider.estimateReadingTime.
  now rewrite fold_countWords_proxied.
Qed.

(* ===================================================================== *)
(** * What a listing holds *)
(* ===================================================================== *)

Lemma substring_split (s : string) (n : nat) :
  (n ≤ String.length s)%nat →
  String.substring 0 n s +:+ String.substring n (String.length s - n) s = s.
Proof.
  revert s. induction n as [|n IH]; intros s Hn.
  - rewrite Nat.sub_0_r, substring_all. now destruct s.
  - destruct s as [|c s]; cbn [String.length] in Hn; [lia|].
    cbn [String.substring String.length String.append Nat.sub].
    rewrite IH by lia. reflexivity.
Qed.

Lemma TrimSuffix_HasSuffix (s suffix : string) :
  strings.HasSuffix s suffix = true → strings.TrimSuffix s suffix +:+ suffix = s.
Proof.
  intros H. unfold strings.TrimSuffix. rewrite H.
  unfold strings.HasSuffix in H. apply andb_true_iff in H as [Hlen Heq].
  apply Nat.leb_le in Hlen. apply String.eqb_eq in Heq. unfold len in *.
  rewrite <- Heq at 2.
  replace (String.length suffix)
    with (String.length s - (String.length s - String.length suffix))%nat at 3 by lia.
  apply substring_split. lia.
Qed.

(** X21. A listing holds nothing but stored documents: every document that
    [getAllBlogs] returns is what [getBlogByID] returns for some identifier
    (the name of its file without the extension, which need not be the
    identifier written in the document).  And the listing fails only when
    the store directory cannot be read: with the directory in place it
    returns a list, whatever the files hold. *)
Theorem getAllBlogs_lists_stored_documents (fs : gmap (list string) node) :
  (∀ blogs blog, Provider.getAllBlogs fs = Ok blogs → blog ∈ blogs →
     ∃ id, Provider.getBlogByID fs id = Ok blog)
  ∧ (∀ blogs blog, Template.getAllBlogs fs = Ok blogs → blog ∈ blogs →
       ∃ id, Template.getBlogByID fs id = Ok blog)
  ∧ (fs !! ["data"; "blogs"] = Some Dir →
     (∃ blogs, Provider.getAllBlogs fs = Ok blogs)
     ∧ (∃ blogs, Template.getAllBlogs fs = Ok blogs)).
Proof.
  split; [|split].
  - intros blogs blog. unfold Provider.getAllBlogs.
    destruct (os.ReadDir fs Provider.dataDir) as [files|e].
    + intros [= <-]. rewrite Provider_fold_collect. cbn [app].
      intros (file & _ & Hload)%list_elem_of_omap.
      unfold Provider_load, Provider.collect in Hload.
      destruct (String.eqb (filepath.Ext (os.Name file)) ".json"); [|discriminate].
      destruct (Provider.getBlogByID fs _) as [found|] eqn:Hget; [|discriminate].
      injection Hload as <-. eexists. exact Hget.
    + destruct (os.IsNotExist e); [|discriminate].
      intros [= <-] Hin. now apply elem_of_nil in Hin.
  - intros blogs blog. unfold Template.getAllBlogs.
    destruct (os.ReadDir fs "data/blogs") as [files|e]; [|discriminate].
    intros [= <-]. rewrite Template_fold_collect. cbn [app].
    intros (file & _ & Hload)%list_elem_of_omap.
    unfold Template_load, Template.collect in Hload.
    destruct (negb (os.IsDir file)); [|discriminate]. cbn [andb] in Hload.
    destruct (strings.HasSuffix (os.Name file) ".json") eqn:Hsuffix; [|discriminate].
    destruct (os.ReadFile fs _) as [data|] eqn:Hread; [|discriminate].
    destruct (Template.unmarshal data) as [found|] eqn:Hdecode; [|discriminate].
    injection Hload as <-.
    exists (strings.TrimSuffix (os.Name file) ".json").
    unfold Template.getBlogByID.
    now rewrite (TrimSuffix_HasSuffix _ _ Hsuffix), Hread.
  - intros Hdir. unfold Provider.getAllBlogs, Template.getAllBlogs, Provider.dataDir,
      os.ReadDir.
    destruct Clean_blogs as [-> ->].
    change (os.stat fs ["data"; "blogs"]) with (fs !! ["data"; "blogs"]).
    rewrite Hdir. split; now eexists.
Qed.

Lemma getAllBlogs_lists_stored_documents_witness :
  let blog := templateDoc "b" "Tidal Power" in
  Template.getAllBlogs misfiled = Ok [blog]
  ∧ Template.getBlogByID misfiled "b" = Err ErrNotExist
  ∧ ∃ id, Template.getBlogByID misfiled id = Ok blog.
Proof.
  intros blog.
  assert (Hlist : Template.getAllBlogs misfiled = Ok [blog]) by (vm_compute; reflexivity).
  split; [exact Hlist|]. split; [vm_compute; reflexivity|].
  apply (proj1 (proj2 (getAllBlogs_lists_stored_documents misfiled)) [blog] blog Hlist).
  apply list_elem_of_here.
Defined.

(* ===================================================================== *)
(** * What one visit gathers *)
(* ===================================================================== *)

Lemma fold_onHTML_gathers (maxCount : nat) (es : list HTMLElement)
      (count : nat) (contents : list ScrapedContent.t) :
  (count ≤ maxCount)%nat →
  let new := take (maxCount - count)
                  (filter (fun c => acceptable c = true) (map extract es)) in
  fold_left (onHTML maxCount) es (count, contents)
  = ((count + length new)%nat, contents ++ new).
Proof.
  revert count contents. induction es as [|e es IH]; intros count contents Hcount new.
  - subst new. cbn [map fold_left]. rewrite filter_nil, take_nil. cbn [length].
    now rewrite Nat.add_0_r, app_nil_r.
  - subst new. cbn [fold_left map]. unfold onHTML at 2.
    destruct (maxCount <=? count)%nat eqn:Hfull.
    + apply Nat.leb_le in Hfull. rewrite (IH count contents Hcount).
      replace (maxCount - count)%nat with 0%nat by lia. reflexivity.
    + apply Nat.leb_gt in Hfull. fold (acceptable (extract e)).
      destruct (acceptable (extract e)) eqn:Hok.
      * rewrite filter_cons_True by exact Hok.
        rewrite (IH (S count) (contents ++ [extract e])) by lia.
        replace (maxCount - count)%nat with (S (maxCount - S count)) by lia.
        cbn [take length]. rewrite <- app_assoc. cbn [app]. f_equal. lia.
      * rewrite filter_cons_False by (rewrite Hok; discriminate).
        apply (IH count contents Hcount).
Qed.

(** X22. One visit adds to the corpus the records of the acceptable
    elements of the page (a headline, and more than 100 bytes of text), in
    the order of the page and as many as the bound leaves room for; the
    counter goes up by their number, elements that are not acceptable leave
    no trace, and the records gathered before stay in place. *)
Theorem Visit_gathers (w : World) (maxCount count : nat) (u : string)
        (contents : list ScrapedContent.t) :
  (count ≤ maxCount)%nat →
  Visit w maxCount u (count, contents)
  = ((count + length (gathered w maxCount count u))%nat,
     contents ++ gathered w maxCount count u,
     visitFailed (colly_Visit w u)).
Proof.
  intros Hcount. unfold Visit, gathered.
  now rewrite (fold_onHTML_gathers maxCount _ count contents Hcount).
Qed.

Lemma Visit_gathers_witness :
  Visit sevenElements Template.maxCount "https://en.wikipedia.org/wiki/Tidal_power" (0%nat, [])
  = (5%nat, replicate 5 (extract fiveParagraphs), false).
Proof.
  rewrite (Visit_gathers sevenElements Template.maxCount 0
             "https://en.wikipedia.org/wiki/Tidal_power" []).
  - vm_compute. reflexivity.
  - unfold Template.maxCount. lia.
Defined.

(* ===================================================================== *)
(** * When a save succeeds; what a successful request leaves *)
(* ===================================================================== *)



(** The outcome of making the directory in a tree, by what is there. *)
Lemma mkdirs_outcome fs :
  treeFS fs →
  let made := os.mkdirs fs [] ["data"; "blogs"] in
  (made.2 = None ↔ (∀ c, fs !! ["data"] ≠ Some (File c))
                   ∧ (∀ c, fs !! ["data"; "blogs"] ≠ Some (File c)))
  ∧ (made.2 = None → made.1 !! ["data"; "blogs"] = Some Dir)
  ∧ (made.2 ≠ None → made.1 = fs ∧ fs !! ["data"; "blogs"] ≠ Some Dir).
Proof.
  intros Htree. cbn [os.mkdirs app os.stat].
  destruct (fs !! ["data"]) as [[c|]|] eqn:Hdata.
  - cbn [fst snd]. split; [|split].
    + split; [discriminate|]. intros [H _]. now destruct (H c).
    + discriminate.
    + intros _. split; [reflexivity|]. intros Hb.
      pose proof (tree_blogs _ _ Htree Hb). congruence.
  - destruct (fs !! ["data"; "blogs"]) as [[c|]|] eqn:Hblogs; cbn [fst snd].
    + split; [|split].
      * split; [discriminate|]. intros [_ H]. now destruct (H c).
      * discriminate.
      * intros _. split; [reflexivity|discriminate].
    + split; [|split].
      * split; [|reflexivity]. intros _. split; intros c; discriminate.
      * intros _. exact Hblogs.
      * intros H. now destruct H.
    + split; [|split].
      * split; [|reflexivity]. intros _. split; intros c; discriminate.
      * intros _. apply lookup_insert_eq.
      * intros H. now destruct H.
  - assert (Hblogs : fs !! ["data"; "blogs"] = None).
    { destruct (fs !! ["data"; "blogs"]) as [n|] eqn:E; [|reflexivity].
      pose proof (tree_blogs _ _ Htree E). congruence. }
    rewrite lookup_insert_ne by discriminate. rewrite Hblogs. cbn [fst snd].
    split; [|split].
    + split; [|reflexivity]. intros _. split; intros c; discriminate.
    + intros _. apply lookup_insert_eq.
    + intros H. now destruct H.
Qed.



(** X24. A request that is answered with a document has stored it: after
    the handler answered with the document, the file of the document's
    identifier holds the document as marshalled, in the store directory, and
    the identifier is the one that was drawn.  With the statement on
    failures, the handler writes a file exactly when it answers with the
    document. *)
Theorem generateBlogHandler_success_is_stored (w : World)
        (fs fs' : gmap (list string) node) (body : content) :
  plainID (uuid_New w) = true →
  (∀ blog, Provider.generateBlogHandler w fs body = (fs', Provider.Body blog) →
     Provider.BlogPost.ID blog = uuid_New w
     ∧ fs' !! ["data"; "blogs"] = Some Dir
     ∧ fs' !! blogPath (uuid_New w) = Some (File (Provider.marshal blog)))
  ∧ (∀ blog, Template.generateBlogHandler w fs body = (fs', Done (Template.Body blog)) →
       Template.BlogPost.ID blog = uuid_New w
       ∧ fs' !! ["data"; "blogs"] = Some Dir
       ∧ fs' !! blogPath (uuid_New w) = Some (File (Template.marshal blog))).
Proof.
  intros Hplain. split; intros blog.
  - unfold Provider.generateBlogHandler.
    destruct (RequestBody.decode body) as [reqBody|]; [|discriminate].
    destruct (String.eqb (RequestBody.Topic reqBody) ""); [discriminate|].
    destruct (Provider.scrapeContentForTopic w _) as [scraped|]; [|discriminate].
    destruct (length scraped =? 0)%nat; [discriminate|].
    destruct (Provider.GenerateBlogWithLlamaIndex w _ scraped) as [resp|]; [|discriminate].
    match goal with |- context [Provider.saveBlogPost fs ?b] =>
      pose proof (Provider_saved_state fs fs' b Hplain) as Hsave;
      destruct (Provider.saveBlogPost fs b) as [fs1 [e|]]
    end; [discriminate|].
    intros [= -> <-]. split; [reflexivity|]. now apply Hsave.
  - unfold Template.generateBlogHandler.
    destruct (RequestBody.decode body) as [reqBody|]; [|discriminate].
    destruct (String.eqb (RequestBody.Topic reqBody) ""); [discriminate|].
    destruct (Template.scrapeContentForTopic w _) as [scraped|]; [|discriminate].
    destruct (length scraped =? 0)%nat; [discriminate|].
    match goal with |- context [Template.generateBlogPost w ?p] =>
      destruct (generateBlogPost_document w p)
        as (_ & _ & _ & _ & _ & _ & made & -> & HID & _)
    end.
    rewrite <- HID in Hplain.
    pose proof (Template_saved_state fs fs' made Hplain) as Hsave.
    destruct (Template.saveBlogPost fs made) as [fs1 [e|]]; [discriminate|].
    intros [= -> <-]. rewrite <- HID. split; [reflexivity|]. now apply Hsave.
Qed.

Lemma generateBlogHandler_success_is_stored_witness :
  let body := JSONText (JObject [("topic", JString "Renewable Energy")]) in
  let answer := Provider.generateBlogHandler scripted ∅ body in
  ∃ blog, answer.2 = Provider.Body blog
          ∧ answer.1 !! blogPath (uuid_New scripted) = Some (File (Provider.marshal blog)).
Proof.
  intros body answer.
  destruct answer.2 as [blog|code msg cause] eqn:Hreply; [|vm_compute in Hreply; discriminate].
  exists blog. split; [reflexivity|].
  apply (proj1 (generateBlogHandler_success_is_stored scripted ∅ answer.1 body eq_refl) blog).
  rewrite <- Hreply. apply surjective_pairing.
Defined.

(* ===================================================================== *)
(** * What the store gives back, for every document *)
(* ===================================================================== *)

Lemma intoSlice_coerced (l cur : list string) :
  jsonlib.intoSlice jsonlib.intoString "" (jsonlib.encSlice jsonlib.encString l) cur
  = Some (map jsonlib.coerceUTF8 l).
Proof.
  unfold jsonlib.intoSlice, jsonlib.encSlice.
  induction l as [|s l IH]; [reflexivity|]. simpl. now rewrite IH.
Qed.

(** The members of a string field are decoded into the record so far,
    giving the record with the field set to the coerced string. *)
Ltac absorb_coerced field setter text :=
  lazymatch goal with
  | |- fold_left (jsonlib.member field) (?seg ++ ?rest) (Some ?cur) = _ =>
    rewrite (fold_left_app (jsonlib.member field) seg rest (Some cur));
    replace (fold_left (jsonlib.member field) seg (Some cur))
      with (Some (setter (jsonlib.coerceUTF8 text) cur));
    [| destruct text; unfold jsonlib.optString, jsonlib.encString;
       decode_members field; reflexivity ]
  | |- fold_left (jsonlib.member field) ?seg (Some ?cur) = _ =>
    replace (fold_left (jsonlib.member field) seg (Some cur))
      with (Some (setter (jsonlib.coerceUTF8 text) cur));
    [| destruct text; unfold jsonlib.optString, jsonlib.encString;
       decode_members field; reflexivity ]
  end.

Ltac absorb_strings field setter items :=
  lazymatch goal with
  | |- fold_left (jsonlib.member field) (?seg ++ ?rest) (Some ?cur) = _ =>
    rewrite (fold_left_app (jsonlib.member field) seg rest (Some cur));
    replace (fold_left (jsonlib.member field) seg (Some cur))
      with (Some (setter (map jsonlib.coerceUTF8 items) cur));
    [| destruct items; unfold jsonlib.optSlice; [reflexivity|];
       cbn [fold_left]; unfold jsonlib.member, field;
       cbn [fst snd mbind option_bind]; match_names;
       rewrite intoSlice_coerced; reflexivity ]
  end.

Lemma Provider_block_stored (b : Provider.BlogContent.t) :
  jsonlib.isInt (Provider.BlogContent.Level b) = true →
  Provider.BlogContent.decodeInto (Provider.BlogContent.encode b) Provider.BlogContent.zero
  = Some (Provider_storedBlock b).
Proof.
  destruct b as [type text level url alt caption].
  unfold Provider_storedBlock. cbn [Provider.BlogContent.Type_
    Provider.BlogContent.Text Provider.BlogContent.Level Provider.BlogContent.URL
    Provider.BlogContent.Alt Provider.BlogContent.Caption].
  intros Hlevel.
  unfold Provider.BlogContent.encode. cbn [Provider.BlogContent.Type_
    Provider.BlogContent.Text Provider.BlogContent.Level Provider.BlogContent.URL
    Provider.BlogContent.Alt Provider.BlogContent.Caption].
  unfold jsonlib.optInt, Provider.BlogContent.decodeInto, jsonlib.intoStruct.
  absorb_coerced Provider.BlogContent.field Provider.BlogContent.set_Type_ type.
  absorb_coerced Provider.BlogContent.field Provider.BlogContent.set_Text text.
  absorb Provider.BlogContent.field Provider.BlogContent.set_Level level.
  absorb_coerced Provider.BlogContent.field Provider.BlogContent.set_URL url.
  absorb_coerced Provider.BlogContent.field Provider.BlogContent.set_Alt alt.
  absorb_coerced Provider.BlogContent.field Provider.BlogContent.set_Caption caption.
  reflexivity.
Qed.

Lemma Template_block_stored (b : Template.BlogContent.t) :
  jsonlib.isInt (Template.BlogContent.Level b) = true →
  Template.BlogContent.decodeInto (Template.BlogContent.encode b) Template.BlogContent.zero
  = Some (Template_storedBlock b).
Proof.
  destruct b as [type text level url alt caption citation items ordered].
  unfold Template_storedBlock. cbn [Template.BlogContent.Type_
    Template.BlogContent.Text Template.BlogContent.Level Template.BlogContent.URL
    Template.BlogContent.Alt Template.BlogContent.Caption Template.BlogContent.Citation
    Template.BlogContent.Items Template.BlogContent.Ordered].
  intros Hlevel.
  unfold Template.BlogContent.encode. cbn [Template.BlogContent.Type_
    Template.BlogContent.Text Template.BlogContent.Level Template.BlogContent.URL
    Template.BlogContent.Alt Template.BlogContent.Caption Template.BlogContent.Citation
    Template.BlogContent.Items Template.BlogContent.Ordered].
  unfold jsonlib.optInt, jsonlib.optBool, Template.BlogContent.decodeInto,
    jsonlib.intoStruct.
  absorb_coerced Template.BlogContent.field Template.BlogContent.set_Type_ type.
  absorb_coerced Template.BlogContent.field Template.BlogContent.set_Text text.
  absorb Template.BlogContent.field Template.BlogContent.set_Level level.
  absorb_coerced Template.BlogContent.field Template.BlogContent.set_URL url.
  absorb_coerced Template.BlogContent.field Template.BlogContent.set_Alt alt.
  absorb_coerced Template.BlogContent.field Template.BlogContent.set_Caption caption.
  absorb_coerced Template.BlogContent.field Template.BlogContent.set_Citation citation.
  absorb_strings Template.BlogContent.field Template.BlogContent.set_Items items.
  absorb Template.BlogContent.field Template.BlogContent.set_Ordered ordered.
  reflexivity.
Qed.

Lemma Provider_document_stored (d : Provider.BlogPost.t) :
  Provider_intsFit d = true →
  Provider.unmarshal (Provider.marshal d) = Ok (Provider_stored d).
Proof.
  destruct d as [id title author date summary content featured tags reading topic].
  unfold Provider_intsFit, Provider_stored. cbn [Provider.BlogPost.ID Provider.BlogPost.Title
    Provider.BlogPost.Author Provider.BlogPost.Date Provider.BlogPost.Summary
    Provider.BlogPost.Content Provider.BlogPost.FeaturedImage Provider.BlogPost.Tags
    Provider.BlogPost.ReadingTime Provider.BlogPost.Topic].
  rewrite andb_true_iff. intros [Hreading Hcontent].
  unfold Provider.unmarshal, Provider.marshal, Provider.BlogPost.encode.
  cbn [Provider.BlogPost.ID Provider.BlogPost.Title
    Provider.BlogPost.Author Provider.BlogPost.Date Provider.BlogPost.Summary
    Provider.BlogPost.Content Provider.BlogPost.FeaturedImage Provider.BlogPost.Tags
    Provider.BlogPost.ReadingTime Provider.BlogPost.Topic].
  unfold Provider.BlogPost.decodeInto, jsonlib.intoStruct, jsonlib.encString.
  cbn [app]. decode_members Provider.BlogPost.field.
  rewrite (intoSlice_converted _ _ _ Provider_storedBlock _ content _
             Provider_block_stored Hcontent).
  cbn [mbind option_bind]. rewrite intoSlice_coerced.
  cbn [mbind option_bind]. rewrite ?Hreading. reflexivity.
Qed.

Lemma Template_document_stored (d : Template.BlogPost.t) :
  Template_intsFit d = true →
  Template.unmarshal (Template.marshal d) = Ok (Template_stored d).
Proof.
  destruct d as [id title author date summary content featured tags reading topic].
  unfold Template_intsFit, Template_stored. cbn [Template.BlogPost.ID Template.BlogPost.Title
    Template.BlogPost.Author Template.BlogPost.Date Template.BlogPost.Summary
    Template.BlogPost.Content Template.BlogPost.FeaturedImage Template.BlogPost.Tags
    Template.BlogPost.ReadingTime Template.BlogPost.Topic].
  rewrite andb_true_iff. intros [Hreading Hcontent].
  unfold Template.unmarshal, Template.marshal, Template.BlogPost.encode.
  cbn [Template.BlogPost.ID Template.BlogPost.Title
    Template.BlogPost.Author Template.BlogPost.Date Template.BlogPost.Summary
    Template.BlogPost.Content Template.BlogPost.FeaturedImage Template.BlogPost.Tags
    Template.BlogPost.ReadingTime Template.BlogPost.Topic].
  unfold Template.BlogPost.decodeInto, jsonlib.intoStruct, jsonlib.encString.
  cbn [app]. decode_members Template.BlogPost.field.
  rewrite (intoSlice_converted _ _ _ Template_storedBlock _ content _
             Template_block_stored Hcontent).
  cbn [mbind option_bind]. rewrite intoSlice_coerced.
  cbn [mbind option_bind]. rewrite ?Hreading. reflexivity.
Qed.

(** X25. What the store gives back, for every document.  When
    [saveBlogPost] returned without error, [getBlogByID] with the
    identifier of the document returns the document with every string
    coerced to valid UTF-8 (each byte that is not part of a well-formed
    sequence replaced by U+FFFD) and everything else as it was: the numbers,
    the order and number of the blocks and of the tags, the empty fields.
    This holds in both back ends, for every identifier and file system. *)
Theorem save_then_get_coerces :
  (∀ fs fs' blog,
     Provider_intsFit blog = true →
     Provider.saveBlogPost fs blog = (fs', None) →
     Provider.getBlogByID fs' (Provider.BlogPost.ID blog) = Ok (Provider_stored blog))
  ∧ (∀ fs fs' blog,
       Template_intsFit blog = true →
       Template.saveBlogPost fs blog = (fs', None) →
       Template.getBlogByID fs' (Template.BlogPost.ID blog) = Ok (Template_stored blog)).
Proof.
  split; intros fs fs' blog Hfit Hsaved.
  - rewrite (Provider_read_written _ _ _ Hsaved). now apply Provider_document_stored.
  - rewrite (Template_read_written _ _ _ Hsaved). now apply Template_document_stored.
Qed.

Lemma save_then_get_coerces_witness :
  let saved := Provider.saveBlogPost ∅ untypable in
  saved.2 = None
  ∧ Provider.getBlogByID saved.1 (Provider.BlogPost.ID untypable)
    = Ok (Provider_stored untypable)
  ∧ Provider.BlogPost.Title (Provider_stored untypable) = jsonlib.replacement.
Proof.
  intros saved.
  assert (Hnone : saved.2 = None) by (vm_compute; reflexivity).
  split; [exact Hnone|]. split.
  - apply (proj1 save_then_get_coerces ∅ saved.1 untypable); [reflexivity|].
    rewrite <- Hnone. apply surjective_pairing.
  - vm_compute. reflexivity.
Defined.

(* ===================================================================== *)
(** * The store over many requests *)
(* ===================================================================== *)

(** Adding an entry under a directory keeps the tree, unless a file takes
    the place of a directory. *)
Lemma treeFS_insert fs (p : list string) (n : node) :
  treeFS fs → os.stat fs (removelast p) = Some Dir →
  (n = Dir ∨ fs !! p ≠ Some Dir) →
  treeFS (<[p := n]> fs).
Proof.
  intros Htree Hparent Hkind. unfold treeFS.
  assert (Hstat : ∀ q, os.stat fs q = Some Dir → os.stat (<[p := n]> fs) q = Some Dir).
  { intros q Hq. destruct q as [|e q]; [reflexivity|]. unfold os.stat in *.
    destruct (decide (p = e :: q)) as [->|Hne].
    - rewrite lookup_insert_eq. destruct Hkind as [->|Hnot]; [reflexivity|contradiction].
    - now rewrite lookup_insert_ne. }
  apply map_Forall_insert_2.
  - apply Hstat, Hparent.
  - intros q m Hq. apply Hstat. exact (Htree q m Hq).
Qed.

Lemma treeFS_mkdirs fs : treeFS fs → treeFS (os.mkdirs fs [] ["data"; "blogs"]).1.
Proof.
  intros Htree. cbn [os.mkdirs app os.stat].
  destruct (fs !! ["data"]) as [[c|]|] eqn:Hdata; [exact Htree| |].
  - destruct (fs !! ["data"; "blogs"]) as [[c|]|] eqn:Hblogs; try exact Htree.
    cbn [fst]. apply treeFS_insert; [exact Htree|exact Hdata|now left].
  - assert (Hmade : treeFS (<[["data"] := Dir]> fs)).
    { apply treeFS_insert; [exact Htree|reflexivity|now left]. }
    destruct (<[["data"] := Dir]> fs !! ["data"; "blogs"]) as [[c|]|] eqn:Hblogs;
      try exact Hmade.
    cbn [fst]. apply treeFS_insert; [exact Hmade|apply lookup_insert_eq|now left].
Qed.

Lemma treeFS_WriteFile fs p c : treeFS fs → treeFS (os.WriteFile fs p c).1.
Proof.
  intros Htree. unfold os.WriteFile.
  destruct (os.stat fs p) as [[c'|]|] eqn:Hp; [|exact Htree|].
  - destruct (os.stat fs (removelast p)) as [[?|]|] eqn:Hparent; try exact Htree.
    cbn [fst]. apply treeFS_insert; [exact Htree|exact Hparent|].
    right. destruct p; [discriminate|]. unfold os.stat in Hp. congruence.
  - destruct (os.stat fs (removelast p)) as [[?|]|] eqn:Hparent; try exact Htree.
    cbn [fst]. apply treeFS_insert; [exact Htree|exact Hparent|].
    right. destruct p; [discriminate|]. unfold os.stat in Hp. congruence.
Qed.

Lemma mkdirs_keeps_directory fs :
  fs !! ["data"; "blogs"] = Some Dir →
  (os.mkdirs fs [] ["data"; "blogs"]).1 !! ["data"; "blogs"] = Some Dir.
Proof.
  intros Hblogs. cbn [os.mkdirs app os.stat].
  destruct (fs !! ["data"]) as [[c|]|]; [exact Hblogs| |].
  - now rewrite Hblogs.
  - rewrite lookup_insert_ne by discriminate. rewrite Hblogs. cbn [fst].
    now rewrite lookup_insert_ne by discriminate.
Qed.

Lemma Template_save_shape fs blog :
  plainID (Template.BlogPost.ID blog) = true →
  let fs' := (Template.saveBlogPost fs blog).1 in
  (treeFS fs → treeFS fs')
  ∧ (fs !! ["data"; "blogs"] = Some Dir → fs' !! ["data"; "blogs"] = Some Dir).
Proof.
  intros Hplain. unfold Template.saveBlogPost, os.MkdirAll.
  rewrite (proj1 Clean_blogs), (proj1 (Join_plain _ Hplain)).
  pose proof (treeFS_mkdirs fs) as Htree. pose proof (mkdirs_keeps_directory fs) as Hdir.
  destruct (os.mkdirs fs [] ["data"; "blogs"]) as [fs1 e1]. cbn [fst] in *. split.
  - intros H. apply treeFS_WriteFile, Htree, H.
  - intros H. rewrite WriteFile_other by discriminate. now apply Hdir.
Qed.

Lemma Provider_save_shape fs blog :
  plainID (Provider.BlogPost.ID blog) = true →
  let fs' := (Provider.saveBlogPost fs blog).1 in
  (treeFS fs → treeFS fs')
  ∧ (fs !! ["data"; "blogs"] = Some Dir → fs' !! ["data"; "blogs"] = Some Dir).
Proof.
  intros Hplain. unfold Provider.saveBlogPost, Provider.dataDir, os.MkdirAll.
  rewrite (proj2 Clean_blogs), (proj2 (Join_plain _ Hplain)).
  pose proof (treeFS_mkdirs fs) as Htree. pose proof (mkdirs_keeps_directory fs) as Hdir.
  destruct (os.mkdirs fs [] ["data"; "blogs"]) as [fs1 [e1|]]; cbn [fst] in *.
  - split; [exact Htree|exact Hdir].
  - split.
    + intros H. apply treeFS_WriteFile, Htree, H.
    + intros H. rewrite WriteFile_other by discriminate. now apply Hdir.
Qed.

(** What a request to generate does to the file system: nothing, or the
    save of a document under the identifier drawn. *)
Lemma Template_handler_step w fs body :
  (Template.generateBlogHandler w fs body).1 = fs
  ∨ ∃ blog, Template.BlogPost.ID blog = uuid_New w
            ∧ (Template.generateBlogHandler w fs body).1 = (Template.saveBlogPost fs blog).1.
Proof.
  unfold Template.generateBlogHandler.
  destruct (RequestBody.decode body) as [reqBody|]; [|now left].
  destruct (String.eqb (RequestBody.Topic reqBody) ""); [now left|].
  destruct (Template.scrapeContentForTopic w _) as [scraped|]; [|now left].
  destruct (length scraped =? 0)%nat; [now left|].
  match goal with |- context [Template.generateBlogPost w ?p] =>
    destruct (generateBlogPost_document w p)
      as (_ & _ & _ & _ & _ & _ & blog & -> & HID & _)
  end.
  right. exists blog. split; [exact HID|].
  now destruct (Template.saveBlogPost fs blog) as [fs1 [e|]].
Qed.

Lemma Provider_handler_step w fs body :
  (Provider.generateBlogHandler w fs body).1 = fs
  ∨ ∃ blog, Provider.BlogPost.ID blog = uuid_New w
            ∧ (Provider.generateBlogHandler w fs body).1 = (Provider.saveBlogPost fs blog).1.
Proof.
  unfold Provider.generateBlogHandler.
  destruct (RequestBody.decode body) as [reqBody|]; [|now left].
  destruct (String.eqb (RequestBody.Topic reqBody) ""); [now left|].
  destruct (Provider.scrapeContentForTopic w _) as [scraped|]; [|now left].
  destruct (length scraped =? 0)%nat; [now left|].
  destruct (Provider.GenerateBlogWithLlamaIndex w _ scraped) as [resp|]; [|now left].
  right.
  match goal with |- context [Provider.saveBlogPost fs ?b] =>
    exists b; split; [reflexivity|];
    now destruct (Provider.saveBlogPost fs b) as [fs1 [e|]]
  end.
Qed.

(** One request keeps the tree and the store directory, and touches the
    file of no identifier but the one it draws. *)
Lemma Provider_step_shape w fs body :
  treeFS fs → plainID (uuid_New w) = true →
  treeFS (Provider.generateBlogHandler w fs body).1
  ∧ (fs !! ["data"; "blogs"] = Some Dir →
     (Provider.generateBlogHandler w fs body).1 !! ["data"; "blogs"] = Some Dir)
  ∧ ∀ id, uuid_New w ≠ id →
      (Provider.generateBlogHandler w fs body).1 !! blogPath id = fs !! blogPath id.
Proof.
  intros Htree Hw.
  destruct (Provider_handler_step w fs body) as [->|(blog & HID & ->)].
  - repeat split; [exact Htree|tauto].
  - rewrite <- HID in Hw. destruct (Provider_save_shape fs blog Hw) as [H1 H2].
    split; [exact (H1 Htree)|]. split; [exact H2|].
    intros id Hne. rewrite <- HID in Hne.
    destruct (other_file id (Provider.BlogPost.ID blog)) as (N1 & N2 & N3);
      [congruence|].
    now apply Provider_save_frame.
Qed.

Lemma Template_step_shape w fs body :
  treeFS fs → plainID (uuid_New w) = true →
  treeFS (Template.generateBlogHandler w fs body).1
  ∧ (fs !! ["data"; "blogs"] = Some Dir →
     (Template.generateBlogHandler w fs body).1 !! ["data"; "blogs"] = Some Dir)
  ∧ ∀ id, uuid_New w ≠ id →
      (Template.generateBlogHandler w fs body).1 !! blogPath id = fs !! blogPath id.
Proof.
  intros Htree Hw.
  destruct (Template_handler_step w fs body) as [->|(blog & HID & ->)].
  - repeat split; [exact Htree|tauto].
  - rewrite <- HID in Hw. destruct (Template_save_shape fs blog Hw) as [H1 H2].
    split; [exact (H1 Htree)|]. split; [exact H2|].
    intros id Hne. rewrite <- HID in Hne.
    destruct (other_file id (Template.BlogPost.ID blog)) as (N1 & N2 & N3);
      [congruence|].
    now apply Template_save_frame.
Qed.

Lemma Template_serve_directory (requests : list (World * content))
      (fs : gmap (list string) node) :
  Forall plainRequest requests → treeFS fs → fs !! ["data"; "blogs"] = Some Dir →
  Template_serve requests fs !! ["data"; "blogs"] = Some Dir.
Proof.
  intros Hplain. revert fs.
  induction Hplain as [|[w body] requests Hw _ IH]; intros fs Htree Hdir; [exact Hdir|].
  unfold Template_serve. cbn [fold_left fst snd].
  destruct (Template_step_shape w fs body Htree Hw) as (S1 & S2 & _).
  apply IH; [exact S1|exact (S2 Hdir)].
Qed.

(** X26. The store over many requests.  However many requests to generate
    are served, in whatever worlds (each drawing an identifier that is a
    file name): the file system stays a tree, the store directory stays in
    place once it is there, and a stored document stays as it is until a
    request draws its identifier again.  This holds in both back ends. *)
Theorem serving_keeps_the_store (requests : list (World * content))
        (fs : gmap (list string) node) :
  treeFS fs → Forall plainRequest requests →
  (treeFS (Provider_serve requests fs)
   ∧ (fs !! ["data"; "blogs"] = Some Dir →
      Provider_serve requests fs !! ["data"; "blogs"] = Some Dir)
   ∧ (∀ id, Forall (fun r => uuid_New r.1 ≠ id) requests →
        Provider_serve requests fs !! blogPath id = fs !! blogPath id))
  ∧ (treeFS (Template_serve requests fs)
     ∧ (fs !! ["data"; "blogs"] = Some Dir →
        Template_serve requests fs !! ["data"; "blogs"] = Some Dir)
     ∧ (∀ id, Forall (fun r => uuid_New r.1 ≠ id) requests →
          Template_serve requests fs !! blogPath id = fs !! blogPath id)).
Proof.
  intros Htree Hplain. revert fs Htree.
  induction Hplain as [|[w body] requests Hw _ IH]; intros fs Htree.
  { unfold Provider_serve, Template_serve. cbn [fold_left].
    repeat split; auto. }
  unfold Provider_serve, Template_serve. cbn [fold_left fst snd].
  fold (Provider_serve requests (Provider.generateBlogHandler w fs body).1).
  fold (Template_serve requests (Template.generateBlogHandler w fs body).1).
  split.
  - destruct (Provider_step_shape w fs body Htree Hw) as (S1 & S2 & S3).
    destruct (proj1 (IH _ S1)) as (I1 & I2 & I3).
    split; [exact I1|]. split; [intros H; exact (I2 (S2 H))|].
    intros id Hids. apply Forall_cons in Hids as [Hid Hids]. cbn [fst] in Hid.
    rewrite (I3 id Hids). now apply S3.
  - destruct (Template_step_shape w fs body Htree Hw) as (S1 & S2 & S3).
    destruct (proj2 (IH _ S1)) as (I1 & I2 & I3).
    split; [exact I1|]. split; [intros H; exact (I2 (S2 H))|].
    intros id Hids. apply Forall_cons in Hids as [Hid Hids]. cbn [fst] in Hid.
    rewrite (I3 id Hids). now apply S3.
Qed.

Lemma twoRequests_plain : Forall plainRequest twoRequests.
Proof. repeat constructor. Qed.

Lemma serving_keeps_the_store_witness :
  treeFS (Provider_serve twoRequests blocked)
  ∧ Provider_serve twoRequests dirs !! ["data"; "blogs"] = Some Dir.
Proof.
  split.
  - apply (serving_keeps_the_store twoRequests blocked blocked_tree twoRequests_plain).
  - refine (proj1 (proj2 (proj1 (serving_keeps_the_store twoRequests dirs _
                                   twoRequests_plain))) eq_refl).
    unfold treeFS, dirs. apply map_Forall_insert_2; [reflexivity|].
    apply map_Forall_insert_2; [reflexivity|]. apply map_Forall_empty.
Defined.

(** X27. After [main] has made the store directory, listing never fails
    in the template back end: whatever requests to generate were served
    since, [getBlogsHandler] answers with a list and not with an error.  (At
    start-up the file system is a tree in which neither [data] nor
    [data/blogs] is a regular file.) *)
Theorem Template_listing_after_startup (requests : list (World * content))
        (fs : gmap (list string) node) :
  treeFS fs →
  (∀ c, fs !! ["data"] ≠ Some (File c)) →
  (∀ c, fs !! ["data"; "blogs"] ≠ Some (File c)) →
  Forall plainRequest requests →
  ∃ blogs, Template.getBlogsHandler (Template_serve requests (Template.main fs))
           = Template.Body blogs.
Proof.
  intros Htree Hdata Hblogs Hplain.
  destruct (mkdirs_outcome fs Htree) as (Hiff & Hmade & _).
  assert (Hstart : treeFS (Template.main fs)
                   ∧ Template.main fs !! ["data"; "blogs"] = Some Dir).
  { unfold Template.main, os.MkdirAll. rewrite (proj1 Clean_blogs). split.
    - now apply treeFS_mkdirs.
    - apply Hmade, Hiff. now split. }
  destruct Hstart as [Htree' Hdir'].
  pose proof (Template_serve_directory requests _ Hplain Htree' Hdir') as Hkept.
  unfold Template.getBlogsHandler, Template.getAllBlogs, os.ReadDir.
  rewrite (proj1 Clean_blogs).
  change (os.stat ?m ["data"; "blogs"]) with (m !! ["data"; "blogs"]).
  rewrite Hkept. now eexists.
Qed.

Lemma Template_listing_after_startup_witness :
  ∃ blogs, Template.getBlogsHandler (Template_serve twoRequests (Template.main ∅))
           = Template.Body blogs.
Proof.
  apply (Template_listing_after_startup twoRequests ∅).
  - apply map_Forall_empty.
  - intros c. rewrite lookup_empty. discriminate.
  - intros c. rewrite lookup_empty. discriminate.
  - exact twoRequests_plain.
Defined.
